(** * College-basketball shot charts: the derivation queries of [map_app_2.py]

    A shallow embedding of the query functions of the Flask application
    ([get_team_games], [get_player_shots], [get_games], [get_players],
    [search_player], [get_player_games], [get_player_season_chart],
    [get_shot_chart], [create_shot_chart]) over the two base tables, and the
    properties the specification states about them.

    Modelling conventions.
    - A DataFrame is the list of its rows, in row order.
    - A cell that the source treats as possibly missing ([pd.notna],
      [dropna], [na=False], the unmatched side of a left merge) is an
      [option]; identifiers that the source converts with [int(...)]
      unconditionally, names of teams and the game date are always present.
    - Identifiers are integers.  [astype(float)] on the box-score athlete
      identifier is the identity on them (identifiers are far below 2^53,
      where binary64 holds every integer exactly).  The join key is followed
      in its stored form, integer or binary64, in module [IdRepr].
    - Strings are ASCII strings; [lower] acts on the letters A-Z.
    - A Python exception is the [Raise] branch of [result].
    - The rendered image (matplotlib) is left out of the responses; titles
      and statistics are kept. *)

From Stdlib Require Import ZArith List String Ascii Bool Lia.
From Stdlib Require Import Sorted Permutation.
From Stdlib Require Import Numbers.DecimalString.
From Stdlib Require Import Floats.SpecFloat.
Import ListNotations.

Open Scope string_scope.
Open Scope Z_scope.

Set Implicit Arguments.

(* ================================================================== *)
(** ** Python results and exceptions *)

Inductive exn : Type :=
| IndexError
| ValueError
| ZeroDivisionError.

Inductive result (A : Type) : Type :=
| Ok (a : A)
| Raise (e : exn).

Arguments Ok {A} a.
Arguments Raise {A} e.

Definition bind {A B : Type} (m : result A) (k : A -> result B) : result B :=
  match m with
  | Ok a => k a
  | Raise e => Raise e
  end.

Notation "x <- m ;; k" := (bind m (fun x => k))
  (at level 61, m at next level, right associativity).

(** A [for] loop whose body may raise: the first exception aborts the loop. *)
Fixpoint mapM {A B : Type} (f : A -> result B) (l : list A) : result (list B) :=
  match l with
  | [] => Ok []
  | x :: t => y <- f x ;; ys <- mapM f t ;; Ok (y :: ys)
  end.

(* ================================================================== *)
(** ** Generic table operations *)

Section Tables.
Variable A : Type.

(** [Series.unique()] and [drop_duplicates()]: keep the first occurrence
    of every value, in order of appearance. *)
Fixpoint unique_by (eqb : A -> A -> bool) (l : list A) : list A :=
  match l with
  | [] => []
  | x :: t => x :: filter (fun y => negb (eqb x y)) (unique_by eqb t)
  end.

(** Stable insertion sort; [leb x y] says that [x] may stand before [y]. *)
Fixpoint insert_by (leb : A -> A -> bool) (x : A) (l : list A) : list A :=
  match l with
  | [] => [x]
  | y :: t => if leb x y then x :: y :: t else y :: insert_by leb x t
  end.

Fixpoint sort_by (leb : A -> A -> bool) (l : list A) : list A :=
  match l with
  | [] => []
  | x :: t => insert_by leb x (sort_by leb t)
  end.

(** Adjacent elements of a list sorted by [leb] are [ordered]. *)
Definition ordered (leb : A -> A -> bool) (x y : A) : Prop := leb x y = true.

(** [GroupBy.last()] on one column: the last entry of the column within
    the group that is not missing. *)
Fixpoint last_valid (col : list (option A)) : option A :=
  match col with
  | [] => None
  | c :: t =>
      match last_valid t with
      | Some v => Some v
      | None => c
      end
  end.

(** [df.iloc[0]]. *)
Definition iloc0 (l : list A) : result A :=
  match l with
  | [] => Raise IndexError
  | x :: _ => Ok x
  end.

(** [df.iloc[-1]]. *)
Fixpoint iloc_last (l : list A) : result A :=
  match l with
  | [] => Raise IndexError
  | [x] => Ok x
  | _ :: t => iloc_last t
  end.
End Tables.

(** Comparison of two possibly missing cells with [==]: a missing cell
    (NaN) is equal to nothing, not even to another missing cell. *)
Definition cell_eqb {A : Type} (eqb : A -> A -> bool) (x y : option A) : bool :=
  match x, y with
  | Some a, Some b => eqb a b
  | _, _ => false
  end.

(** Equality of merge keys and of rows under [drop_duplicates]: there,
    two missing cells count as equal. *)
Definition key_eqb {A : Type} (eqb : A -> A -> bool) (x y : option A) : bool :=
  match x, y with
  | Some a, Some b => eqb a b
  | None, None => true
  | _, _ => false
  end.

(* ================================================================== *)
(** ** Strings *)

Definition is_upper (c : ascii) : bool :=
  let n := nat_of_ascii c in (65 <=? n)%nat && (n <=? 90)%nat.

Definition lower_ascii (c : ascii) : ascii :=
  if is_upper c then ascii_of_nat (nat_of_ascii c + 32) else c.

(** [str.lower()]. *)
Fixpoint lower (s : string) : string :=
  match s with
  | EmptyString => EmptyString
  | String c t => String (lower_ascii c) (lower t)
  end.

(** [part in s]: substring test. *)
Fixpoint contains (part s : string) : bool :=
  String.prefix part s ||
  match s with
  | EmptyString => false
  | String _ t => contains part t
  end.

(** Whitespace of [str.split()] within ASCII: TAB, LF, VT, FF, CR, the four
    separators FS, GS, RS, US, and the space. *)
Definition is_space (c : ascii) : bool :=
  let n := nat_of_ascii c in
  ((9 <=? n)%nat && (n <=? 13)%nat) || ((28 <=? n)%nat && (n <=? 32)%nat).

Definition flush (cur : string) (k : list string) : list string :=
  match cur with
  | EmptyString => k
  | _ => cur :: k
  end.

(** [str.split()] with no argument: the maximal runs of non-whitespace.
    [cur] is the token being read. *)
Fixpoint split_from (cur : string) (s : string) : list string :=
  match s with
  | EmptyString => flush cur []
  | String c t =>
      if is_space c then flush cur (split_from EmptyString t)
      else split_from (cur ++ String c EmptyString) t
  end.

Definition split (s : string) : list string := split_from EmptyString s.

(** [str.split(' ')]: the pieces between single spaces, empty pieces kept. *)
Fixpoint split_on_from (sep : ascii) (cur : string) (s : string) : list string :=
  match s with
  | EmptyString => [cur]
  | String c t =>
      if Ascii.eqb c sep then cur :: split_on_from sep EmptyString t
      else split_on_from sep (cur ++ String c EmptyString) t
  end.

Definition split_on (sep : ascii) (s : string) : list string :=
  split_on_from sep EmptyString s.

(** [f"{int(x)}"]. *)
Definition str_of_int (z : Z) : string := NilZero.string_of_int (Z.to_int z).

Definition str_of_nat (n : nat) : string := str_of_int (Z.of_nat n).

(** Two-digit zero-padded field of [strftime] ([%m], [%d]). *)
Definition pad2 (n : nat) : string :=
  if (n <? 10)%nat then "0" ++ str_of_nat n else str_of_nat n.

(* ================================================================== *)
(** ** Dates *)

Record date : Type := mkDate { year : nat; month : nat; day : nat }.

(** Chronological order, the order of the [game_date] column. *)
Definition date_leb (a b : date) : bool :=
  (year a <? year b)%nat
  || ((year a =? year b)%nat
      && ((month a <? month b)%nat
          || ((month a =? month b)%nat && (day a <=? day b)%nat))).

(** [pd.to_datetime(d).strftime('%m/%d/%Y')]. *)
Definition strftime (d : date) : string :=
  pad2 (month d) ++ "/" ++ pad2 (day d) ++ "/" ++ str_of_nat (year d).

(* ================================================================== *)
(** ** The base tables *)

(** One row of the play-by-play table [pbp_df]. *)
Module Pbp.
Record row : Type := mk {
  game_id : Z;
  game_date : date;
  home_team_id : Z;
  home_team_name : string;
  away_team_id : Z;
  away_team_name : string;
  home_score : option Z;
  away_score : option Z;
  athlete_id_1 : option Z;
  team_id : option Z;
  type_text : option string;
  shooting_play : bool;
  scoring_play : bool
}.
End Pbp.

(** One row of the box-score table [box_df]. *)
Module Box.
Record row : Type := mk {
  game_id : Z;
  athlete_id : option Z;
  athlete_display_name : option string;
  team_id : Z;
  team_display_name : option string
}.
End Box.

(** One row of the frame returned by [get_team_games]. *)
Module Game.
Record row : Type := mk {
  game_id : Z;
  game_date : date;
  home_team_name : string;
  away_team_name : string;
  home_score : option Z;
  away_score : option Z;
  home_team_id : Z;
  away_team_id : Z
}.
End Game.

(** One row of [team_shots]: a play with the display name merged in. *)
Module Shot.
Record row : Type := mk {
  play : Pbp.row;
  athlete_display_name : option string
}.
End Shot.

(* ================================================================== *)
(** ** Numbers of the JSON responses *)

(** binary64. *)
Definition prec : Z := 53.
Definition emax : Z := 1024.

(** [float(n)] for a Python integer; exact below 2^53. *)
Definition float_of_Z (z : Z) : spec_float := binary_normalize prec emax z 0 false.

(** A Python number: the literal [0] of the guarded branch is an [int],
    the computed percentage is a [float]. *)
Inductive pynum : Type :=
| PyInt (z : Z)
| PyFloat (f : spec_float).

(** [a / b] on two lengths: true division, raising on a zero divisor. *)
Definition truediv (a b : nat) : result spec_float :=
  if (b =? 0)%nat then Raise ZeroDivisionError
  else Ok (SFdiv prec emax (float_of_Z (Z.of_nat a)) (float_of_Z (Z.of_nat b))).

(** [(makes / total * 100) if total > 0 else 0]. *)
Definition percentage_of (makes total : nat) : result pynum :=
  if (0 <? total)%nat then
    q <- truediv makes total ;;
    Ok (PyFloat (SFmul prec emax q (float_of_Z 100)))
  else Ok (PyInt 0).

(** [pd.notna]. *)
Definition notna {A : Type} (c : option A) : bool :=
  match c with
  | Some _ => true
  | None => false
  end.

(** [int(x)] on a score cell: [int(nan)] raises [ValueError]. *)
Definition py_int (c : option Z) : result Z :=
  match c with
  | Some z => Ok z
  | None => Raise ValueError
  end.

(** [a > b] on two score cells: any comparison with NaN is false. *)
Definition cell_gtb (a b : option Z) : bool :=
  match a, b with
  | Some x, Some y => y <? x
  | _, _ => false
  end.

(** [Series.dropna()]. *)
Definition dropna {A : Type} (l : list (option A)) : list A :=
  flat_map (fun c => match c with Some a => [a] | None => [] end) l.

(** [str(x)] on a display-name cell: a missing name prints as [nan]. *)
Definition py_str (c : option string) : string :=
  match c with
  | Some s => s
  | None => "nan"
  end.

(* ================================================================== *)
(** ** Records of the JSON responses *)

Module GameJson.
Record t : Type := mk {
  game_id : Z;
  date : string;
  opponent : string;
  location : string;
  score : string
}.
End GameJson.

Module PlayerJson.
Record t : Type := mk {
  player_id : nat;
  name : string;
  shots : nat;
  makes : nat;
  percentage : pynum
}.
End PlayerJson.

Module SearchJson.
Record t : Type := mk {
  player_name : option string;
  team_name : string;
  team_id : Z;
  total_games : nat;
  total_shots : nat;
  total_makes : nat
}.
End SearchJson.

Module PlayerGameJson.
Record t : Type := mk {
  game_id : Z;
  date : string;
  opponent : string;
  location : string;
  score : string;
  shots : nat;
  makes : nat
}.
End PlayerGameJson.

Module Stats.
Record t : Type := mk {
  makes : nat;
  misses : Z;
  total : nat;
  percentage : pynum;
  games : option nat  (* present in the season chart only *)
}.
End Stats.

Module Chart.
Record t : Type := mk {
  title : string;
  stats : Stats.t
}.
End Chart.

(** What a chart route hands to Flask: a body with status 200, or the
    error body with status 404. *)
Inductive response (A : Type) : Type :=
| Json200 (body : A)
| Json404 (error : string).

Arguments Json200 {A} body.
Arguments Json404 {A} error.

(* ================================================================== *)
(** ** The queries *)

Section Queries.
(** The two global frames, loaded once by [load_data]. *)
Variable pbp_df : list Pbp.row.
Variable box_df : list Box.row.

(** *** [get_team_games] *)

Definition plays_in (team_id : Z) (r : Pbp.row) : bool :=
  (Pbp.home_team_id r =? team_id) || (Pbp.away_team_id r =? team_id).

(** The keys of [groupby('game_id')], in ascending order ([sort=True]). *)
Definition group_keys (rows : list Pbp.row) : list Z :=
  sort_by Z.leb (unique_by Z.eqb (map Pbp.game_id rows)).

Definition group_of (k : Z) (rows : list Pbp.row) : list Pbp.row :=
  filter (fun r => Pbp.game_id r =? k) rows.

(** [.last()] on one group, restricted to the selected columns: every
    column yields its last entry that is not missing.  For the columns
    without missing cells that is the entry of the last row. *)
Definition agg_last (k : Z) (grp : list Pbp.row) : list Game.row :=
  match last_valid (map (@Some Pbp.row) grp) with
  | Some r =>
      [ Game.mk k (Pbp.game_date r)
          (Pbp.home_team_name r) (Pbp.away_team_name r)
          (last_valid (map Pbp.home_score grp))
          (last_valid (map Pbp.away_score grp))
          (Pbp.home_team_id r) (Pbp.away_team_id r) ]
  | None => []
  end.

Definition game_date_leb (a b : Game.row) : bool :=
  date_leb (Game.game_date a) (Game.game_date b).

(** Rows of equal date come out in the order of the grouping; pandas
    leaves their order open, and nothing below depends on it. *)
Definition get_team_games (team_id : Z) : list Game.row :=
  let team_games := filter (plays_in team_id) pbp_df in
  let game_info :=
    flat_map (fun k => agg_last k (group_of k team_games))
             (group_keys team_games) in
  sort_by game_date_leb game_info.

(** *** [get_player_shots] *)

Definition name_row : Type := (option Z * option string)%type.

Definition name_row_eqb (a b : name_row) : bool :=
  key_eqb Z.eqb (fst a) (fst b) && key_eqb String.eqb (snd a) (snd b).

Definition roster_columns (b : Box.row) : name_row :=
  (Box.athlete_id b, Box.athlete_display_name b).

(** [type_text.str.contains('FreeThrow', case=False, na=False)]. *)
Definition is_free_throw (type_text : option string) : bool :=
  match type_text with
  | Some s => contains (lower "FreeThrow") (lower s)
  | None => false
  end.

(** The left merge on one play: one output row per matching name row, or
    a single row with a missing name when none matches. *)
Definition merge_names (names : list name_row) (r : Pbp.row) : list Shot.row :=
  match filter (fun n => key_eqb Z.eqb (Pbp.athlete_id_1 r) (fst n)) names with
  | [] => [Shot.mk r None]
  | ms => map (fun n => Shot.mk r (snd n)) ms
  end.

Definition is_team_shot (team_id : Z) (s : Shot.row) : bool :=
  cell_eqb Z.eqb (Pbp.team_id (Shot.play s)) (Some team_id)
  && Bool.eqb (Pbp.shooting_play (Shot.play s)) true
  && negb (is_free_throw (Pbp.type_text (Shot.play s))).

Definition get_player_shots (game_id team_id : Z)
  : list Shot.row * list name_row :=
  let game_box := filter (fun b => Box.game_id b =? game_id) box_df in
  let names := unique_by name_row_eqb (map roster_columns game_box) in
  let game_shots := filter (fun r => Pbp.game_id r =? game_id) pbp_df in
  let game_shots := flat_map (merge_names names) game_shots in
  let team_shots := filter (is_team_shot team_id) game_shots in
  let team_players :=
    unique_by name_row_eqb
      (map roster_columns
           (filter (fun b => Box.team_id b =? team_id) game_box)) in
  (team_shots, team_players).

(** [shots[shots['scoring_play'] == True]]. *)
Definition scoring (shots : list Shot.row) : list Shot.row :=
  filter (fun s => Bool.eqb (Pbp.scoring_play (Shot.play s)) true) shots.

(** [shots[shots['athlete_display_name'] == name]]. *)
Definition shots_of (name : option string) (shots : list Shot.row)
  : list Shot.row :=
  filter (fun s => cell_eqb String.eqb (Shot.athlete_display_name s) name)
         shots.

(** *** Home/away perspective, shared by the listings and the chart *)

Record perspective : Type := mkPerspective {
  opponent : string;
  location : string;
  team_score : option Z;
  opp_score : option Z
}.

Definition perspective_of (team_id : Z)
    (home_id : Z) (home_name away_name : string) (home_sc away_sc : option Z)
  : perspective :=
  if home_id =? team_id
  then mkPerspective away_name "vs" home_sc away_sc
  else mkPerspective home_name "@" away_sc home_sc.

(** The perspective on a row of [get_team_games] and on a play-by-play
    row. *)
Definition game_perspective (team_id : Z) (row : Game.row) : perspective :=
  perspective_of team_id (Game.home_team_id row)
    (Game.home_team_name row) (Game.away_team_name row)
    (Game.home_score row) (Game.away_score row).

Definition play_perspective (team_id : Z) (row : Pbp.row) : perspective :=
  perspective_of team_id (Pbp.home_team_id row)
    (Pbp.home_team_name row) (Pbp.away_team_name row)
    (Pbp.home_score row) (Pbp.away_score row).

Definition win_loss (p : perspective) : string :=
  if cell_gtb (team_score p) (opp_score p) then "W" else "L".

(** [f"{result} {int(team_score)}-{int(opp_score)}"]. *)
Definition result_line (p : perspective) : result string :=
  t <- py_int (team_score p) ;;
  o <- py_int (opp_score p) ;;
  Ok (win_loss p ++ " " ++ str_of_int t ++ "-" ++ str_of_int o).

(** *** [get_games] *)

Definition game_entry (team_id : Z) (row : Game.row) : result GameJson.t :=
  let p := game_perspective team_id row in
  score_str <-
    (if notna (team_score p) && notna (opp_score p)
     then result_line p
     else Ok "TBD") ;;
  Ok (GameJson.mk (Game.game_id row) (strftime (Game.game_date row))
        (opponent p) (location p) score_str).

Definition get_games (team_id : Z) : result (list GameJson.t) :=
  mapM (game_entry team_id) (get_team_games team_id).

(** *** [get_players] *)

Definition roster_names (team_players : list name_row) : list string :=
  sort_by String.leb (unique_by String.eqb (dropna (map snd team_players))).

Definition player_entry (team_shots : list Shot.row)
    (ip : nat * string) : result PlayerJson.t :=
  let player_shot_data := shots_of (Some (snd ip)) team_shots in
  let shots_count := List.length player_shot_data in
  let makes_count := List.length (scoring player_shot_data) in
  pct <- percentage_of makes_count shots_count ;;
  Ok (PlayerJson.mk (fst ip) (snd ip) shots_count makes_count pct).

Definition get_players (game_id team_id : Z) : result (list PlayerJson.t) :=
  let '(team_shots, team_players) := get_player_shots game_id team_id in
  let total_shots := List.length team_shots in
  let total_makes := List.length (scoring team_shots) in
  pct <- percentage_of total_makes total_shots ;;
  let team_view := PlayerJson.mk 0 "Team View" total_shots total_makes pct in
  let names := roster_names team_players in
  players <- mapM (player_entry team_shots)
                  (combine (seq 1 (List.length names)) names) ;;
  Ok (team_view :: players).

(** *** The box-score rows of one player, shared by three routes *)

Definition player_rows (player_name : option string) (team_id : Z)
  : list Box.row :=
  filter (fun b => cell_eqb String.eqb (Box.athlete_display_name b) player_name
                   && (Box.team_id b =? team_id))
         box_df.

(** [player_games['game_id'].unique()]. *)
Definition player_game_ids (player_name : option string) (team_id : Z)
  : list Z :=
  unique_by Z.eqb (map Box.game_id (player_rows player_name team_id)).

(** The player's shots in one game, re-derived through [get_player_shots]. *)
Definition player_shots_in (player_name : option string) (team_id game_id : Z)
  : list Shot.row :=
  let '(team_shots, _) := get_player_shots game_id team_id in
  shots_of player_name team_shots.

(** *** [search_player] *)

Definition candidate : Type := (option string * option string * Z)%type.

Definition cand_name (c : candidate) : option string := fst (fst c).
Definition cand_team_name (c : candidate) : option string := snd (fst c).
Definition cand_team_id (c : candidate) : Z := snd c.

Definition candidate_eqb (a b : candidate) : bool :=
  key_eqb String.eqb (cand_name a) (cand_name b)
  && key_eqb String.eqb (cand_team_name a) (cand_team_name b)
  && (cand_team_id a =? cand_team_id b).

Definition candidate_columns (b : Box.row) : candidate :=
  (Box.athlete_display_name b, Box.team_display_name b, Box.team_id b).

(** [all(part in player_name_lower for part in search_parts)]. *)
Definition matches (search_parts : list string) (c : candidate) : bool :=
  let player_name_lower := lower (py_str (cand_name c)) in
  forallb (fun part => contains part player_name_lower) search_parts.

Record tally : Type := mkTally {
  games_with_shots : nat;
  total_shots : nat;
  total_makes : nat
}.

(** One turn of the loop over the player's games. *)
Definition tally_game (player_name : option string) (team_id : Z)
    (acc : tally) (game_id : Z) : tally :=
  let player_shots := player_shots_in player_name team_id game_id in
  if (0 <? List.length player_shots)%nat
  then mkTally (games_with_shots acc + 1)
               (total_shots acc + List.length player_shots)
               (total_makes acc + List.length (scoring player_shots))
  else acc.

Definition tally_player (player_name : option string) (team_id : Z) : tally :=
  fold_left (tally_game player_name team_id)
            (player_game_ids player_name team_id)
            (mkTally 0 0 0).

Definition search_entry (c : candidate) : list SearchJson.t :=
  let t := tally_player (cand_name c) (cand_team_id c) in
  if (0 <? games_with_shots t)%nat
  then [ SearchJson.mk (cand_name c)
           (match cand_team_name c with Some n => n | None => "Unknown" end)
           (cand_team_id c)
           (games_with_shots t) (total_shots t) (total_makes t) ]
  else [].

Definition search_player (player_name : string) : list SearchJson.t :=
  let players := unique_by candidate_eqb (map candidate_columns box_df) in
  let search_parts := split (lower player_name) in
  let matching_players := filter (matches search_parts) players in
  if (List.length matching_players =? 0)%nat then []
  else flat_map search_entry matching_players.

(** *** [get_player_games] *)

(** One turn of the loop: nothing for a game without shots of the player
    ([continue]), one record otherwise. *)
Definition player_game_entry (team_id : Z) (player_name : string)
    (game_id : Z) : result (list PlayerGameJson.t) :=
  let player_shots := player_shots_in (Some player_name) team_id game_id in
  if (List.length player_shots =? 0)%nat then Ok []
  else
    let game_data := filter (fun r => Pbp.game_id r =? game_id) pbp_df in
    if (List.length game_data =? 0)%nat then Ok []
    else
      game_row <- iloc_last game_data ;;
      let p := play_perspective team_id game_row in
      score_str <-
        (if notna (team_score p) then result_line p else Ok "TBD") ;;
      Ok [ PlayerGameJson.mk game_id (strftime (Pbp.game_date game_row))
             (opponent p) (location p) score_str
             (List.length player_shots)
             (List.length (scoring player_shots)) ].

Definition date_str_leb (a b : PlayerGameJson.t) : bool :=
  String.leb (PlayerGameJson.date a) (PlayerGameJson.date b).

Definition get_player_games (team_id : Z) (player_name : string)
  : result (list PlayerGameJson.t) :=
  results <- mapM (player_game_entry team_id player_name)
                  (player_game_ids (Some player_name) team_id) ;;
  Ok (sort_by date_str_leb (List.concat results)).

(** *** [get_player_season_chart] *)

(** The [short_name] lambda: first initial and last word of the name. *)
Definition short_name (x : option string) : result string :=
  match x with
  | None => Ok ""
  | Some s =>
      let parts := split_on " "%char s in
      first <- iloc0 parts ;;
      match first with
      | EmptyString => Raise IndexError
      | String c _ => Ok (String c (". " ++ last parts ""))
      end
  end.

Definition season_title (player_name : string) (games : nat) : string :=
  player_name ++ " - 2025-26 Season Shot Chart (" ++ str_of_nat games
              ++ " games)".

Definition get_player_season_chart (team_id : Z) (player_name : string)
  : result (response Chart.t) :=
  let game_ids := player_game_ids (Some player_name) team_id in
  let all_shots :=
    flat_map (fun game_id =>
                let player_shots :=
                  player_shots_in (Some player_name) team_id game_id in
                if (0 <? List.length player_shots)%nat
                then [player_shots] else [])
             game_ids in
  if (List.length all_shots =? 0)%nat then Ok (Json404 "No shots found")
  else
    let combined_shots := List.concat all_shots in
    _ <- mapM short_name (map Shot.athlete_display_name combined_shots) ;;
    let makes := scoring combined_shots in
    let title := season_title player_name (List.length game_ids) in
    let makes_count := List.length makes in
    let total := List.length combined_shots in
    pct <- percentage_of makes_count total ;;
    Ok (Json200
          (Chart.mk title
             (Stats.mk makes_count
                (Z.of_nat total - Z.of_nat makes_count)
                total pct (Some (List.length game_ids))))).

(** *** [create_shot_chart]: the title of the figure *)

Definition create_shot_chart (player_shots : list Shot.row)
    (player_name : string) (game_info : Game.row) (team_id : Z)
  : result string :=
  let date := strftime (Game.game_date game_info) in
  let p := game_perspective team_id game_info in
  score_str <-
    (if notna (team_score p)
     then line <- result_line p ;; Ok (" (" ++ line ++ ")")
     else Ok "") ;;
  Ok (player_name ++ " Shot Chart - " ++ location p ++ " " ++ opponent p
                  ++ " (" ++ date ++ ")" ++ score_str).

(** *** [get_shot_chart] *)

Definition get_shot_chart (game_id team_id : Z) (player_name : string)
  : result (response Chart.t) :=
  let '(team_shots, team_players) := get_player_shots game_id team_id in
  game_info <-
    iloc0 (filter (fun g => Game.game_id g =? game_id)
                  (get_team_games team_id)) ;;
  let player_shots :=
    if (player_name =? "Team View")%string then team_shots
    else shots_of (Some player_name) team_shots in
  if (List.length player_shots =? 0)%nat then Ok (Json404 "No shots found")
  else
    title <- create_shot_chart player_shots player_name game_info team_id ;;
    let makes := List.length (scoring player_shots) in
    let total := List.length player_shots in
    pct <- percentage_of makes total ;;
    Ok (Json200
          (Chart.mk title
             (Stats.mk makes (Z.of_nat total - Z.of_nat makes)
                total pct None))).

End Queries.

(* ================================================================== *)
(** ** Sample data, used by the worked examples below *)

Definition d (y m dd : nat) : date := mkDate y m dd.

(** A play of game [g] between home team [h] and away team [a]. *)
Definition play (g : Z) (dt : date) (h a : Z) (hs as_ : option Z)
    (ath tm : option Z) (ty : option string) (shooting scored : bool)
  : Pbp.row :=
  Pbp.mk g dt h "Home" a "Away" hs as_ ath tm ty shooting scored.

(* ================================================================== *)
(** ** Vocabulary of the specification *)

(** [part] occurs in [s] as a contiguous piece. *)
Definition is_substring (part s : string) : Prop :=
  exists pre post, s = pre ++ part ++ post.

(** [label] contains [word] as a substring, letter case ignored. *)
Definition mentions (word label : string) : Prop :=
  exists pre mid post, label = pre ++ mid ++ post /\ lower mid = lower word.

(** The reading of C4 that takes the final scores of a game record from
    the last play-by-play row of its group. *)
Definition scores_of_last_row (pbp_df : list Pbp.row) (T : Z) : Prop :=
  forall g, In g (get_team_games pbp_df T) ->
    exists r,
      iloc_last (group_of (Game.game_id g) (filter (plays_in T) pbp_df)) = Ok r
      /\ Game.home_score g = Pbp.home_score r
      /\ Game.away_score g = Pbp.away_score r.

(** A game whose closing play-by-play row carries no scores. *)
Definition pbp_closing_gap : list Pbp.row :=
  [ play 1 (d 2025 11 27) 8 9 (Some 0) (Some 0) None None None false false;
    play 1 (d 2025 11 27) 8 9 (Some 80) (Some 71)
         (Some 100) (Some 8) (Some "JumpShot") true true;
    play 1 (d 2025 11 27) 8 9 None None None None (Some "End Game") false false ].

(** The percentage the specification asks of every aggregation: zero for
    an empty shot set, makes divided by total times 100 otherwise. *)
Definition pct_spec (makes total : nat) : pynum :=
  if (total =? 0)%nat then PyInt 0
  else PyFloat (SFmul prec emax
                  (SFdiv prec emax (float_of_Z (Z.of_nat makes))
                                   (float_of_Z (Z.of_nat total)))
                  (float_of_Z 100)).

(** The shot carries the display name of one of [names]. *)
Definition listed (names : list string) (s : Shot.row) : bool :=
  existsb (fun n => cell_eqb String.eqb (Shot.athlete_display_name s) (Some n))
          names.

(** What shot [s] adds to the count of the player named [n]. *)
Definition hit (s : Shot.row) (n : string) : nat :=
  if cell_eqb String.eqb (Shot.athlete_display_name s) (Some n)
  then 1%nat else 0%nat.

(** The team shots of a game that no entry of the player list accounts
    for: their merged name is missing or is not a roster name. *)
Definition unlisted_shots (pbp_df : list Pbp.row) (box_df : list Box.row)
    (game_id team_id : Z) : list Shot.row :=
  let '(team_shots, team_players) :=
    get_player_shots pbp_df box_df game_id team_id in
  filter (fun s => negb (listed (roster_names team_players) s)) team_shots.

(** The reading of C3: the first entry's counts are the sums of the counts
    of the entries after it. *)
Definition team_view_is_sum (l : list PlayerJson.t) : Prop :=
  match l with
  | [] => False
  | tv :: players =>
      PlayerJson.shots tv = list_sum (map PlayerJson.shots players)
      /\ PlayerJson.makes tv = list_sum (map PlayerJson.makes players)
  end.

(** Two games of team 8.  Game 1 (home, 80-71): a made jump shot of athlete
    100, a missed lay-up of athlete 101, a missed jump shot that names no
    athlete, a made free throw.  Game 2 (away, 65-70): a made jump shot of
    athlete 100. *)
Definition pbp_sample : list Pbp.row :=
  [ play 1 (d 2025 11 27) 8 9 (Some 2) (Some 0)
         (Some 100) (Some 8) (Some "JumpShot") true true;
    play 1 (d 2025 11 27) 8 9 (Some 2) (Some 0)
         (Some 101) (Some 8) (Some "LayUpShot") true false;
    play 1 (d 2025 11 27) 8 9 (Some 2) (Some 0)
         None (Some 8) (Some "JumpShot") true false;
    play 1 (d 2025 11 27) 8 9 (Some 80) (Some 71)
         (Some 100) (Some 8) (Some "MadeFreeThrow") true true;
    play 2 (d 2025 11 4) 7 8 (Some 70) (Some 65)
         (Some 100) (Some 8) (Some "JumpShot") true true ].

(** Athlete 100 has box-score rows for games 1, 2 and 3; in game 3 the
    play-by-play table has no shot of that athlete. *)
Definition box_sample : list Box.row :=
  [ Box.mk 1 (Some 100) (Some "Cameron Boozer") 8 (Some "Duke");
    Box.mk 1 (Some 101) (Some "Al Bo") 8 (Some "Duke");
    Box.mk 2 (Some 100) (Some "Cameron Boozer") 8 (Some "Duke");
    Box.mk 3 (Some 100) (Some "Cameron Boozer") 8 (Some "Duke") ].

Definition shot_sample : Shot.row :=
  Shot.mk (play 1 (d 2025 11 27) 8 9 (Some 2) (Some 0)
                (Some 100) (Some 8) (Some "JumpShot") true true)
          (Some "Cameron Boozer").

(** Every character of [s] passes [p]. *)
Fixpoint string_forall (p : ascii -> bool) (s : string) : bool :=
  match s with
  | EmptyString => true
  | String c t => p c && string_forall p t
  end.

(** The score string of the player listing, by the cells of the two
    scores: [int(nan)] raises when only the opponent's score is missing. *)
Definition player_score (p : perspective) : result string :=
  match team_score p, opp_score p with
  | None, _ => Ok "TBD"
  | Some a, Some b =>
      Ok ((if b <? a then "W" else "L") ++ " " ++ str_of_int a ++ "-"
                                        ++ str_of_int b)
  | Some _, None => Raise ValueError
  end.

(** The player has at least one shot in the game. *)
Definition has_shots (pbp_df : list Pbp.row) (box_df : list Box.row)
    (player_name : option string) (team_id game_id : Z) : bool :=
  (0 <? List.length
          (player_shots_in pbp_df box_df player_name team_id game_id))%nat.

(** The response of [get_shot_chart] for Team View in game 1 of the
    sample. *)
Definition chart_sample : Chart.t :=
  Chart.mk "Team View Shot Chart - vs Away (11/27/2025) (W 80-71)"
           (Stats.mk 1 2 3 (pct_spec 1 3) None).

(** The response of [get_player_season_chart] for athlete 100 of the
    sample: three box-score games, two of them with shots. *)
Definition season_sample : Chart.t :=
  Chart.mk "Cameron Boozer - 2025-26 Season Shot Chart (3 games)"
           (Stats.mk 2 0 2 (pct_spec 2 2) (Some 3%nat)).

Definition search_sample : SearchJson.t :=
  SearchJson.mk (Some "Cameron Boozer") "Duke" 8 2 2 2.

(** Three players of team 150 with one made shot each in game 5. *)
Definition pbp_search : list Pbp.row :=
  [ play 5 (d 2025 12 2) 150 9 (Some 2) (Some 0)
         (Some 1) (Some 150) (Some "JumpShot") true true;
    play 5 (d 2025 12 2) 150 9 (Some 4) (Some 0)
         (Some 2) (Some 150) (Some "JumpShot") true true;
    play 5 (d 2025 12 2) 150 9 (Some 6) (Some 0)
         (Some 3) (Some 150) (Some "JumpShot") true true ].

Definition box_search : list Box.row :=
  [ Box.mk 5 (Some 1) (Some "Cameron Boozer") 150 (Some "Duke");
    Box.mk 5 (Some 2) (Some "Cam Boozer") 150 (Some "Duke");
    Box.mk 5 (Some 3) (Some "Cameron T. Boozer") 150 (Some "Duke") ].

(** Game 4 of team 8 (home): the closing row has the home score and no
    away score; athlete 100 made one shot. *)
Definition pbp_half_score : list Pbp.row :=
  [ play 4 (d 2025 12 9) 8 9 (Some 70) None
         (Some 100) (Some 8) (Some "JumpShot") true true ].

Definition box_half_score : list Box.row :=
  [ Box.mk 4 (Some 100) (Some "Cameron Boozer") 8 (Some "Duke") ].

(** Two games of athlete 100 across the turn of the year, one made shot
    in each: game 10 on 27 November 2025, game 11 on 5 January 2026. *)
Definition pbp_two_years : list Pbp.row :=
  [ play 10 (d 2025 11 27) 8 9 (Some 80) (Some 71)
         (Some 100) (Some 8) (Some "JumpShot") true true;
    play 11 (d 2026 1 5) 7 8 (Some 70) (Some 65)
         (Some 100) (Some 8) (Some "JumpShot") true true ].

Definition box_two_years : list Box.row :=
  [ Box.mk 10 (Some 100) (Some "Cameron Boozer") 8 (Some "Duke");
    Box.mk 11 (Some 100) (Some "Cameron Boozer") 8 (Some "Duke") ].

(* ================================================================== *)
(** ** The team directory: [load_data], [get_teams], [get_conferences] *)

Module Team.
Record t : Type := mk {
  team_id : Z;
  team_name : string;
  conference : string
}.
End Team.

(** The manual conference mapping, in the order of the source. *)
Definition CONFERENCE_MAP : list (string * string) :=
  [ ("Boston College", "ACC");
    ("California", "ACC");
    ("Clemson", "ACC");
    ("Duke", "ACC");
    ("Florida State", "ACC");
    ("Georgia Tech", "ACC");
    ("Louisville", "ACC");
    ("Miami", "ACC");
    ("North Carolina", "ACC");
    ("NC State", "ACC");
    ("Notre Dame", "ACC");
    ("Pittsburgh", "ACC");
    ("SMU", "ACC");
    ("Stanford", "ACC");
    ("Syracuse", "ACC");
    ("Virginia", "ACC");
    ("Virginia Tech", "ACC");
    ("Wake Forest", "ACC");
    ("Illinois", "Big Ten");
    ("Indiana", "Big Ten");
    ("Iowa", "Big Ten");
    ("Maryland", "Big Ten");
    ("Michigan", "Big Ten");
    ("Michigan State", "Big Ten");
    ("Minnesota", "Big Ten");
    ("Nebraska", "Big Ten");
    ("Northwestern", "Big Ten");
    ("Ohio State", "Big Ten");
    ("Oregon", "Big Ten");
    ("Penn State", "Big Ten");
    ("Purdue", "Big Ten");
    ("Rutgers", "Big Ten");
    ("UCLA", "Big Ten");
    ("USC", "Big Ten");
    ("Washington", "Big Ten");
    ("Wisconsin", "Big Ten");
    ("Arizona", "Big 12");
    ("Arizona State", "Big 12");
    ("Baylor", "Big 12");
    ("BYU", "Big 12");
    ("UCF", "Big 12");
    ("Cincinnati", "Big 12");
    ("Colorado", "Big 12");
    ("Houston", "Big 12");
    ("Iowa State", "Big 12");
    ("Kansas", "Big 12");
    ("Kansas State", "Big 12");
    ("Oklahoma State", "Big 12");
    ("TCU", "Big 12");
    ("Texas Tech", "Big 12");
    ("Utah", "Big 12");
    ("West Virginia", "Big 12");
    ("Alabama", "SEC");
    ("Arkansas", "SEC");
    ("Auburn", "SEC");
    ("Florida", "SEC");
    ("Georgia", "SEC");
    ("Kentucky", "SEC");
    ("LSU", "SEC");
    ("Ole Miss", "SEC");
    ("Mississippi State", "SEC");
    ("Missouri", "SEC");
    ("Oklahoma", "SEC");
    ("South Carolina", "SEC");
    ("Tennessee", "SEC");
    ("Texas", "SEC");
    ("Texas A&M", "SEC");
    ("Vanderbilt", "SEC");
    ("Butler", "Big East");
    ("Creighton", "Big East");
    ("Connecticut", "Big East");
    ("DePaul", "Big East");
    ("Georgetown", "Big East");
    ("Marquette", "Big East");
    ("Providence", "Big East");
    ("Seton Hall", "Big East");
    ("St. John's", "Big East");
    ("Villanova", "Big East");
    ("Xavier", "Big East");
    ("Charlotte", "American");
    ("East Carolina", "American");
    ("Florida Atlantic", "American");
    ("Memphis", "American");
    ("Navy", "American");
    ("North Texas", "American");
    ("Rice", "American");
    ("South Florida", "American");
    ("Temple", "American");
    ("Tulane", "American");
    ("Tulsa", "American");
    ("UAB", "American");
    ("UTSA", "American");
    ("Air Force", "Mountain West");
    ("Boise State", "Mountain West");
    ("Colorado State", "Mountain West");
    ("Fresno State", "Mountain West");
    ("Nevada", "Mountain West");
    ("New Mexico", "Mountain West");
    ("San Diego State", "Mountain West");
    ("San Jose State", "Mountain West");
    ("UNLV", "Mountain West");
    ("Utah State", "Mountain West");
    ("Wyoming", "Mountain West");
    ("Gonzaga", "WCC");
    ("Saint Mary's", "WCC");
    ("San Francisco", "WCC");
    ("Santa Clara", "WCC");
    ("Loyola Marymount", "WCC");
    ("Pacific", "WCC");
    ("Pepperdine", "WCC");
    ("Portland", "WCC");
    ("San Diego", "WCC");
    ("Davidson", "Atlantic 10");
    ("Dayton", "Atlantic 10");
    ("Duquesne", "Atlantic 10");
    ("Fordham", "Atlantic 10");
    ("George Mason", "Atlantic 10");
    ("George Washington", "Atlantic 10");
    ("La Salle", "Atlantic 10");
    ("Loyola Chicago", "Atlantic 10");
    ("Massachusetts", "Atlantic 10");
    ("Rhode Island", "Atlantic 10");
    ("Richmond", "Atlantic 10");
    ("Saint Joseph's", "Atlantic 10");
    ("Saint Louis", "Atlantic 10");
    ("St. Bonaventure", "Atlantic 10");
    ("VCU", "Atlantic 10") ].

(** [d.get(k)] on a dict given by its items. *)
Fixpoint dict_get (k : string) (items : list (string * string)) : option string :=
  match items with
  | [] => None
  | (k', v) :: t => if (k =? k')%string then Some v else dict_get k t
  end.

(** [team_name.map(CONFERENCE_MAP)] followed by [fillna('Other')]. *)
Definition conference_of (team_name : string) : string :=
  match dict_get team_name CONFERENCE_MAP with
  | Some c => c
  | None => "Other"
  end.

Definition team_pair : Type := (Z * string)%type.

Definition team_pair_eqb (a b : team_pair) : bool :=
  (fst a =? fst b) && (snd a =? snd b)%string.

Definition team_name_leb (a b : Team.t) : bool :=
  String.leb (Team.team_name a) (Team.team_name b).

(** The part of [load_data] that builds [all_teams] from the play-by-play
    frame.  Team identifiers and names have no missing cells here, so
    [dropna] keeps every row. *)
Definition load_data (pbp_df : list Pbp.row) : list Team.t :=
  let home_teams :=
    map (fun r => (Pbp.home_team_id r, Pbp.home_team_name r)) pbp_df in
  let away_teams :=
    map (fun r => (Pbp.away_team_id r, Pbp.away_team_name r)) pbp_df in
  let all_teams := unique_by team_pair_eqb (home_teams ++ away_teams)%list in
  let all_teams :=
    map (fun p => Team.mk (fst p) (snd p) (conference_of (snd p))) all_teams in
  sort_by team_name_leb all_teams.

(** [get_teams]: the records of [all_teams]. *)
Definition get_teams (all_teams : list Team.t) : list Team.t := all_teams.

(** [get_conferences]. *)
Definition get_conferences (all_teams : list Team.t) : list string :=
  sort_by String.leb (unique_by String.eqb (map Team.conference all_teams)).

(** The conference labels of the mapping, and the fallback. *)
Definition conference_labels : list string :=
  [ "ACC"; "Big Ten"; "Big 12"; "SEC"; "Big East"; "American";
    "Mountain West"; "WCC"; "Atlantic 10"; "Other" ].

(** Duke at home against a team outside the mapping, then away under a
    second spelling of its name. *)
Definition pbp_teams : list Pbp.row :=
  [ Pbp.mk 1 (d 2025 11 4) 150 "Duke" 2000 "Zeta State" (Some 0) (Some 0)
           None None None false false;
    Pbp.mk 2 (d 2025 11 9) 8 "Arkansas" 150 "Duke Blue Devils"
           (Some 0) (Some 0) None None None false false ].

(** The shots and the makes of the player over a list of games. *)
Definition shots_over (pbp_df : list Pbp.row) (box_df : list Box.row)
    (player_name : option string) (team_id : Z) (ids : list Z) : nat :=
  list_sum
    (map (fun g =>
            List.length (player_shots_in pbp_df box_df player_name team_id g))
         ids).

Definition makes_over (pbp_df : list Pbp.row) (box_df : list Box.row)
    (player_name : option string) (team_id : Z) (ids : list Z) : nat :=
  list_sum
    (map (fun g =>
            List.length
              (scoring (player_shots_in pbp_df box_df player_name team_id g)))
         ids).

(** The name makes the [short_name] lambda fail: it is empty or opens with
    a space, so its first piece has no first character. *)
Definition no_initial (name : string) : Prop :=
  name = "" \/ exists rest, name = String " "%char rest.

(** Decides [no_initial]. *)
Definition no_initialb (name : string) : bool :=
  match name with
  | EmptyString => true
  | String c _ => Ascii.eqb c " "%char
  end.

(** The shots that [get_player_season_chart] combines: those of the games
    with a shot of the player, game after game. *)
Definition season_shots (pbp_df : list Pbp.row) (box_df : list Box.row)
    (player_name : string) (team_id : Z) : list Shot.row :=
  List.concat
    (flat_map (fun game_id =>
                 let player_shots :=
                   player_shots_in pbp_df box_df (Some player_name) team_id
                     game_id in
                 if (0 <? List.length player_shots)%nat
                 then [player_shots] else [])
              (player_game_ids box_df (Some player_name) team_id)).

(** The title that [create_shot_chart] writes: the score in brackets is
    there only when the team's score is. *)
Definition title_suffix (p : perspective) : string :=
  match team_score p, opp_score p with
  | Some a, Some b =>
      " (" ++ ((if b <? a then "W" else "L") ++ " " ++ str_of_int a ++ "-"
                                             ++ str_of_int b) ++ ")"
  | _, _ => ""
  end.

Definition chart_title (player_name : string) (game_info : Game.row)
    (team_id : Z) : string :=
  player_name ++ " Shot Chart - "
    ++ location (game_perspective team_id game_info) ++ " "
    ++ opponent (game_perspective team_id game_info)
    ++ " (" ++ strftime (Game.game_date game_info) ++ ")"
    ++ title_suffix (game_perspective team_id game_info).

(** The shots that [get_shot_chart] charts for a player name. *)
Definition chart_shots (pbp_df : list Pbp.row) (box_df : list Box.row)
    (game_id team_id : Z) (player_name : string) : list Shot.row :=
  let team_shots := fst (get_player_shots pbp_df box_df game_id team_id) in
  if (player_name =? "Team View")%string then team_shots
  else shots_of (Some player_name) team_shots.

(** A date of calendar year [y]. *)
Definition in_year (y : nat) (dt : date) : Prop :=
  year dt = y
  /\ (1 <= month dt <= 12)%nat
  /\ (1 <= day dt <= 31)%nat.

(** The part of the formatted date before the year. *)
Definition month_day (m dd : nat) : string := pad2 m ++ "/" ++ pad2 dd ++ "/".

(** Over all months and days, the string order of [month_day] is the
    order of (month, day). *)
Definition month_day_table : bool :=
  forallb (fun m1 =>
    forallb (fun d1 =>
      forallb (fun m2 =>
        forallb (fun d2 =>
          Bool.eqb (String.leb (month_day m1 d1) (month_day m2 d2))
                   ((m1 <? m2)%nat || ((m1 =? m2)%nat && (d1 <=? d2)%nat))
          && (String.length (month_day m1 d1) =? 6)%nat)
          (seq 1 31))
        (seq 1 12))
      (seq 1 31))
    (seq 1 12).

(* ================================================================== *)
(** ** The join key of [get_player_shots], with its representation

    Above, an athlete identifier is an integer and [astype(float)] leaves it
    alone.  Here the cell keeps the form in which its table stores it, an
    integer or a binary64, so that the conversion of line 222 and the key
    comparison of the merge can be followed form by form. *)

Module IdRepr.

Inductive id_cell : Type :=
| IntId (z : Z)
| FloatId (f : spec_float).

(** The columns of a row of [pbp_df] that [get_player_shots] reads. *)
Record play : Type := mkPlay {
  game_id : Z;
  athlete_id_1 : option id_cell;
  team_id : option Z;
  type_text : option string;
  shooting_play : bool;
  scoring_play : bool
}.

(** The columns of a row of [box_df] that [get_player_shots] reads. *)
Record box : Type := mkBox {
  box_game_id : Z;
  athlete_id : option id_cell;
  athlete_display_name : option string;
  box_team_id : Z
}.

(** A row of [game_shots] after the merge. *)
Record shot : Type := mkShot {
  shot_play : play;
  shot_name : option string
}.

Definition name_row : Type := (option id_cell * option string)%type.

Definition isnan (f : spec_float) : bool :=
  match f with
  | S754_nan => true
  | _ => false
  end.

(** Equality of two binary64 keys in a hash join or in [drop_duplicates]:
    equal values, NaN counting as equal to NaN. *)
Definition float_key_eqb (a b : spec_float) : bool :=
  (isnan a && isnan b) || SFeqb a b.

(** Equality of two cells of one column under [drop_duplicates]; a column
    holds its cells in one form, and cells of two forms are no duplicates. *)
Definition stored_eqb (a b : option id_cell) : bool :=
  match a, b with
  | None, None => true
  | Some (IntId x), Some (IntId y) => x =? y
  | Some (FloatId f), Some (FloatId g) => float_key_eqb f g
  | _, _ => false
  end.

Definition name_row_eqb (a b : name_row) : bool :=
  stored_eqb (fst a) (fst b) && key_eqb String.eqb (snd a) (snd b).

(** [astype(float)] on one cell: an integer becomes the binary64 nearest
    to it, a binary64 and a missing cell stay. *)
Definition astype_float (c : option id_cell) : option id_cell :=
  match c with
  | Some (IntId z) => Some (FloatId (float_of_Z z))
  | other => other
  end.

(** The cast that the merge applies to a key column when the two key
    columns differ in type: to float64, the type of the converted box-score
    column; a missing cell is NaN. *)
Definition as_float64 (c : option id_cell) : spec_float :=
  match c with
  | Some (IntId z) => float_of_Z z
  | Some (FloatId f) => f
  | None => S754_nan
  end.

(** The key comparison of [merge(left_on='athlete_id_1',
    right_on='athlete_id')]. *)
Definition merge_key_eqb (l r : option id_cell) : bool :=
  float_key_eqb (as_float64 l) (as_float64 r).

(** Lines 218-222: the names of the game's box score, duplicates dropped,
    then the identifier column converted. *)
Definition names (box_df : list box) (game : Z) : list name_row :=
  let game_box := filter (fun b => box_game_id b =? game) box_df in
  let names :=
    unique_by name_row_eqb
      (map (fun b => (athlete_id b, athlete_display_name b)) game_box) in
  map (fun n => (astype_float (fst n), snd n)) names.

(** Line 225: the rows of the game, untouched. *)
Definition game_plays (pbp_df : list play) (game : Z) : list play :=
  filter (fun r => game_id r =? game) pbp_df.

(** The two key columns as the merge of line 229 receives them. *)
Definition left_keys (pbp_df : list play) (game : Z) : list (option id_cell) :=
  map athlete_id_1 (game_plays pbp_df game).

Definition right_keys (box_df : list box) (game : Z) : list (option id_cell) :=
  map fst (names box_df game).

Definition merge_names (names : list name_row) (r : play) : list shot :=
  match filter (fun n => merge_key_eqb (athlete_id_1 r) (fst n)) names with
  | [] => [mkShot r None]
  | ms => map (fun n => mkShot r (snd n)) ms
  end.

(** Lines 225-229: [game_shots] after the left merge. *)
Definition joined (pbp_df : list play) (box_df : list box) (game : Z)
  : list shot :=
  flat_map (merge_names (names box_df game)) (game_plays pbp_df game).

Definition is_team_shot (team : Z) (s : shot) : bool :=
  cell_eqb Z.eqb (team_id (shot_play s)) (Some team)
  && Bool.eqb (shooting_play (shot_play s)) true
  && negb (is_free_throw (type_text (shot_play s))).

Definition get_player_shots (pbp_df : list play) (box_df : list box)
    (game team : Z) : list shot * list name_row :=
  let game_box := filter (fun b => box_game_id b =? game) box_df in
  let team_shots := filter (is_team_shot team) (joined pbp_df box_df game) in
  let team_players :=
    unique_by name_row_eqb
      (map (fun b => (athlete_id b, athlete_display_name b))
           (filter (fun b => box_team_id b =? team) game_box)) in
  (team_shots, team_players).

(** The cell is in floating form, or missing. *)
Definition floating (c : option id_cell) : Prop :=
  match c with
  | Some (IntId _) => False
  | _ => True
  end.

(** The cell stores the identifier [z], as an integer or as the binary64
    of [z]. *)
Definition stores (c : option id_cell) (z : Z) : Prop :=
  c = Some (IntId z) \/ c = Some (FloatId (float_of_Z z)).

(** Two cells are of one form: not an integer against a binary64. *)
Definition same_form (a b : option id_cell) : Prop :=
  match a, b with
  | Some (IntId _), Some (FloatId _) => False
  | Some (FloatId _), Some (IntId _) => False
  | _, _ => True
  end.

(** The reading of C6: the keys of the two sides reach the join in one
    common form. *)
Definition normalized_on_both_sides (pbp_df : list play) (box_df : list box)
    (game : Z) : Prop :=
  forall l r,
    In l (left_keys pbp_df game) -> In r (right_keys box_df game) ->
    same_form l r.

(** Game 1: a shot whose athlete the play-by-play table stores as the
    integer 100, and one stored as the binary64 101.0; the box score
    stores 100 as a binary64 and 101 as an integer. *)
Definition pbp_mixed : list play :=
  [ mkPlay 1 (Some (IntId 100)) (Some 8) (Some "JumpShot") true true;
    mkPlay 1 (Some (FloatId (float_of_Z 101))) (Some 8) (Some "LayUpShot")
           true false ].

Definition box_mixed : list box :=
  [ mkBox 1 (Some (FloatId (float_of_Z 100))) (Some "Cameron Boozer") 8;
    mkBox 1 (Some (IntId 101)) (Some "Al Bo") 8 ].

End IdRepr.

(* ================================================================== *)
(** * Properties *)

(** ** The result monad *)

Lemma mapM_ok {A B : Type} (f : A -> result B) (g : A -> B) (l : list A) :
  (forall x, In x l -> f x = Ok (g x)) -> mapM f l = Ok (map g l).
Proof.
  induction l as [|x t IH]; intros H; simpl; [reflexivity|].
  rewrite (H x (or_introl eq_refl)); simpl.
  rewrite IH; [reflexivity|].
  intros y Hy. apply H. now right.
Qed.

Lemma mapM_raise {A B : Type} (f : A -> result B) (e : exn) (l : list A) :
  (forall x e', In x l -> f x = Raise e' -> e' = e) ->
  (exists x, In x l /\ f x = Raise e) ->
  mapM f l = Raise e.
Proof.
  induction l as [|x t IH]; intros Hall [y [Hy Hf]]; [contradiction|].
  simpl. destruct (f x) as [b|e'] eqn:Hx; simpl.
  - destruct Hy as [->|Hy]; [congruence|].
    rewrite IH; [reflexivity| |now exists y].
    intros z e'' Hz. apply Hall. now right.
  - f_equal. apply (Hall x); [now left|assumption].
Qed.

Lemma mapM_inv {A B : Type} (f : A -> result B) (l : list A) (r : list B) :
  mapM f l = Ok r -> Forall2 (fun x y => f x = Ok y) l r.
Proof.
  revert r. induction l as [|x t IH]; simpl; intros r H.
  - inversion H. constructor.
  - destruct (f x) as [b|e] eqn:Hx; simpl in H; [|discriminate].
    destruct (mapM f t) as [bs|e] eqn:Ht; simpl in H; [|discriminate].
    inversion H; subst. constructor; auto.
Qed.

(** ** [unique], [drop_duplicates] *)

Section UniqueBy.
Variable A : Type.
Variable eqb : A -> A -> bool.
Hypothesis eqb_spec : forall x y, eqb x y = true <-> x = y.

Lemma unique_by_In (l : list A) (x : A) : In x (unique_by eqb l) <-> In x l.
Proof.
  induction l as [|a t IH]; simpl; [tauto|].
  rewrite filter_In, IH. split.
  - intros [H|[H _]]; auto.
  - intros [H|H]; auto.
    destruct (eqb a x) eqn:E.
    + left. now apply eqb_spec.
    + right. split; auto.
Qed.

Lemma unique_by_NoDup (l : list A) : NoDup (unique_by eqb l).
Proof.
  induction l as [|a t IH]; simpl; constructor.
  - rewrite filter_In. intros [_ H].
    assert (E : eqb a a = true) by now apply eqb_spec.
    rewrite E in H. discriminate.
  - now apply NoDup_filter.
Qed.
End UniqueBy.

Lemma key_eqb_spec {A : Type} (eqb : A -> A -> bool) :
  (forall x y, eqb x y = true <-> x = y) ->
  forall x y, key_eqb eqb x y = true <-> x = y.
Proof.
  intros H [a|] [b|]; simpl; try (split; congruence).
  rewrite H. split; congruence.
Qed.

Lemma cell_eqb_Some {A : Type} (eqb : A -> A -> bool) :
  (forall x y, eqb x y = true <-> x = y) ->
  forall c y, cell_eqb eqb c (Some y) = true <-> c = Some y.
Proof.
  intros H [a|] y; simpl; [|split; congruence].
  rewrite H. split; congruence.
Qed.

(** ** Sorting *)

Section SortBy.
Variable A : Type.
Variable leb : A -> A -> bool.

Lemma insert_by_perm (x : A) (l : list A) :
  Permutation (insert_by leb x l) (x :: l).
Proof.
  induction l as [|y t IH]; simpl; [reflexivity|].
  destruct (leb x y); [reflexivity|].
  rewrite IH. apply perm_swap.
Qed.

Lemma sort_by_perm (l : list A) : Permutation (sort_by leb l) l.
Proof.
  induction l as [|x t IH]; simpl; [reflexivity|].
  rewrite insert_by_perm. now constructor.
Qed.

Lemma sort_by_In (l : list A) (x : A) : In x (sort_by leb l) <-> In x l.
Proof.
  split; apply Permutation_in;
    [apply sort_by_perm | symmetry; apply sort_by_perm].
Qed.

Hypothesis leb_total : forall x y, leb x y = true \/ leb y x = true.

Lemma insert_by_sorted (x : A) (l : list A) :
  Sorted (ordered leb) l -> Sorted (ordered leb) (insert_by leb x l).
Proof.
  induction l as [|y t IH]; simpl; intros Hs.
  - repeat constructor.
  - destruct (leb x y) eqn:E.
    + constructor; [assumption|]. now constructor.
    + inversion Hs as [|? ? Ht Hhd]; subst.
      constructor; [now apply IH|].
      destruct t as [|z t']; simpl.
      * constructor. destruct (leb_total x y); [congruence|assumption].
      * destruct (leb x z).
        -- constructor. destruct (leb_total x y); [congruence|assumption].
        -- constructor. now inversion Hhd.
Qed.

Lemma sort_by_sorted (l : list A) : Sorted (ordered leb) (sort_by leb l).
Proof.
  induction l as [|x t IH]; simpl; [constructor|].
  now apply insert_by_sorted.
Qed.

Hypothesis leb_trans :
  forall x y z, leb x y = true -> leb y z = true -> leb x z = true.

Lemma sort_by_strongly_sorted (l : list A) :
  StronglySorted (ordered leb) (sort_by leb l).
Proof.
  apply Sorted_StronglySorted; [|apply sort_by_sorted].
  intros x y z. apply leb_trans.
Qed.
End SortBy.

Lemma date_leb_total (a b : date) : date_leb a b = true \/ date_leb b a = true.
Proof.
  unfold date_leb.
  destruct (Nat.lt_total (year a) (year b)) as [H|[H|H]];
  destruct (Nat.lt_total (month a) (month b)) as [H1|[H1|H1]];
  destruct (Nat.le_ge_cases (day a) (day b)) as [H2|H2];
  repeat match goal with
         | |- context [(?x <? ?y)%nat] => destruct (Nat.ltb_spec x y)
         | |- context [(?x =? ?y)%nat] => destruct (Nat.eqb_spec x y)
         | |- context [(?x <=? ?y)%nat] => destruct (Nat.leb_spec x y)
         end; simpl; auto; lia.
Qed.

Lemma date_leb_trans (a b c : date) :
  date_leb a b = true -> date_leb b c = true -> date_leb a c = true.
Proof.
  unfold date_leb.
  repeat match goal with
         | |- context [(?x <? ?y)%nat] => destruct (Nat.ltb_spec x y)
         | |- context [(?x =? ?y)%nat] => destruct (Nat.eqb_spec x y)
         | |- context [(?x <=? ?y)%nat] => destruct (Nat.leb_spec x y)
         end; simpl; auto; try discriminate; lia.
Qed.

(** ** [GroupBy.last] and [iloc[-1]] *)

Lemma iloc_last_In {A : Type} (l : list A) (r : A) :
  iloc_last l = Ok r -> In r l.
Proof.
  induction l as [|x t IH]; simpl; [discriminate|].
  destruct t as [|y t']; [intros H; inversion H; now left|].
  intros H. right. now apply IH.
Qed.

Lemma iloc_last_nonempty {A : Type} (l : list A) :
  l <> [] -> exists r, iloc_last l = Ok r.
Proof.
  induction l as [|x t IH]; [congruence|]. intros _.
  destruct t as [|y t']; [now exists x|].
  destruct IH as [r Hr]; [discriminate|]. exists r. exact Hr.
Qed.

(** On a column without missing cells [.last()] is the last row. *)
Lemma last_valid_total {A : Type} (l : list A) :
  last_valid (map (@Some A) l) =
  match iloc_last l with Ok r => Some r | Raise _ => None end.
Proof.
  induction l as [|x t IH]; [reflexivity|].
  cbn [map last_valid]. rewrite IH.
  destruct t as [|y t']; [reflexivity|].
  change (iloc_last (x :: y :: t')) with (iloc_last (y :: t')).
  destruct (iloc_last_nonempty (l := y :: t')) as [r Hr]; [discriminate|].
  now rewrite Hr.
Qed.

(** Where the last row has the cell, [.last()] yields that cell. *)
Lemma last_valid_last {A B : Type} (f : A -> option B) (l : list A) (r : A)
    (v : B) :
  iloc_last l = Ok r -> f r = Some v -> last_valid (map f l) = Some v.
Proof.
  induction l as [|x t IH]; [discriminate|].
  destruct t as [|y t'].
  - simpl. intros H Hv. inversion H; subst. now rewrite Hv.
  - intros H Hv. change (iloc_last (x :: y :: t')) with (iloc_last (y :: t')) in H.
    cbn [map last_valid] in *. now rewrite (IH H Hv).
Qed.

(** ** [get_team_games] *)

Lemma Zeqb_spec (x y : Z) : (x =? y) = true <-> x = y.
Proof. apply Z.eqb_eq. Qed.

Lemma Zleb_total (x y : Z) : (x <=? y) = true \/ (y <=? x) = true.
Proof. rewrite !Z.leb_le. lia. Qed.

Lemma group_keys_In (rows : list Pbp.row) (k : Z) :
  In k (group_keys rows) <-> exists r, In r rows /\ Pbp.game_id r = k.
Proof.
  unfold group_keys.
  rewrite sort_by_In, (unique_by_In Z.eqb Zeqb_spec), in_map_iff.
  split; intros [r [H1 H2]]; exists r; auto.
Qed.

Lemma group_keys_NoDup (rows : list Pbp.row) : NoDup (group_keys rows).
Proof.
  unfold group_keys.
  eapply Permutation_NoDup; [symmetry; apply sort_by_perm|].
  apply (unique_by_NoDup Z.eqb Zeqb_spec).
Qed.

Lemma group_of_nonempty (rows : list Pbp.row) (k : Z) :
  In k (group_keys rows) -> group_of k rows <> [].
Proof.
  rewrite group_keys_In. intros [r [Hr Hk]] E.
  assert (H : In r (group_of k rows)).
  { unfold group_of. rewrite filter_In. split; [assumption|]. now apply Z.eqb_eq. }
  rewrite E in H. contradiction.
Qed.

(** The record that [.last()] builds for a group whose last row is [r]. *)
Lemma agg_last_row (k : Z) (grp : list Pbp.row) (r : Pbp.row) :
  iloc_last grp = Ok r ->
  agg_last k grp =
  [ Game.mk k (Pbp.game_date r) (Pbp.home_team_name r) (Pbp.away_team_name r)
      (last_valid (map Pbp.home_score grp))
      (last_valid (map Pbp.away_score grp))
      (Pbp.home_team_id r) (Pbp.away_team_id r) ].
Proof.
  intros H. unfold agg_last. now rewrite last_valid_total, H.
Qed.

Lemma agg_last_ids (rows : list Pbp.row) (keys : list Z) :
  (forall k, In k keys -> group_of k rows <> []) ->
  map Game.game_id (flat_map (fun k => agg_last k (group_of k rows)) keys) = keys.
Proof.
  induction keys as [|k t IH]; intros H; [reflexivity|].
  cbn [flat_map]. rewrite map_app, IH by (intros; apply H; now right).
  destruct (iloc_last_nonempty (H k (or_introl eq_refl))) as [r Hr].
  now rewrite (agg_last_row k _ Hr).
Qed.

Lemma get_team_games_In (pbp_df : list Pbp.row) (T : Z) (g : Game.row) :
  In g (get_team_games pbp_df T) <->
  exists k, In k (group_keys (filter (plays_in T) pbp_df))
            /\ In g (agg_last k (group_of k (filter (plays_in T) pbp_df))).
Proof.
  unfold get_team_games. rewrite sort_by_In, in_flat_map. reflexivity.
Qed.

Lemma plays_in_spec (T : Z) (r : Pbp.row) :
  plays_in T r = true <-> Pbp.home_team_id r = T \/ Pbp.away_team_id r = T.
Proof.
  unfold plays_in. now rewrite orb_true_iff, !Z.eqb_eq.
Qed.

(** C4, as the code has it: [get_team_games T] holds one record per
    distinct game in which [T] is the home or the away side, sorted
    non-decreasing by game date; every record has [T] as its home or away
    side; the date, names and identifiers of a record are those of the last
    play-by-play row of the game's group, and each final score is the last
    entry of its column in the group that is not missing, which is the
    score of the last row whenever the last row has one. *)
Theorem get_team_games_spec (pbp_df : list Pbp.row) (T : Z) :
  let games := get_team_games pbp_df T in
  let group := fun k => group_of k (filter (plays_in T) pbp_df) in
  NoDup (map Game.game_id games)
  /\ (forall k, In k (map Game.game_id games) <->
        exists r, In r pbp_df /\ Pbp.game_id r = k
                  /\ (Pbp.home_team_id r = T \/ Pbp.away_team_id r = T))
  /\ StronglySorted (ordered game_date_leb) games
  /\ (forall g, In g games ->
        (Game.home_team_id g = T \/ Game.away_team_id g = T)
        /\ Game.home_score g
           = last_valid (map Pbp.home_score (group (Game.game_id g)))
        /\ Game.away_score g
           = last_valid (map Pbp.away_score (group (Game.game_id g)))
        /\ exists r, iloc_last (group (Game.game_id g)) = Ok r
             /\ Game.game_date g = Pbp.game_date r
             /\ Game.home_team_name g = Pbp.home_team_name r
             /\ Game.away_team_name g = Pbp.away_team_name r
             /\ Game.home_team_id g = Pbp.home_team_id r
             /\ Game.away_team_id g = Pbp.away_team_id r
             /\ (Pbp.home_score r <> None ->
                 Game.home_score g = Pbp.home_score r)
             /\ (Pbp.away_score r <> None ->
                 Game.away_score g = Pbp.away_score r)).
Proof.
  intros games group.
  assert (Hids : Permutation (map Game.game_id games)
                   (group_keys (filter (plays_in T) pbp_df))).
  { unfold games, get_team_games.
    rewrite (Permutation_map _ (sort_by_perm _ _)).
    rewrite agg_last_ids; [reflexivity|].
    intros k. apply group_of_nonempty. }
  split; [|split; [|split]].
  - eapply Permutation_NoDup; [symmetry; exact Hids|]. apply group_keys_NoDup.
  - intros k. split.
    + intros H. apply (Permutation_in _ Hids) in H.
      apply group_keys_In in H. destruct H as [r [Hr Hk]].
      apply filter_In in Hr. destruct Hr as [Hr Hp].
      exists r. repeat split; auto. now apply plays_in_spec.
    + intros [r [Hr [Hk Hp]]].
      apply (Permutation_in _ (Permutation_sym Hids)).
      apply group_keys_In. exists r. split; [|assumption].
      apply filter_In. split; [assumption|]. now apply plays_in_spec.
  - apply sort_by_strongly_sorted.
    + intros x y. apply date_leb_total.
    + intros x y z. apply date_leb_trans.
  - intros g Hg. apply get_team_games_In in Hg. destruct Hg as [k [Hk Hg]].
    destruct (iloc_last_nonempty (group_of_nonempty _ _ Hk)) as [r Hr].
    rewrite (agg_last_row k _ Hr) in Hg. destruct Hg as [<-|[]].
    cbn [Game.game_id Game.game_date Game.home_team_name Game.away_team_name
         Game.home_score Game.away_score Game.home_team_id Game.away_team_id].
    fold (group k).
    assert (Hin : In r (filter (plays_in T) pbp_df)).
    { apply iloc_last_In in Hr. unfold group_of in Hr.
      apply filter_In in Hr. tauto. }
    apply filter_In in Hin. destruct Hin as [_ Hp].
    split; [now apply plays_in_spec|].
    split; [reflexivity|]. split; [reflexivity|].
    exists r. repeat split; try assumption.
    + intros Hn. destruct (Pbp.home_score r) as [v|] eqn:E; [|congruence].
      now apply (last_valid_last Pbp.home_score _ Hr).
    + intros Hn. destruct (Pbp.away_score r) as [v|] eqn:E; [|congruence].
      now apply (last_valid_last Pbp.away_score _ Hr).
Qed.

(** C4 counterexample: the closing row of game 1 has no scores, yet the
    record of the game carries 80-71, the last scores present in the
    group. *)
Lemma scores_of_last_row_fails : ~ scores_of_last_row pbp_closing_gap 8.
Proof.
  intros H.
  destruct (H (Game.mk 1 (d 2025 11 27) "Home" "Away" (Some 80) (Some 71) 8 9))
    as [r [Hr [Hh _]]].
  - vm_compute. now left.
  - vm_compute in Hr. inversion Hr; subst r. discriminate Hh.
Qed.

(** ** Substrings and letter case *)

Lemma prefix_spec (p s : string) :
  String.prefix p s = true <-> exists post, s = p ++ post.
Proof.
  revert s. induction p as [|a p IH]; intros s; simpl.
  - destruct s; split; eauto.
  - destruct s as [|b s]; simpl.
    + split; [discriminate|]. intros [post H]. discriminate.
    + destruct (ascii_dec a b) as [->|Hne].
      * rewrite IH. split; intros [post H]; exists post; congruence.
      * split; [discriminate|]. intros [post H]. congruence.
Qed.

Lemma contains_spec (p s : string) : contains p s = true <-> is_substring p s.
Proof.
  unfold is_substring. induction s as [|c s IH]; cbn [contains].
  - rewrite orb_false_r, prefix_spec. split.
    + intros [post H]. now exists "", post.
    + intros [pre [post H]]. destruct pre; [now exists post|discriminate].
  - rewrite orb_true_iff, prefix_spec, IH. split.
    + intros [[post H]|[pre [post H]]].
      * now exists "", post.
      * exists (String c pre), post. simpl. now f_equal.
    + intros [pre [post H]]. destruct pre as [|c' pre]; simpl in H.
      * left. now exists post.
      * right. exists pre, post. congruence.
Qed.

Lemma lower_app (a b : string) : lower (a ++ b) = lower a ++ lower b.
Proof.
  induction a as [|c a IH]; simpl; [reflexivity|]. now rewrite IH.
Qed.

Lemma lower_split (s a b : string) :
  lower s = a ++ b ->
  exists s1 s2, s = s1 ++ s2 /\ lower s1 = a /\ lower s2 = b.
Proof.
  revert s. induction a as [|c a IH]; intros s H; simpl in H.
  - now exists "", s.
  - destruct s as [|x s]; simpl in H; [discriminate|].
    inversion H as [[Hc Ht]].
    destruct (IH _ Ht) as [s1 [s2 [-> [H1 H2]]]].
    exists (String x s1), s2. simpl. now rewrite H1.
Qed.

(** The case-insensitive [str.contains] is substring search modulo case. *)
Lemma contains_lower_spec (word label : string) :
  contains (lower word) (lower label) = true <-> mentions word label.
Proof.
  rewrite contains_spec. unfold is_substring, mentions. split.
  - intros [pre' [post' H]].
    destruct (lower_split _ _ _ H) as [pre [rest [-> [_ Hrest]]]].
    destruct (lower_split _ _ _ Hrest) as [mid [post [-> [Hmid _]]]].
    now exists pre, mid, post.
  - intros [pre [mid [post [-> Hmid]]]].
    exists (lower pre), (lower post). now rewrite !lower_app, Hmid.
Qed.

(** ** [get_player_shots] *)

Lemma merge_names_play (names : list name_row) (r : Pbp.row) (s : Shot.row) :
  In s (merge_names names r) -> Shot.play s = r.
Proof.
  unfold merge_names.
  destruct (filter (fun n => key_eqb Z.eqb (Pbp.athlete_id_1 r) (fst n)) names)
    as [|m ms] eqn:E.
  - intros [<-|[]]. reflexivity.
  - rewrite in_map_iff. intros [n [<- _]]. reflexivity.
Qed.

Lemma is_team_shot_spec (t : Z) (s : Shot.row) :
  is_team_shot t s = true <->
  Pbp.team_id (Shot.play s) = Some t
  /\ Pbp.shooting_play (Shot.play s) = true
  /\ is_free_throw (Pbp.type_text (Shot.play s)) = false.
Proof.
  unfold is_team_shot.
  rewrite !andb_true_iff, negb_true_iff, (cell_eqb_Some Z.eqb Zeqb_spec).
  rewrite eqb_true_iff. tauto.
Qed.

(** C5: every row of the shot set of [get_player_shots game team] is a
    play of the queried team with the shooting-play flag set whose
    event-type label, when it has one, does not contain FreeThrow in any
    letter case; it is a play-by-play row of the queried game. *)
Theorem get_player_shots_rows (pbp_df : list Pbp.row) (box_df : list Box.row)
    (game_id team_id : Z) (s : Shot.row) :
  In s (fst (get_player_shots pbp_df box_df game_id team_id)) ->
  Pbp.team_id (Shot.play s) = Some team_id
  /\ Pbp.shooting_play (Shot.play s) = true
  /\ (forall label, Pbp.type_text (Shot.play s) = Some label ->
                    ~ mentions "FreeThrow" label)
  /\ In (Shot.play s) pbp_df
  /\ Pbp.game_id (Shot.play s) = game_id.
Proof.
  unfold get_player_shots. cbn [fst].
  rewrite filter_In, in_flat_map.
  intros [[r [Hr Hs]] Hf].
  apply is_team_shot_spec in Hf. destruct Hf as [Ht [Hsh Hft]].
  apply merge_names_play in Hs.
  apply filter_In in Hr. destruct Hr as [Hr Hg].
  repeat split; try assumption.
  - intros label Hl Hm. rewrite Hl in Hft. unfold is_free_throw in Hft.
    apply contains_lower_spec in Hm. congruence.
  - now rewrite Hs.
  - rewrite Hs. now apply Z.eqb_eq.
Qed.

Lemma get_player_shots_rows_witness :
  Pbp.team_id (Shot.play shot_sample) = Some 8
  /\ Pbp.shooting_play (Shot.play shot_sample) = true
  /\ (forall label, Pbp.type_text (Shot.play shot_sample) = Some label ->
                    ~ mentions "FreeThrow" label)
  /\ In (Shot.play shot_sample) pbp_sample
  /\ Pbp.game_id (Shot.play shot_sample) = 1.
Proof.
  apply (get_player_shots_rows pbp_sample box_sample 1 8 shot_sample).
  vm_compute. left. reflexivity.
Defined.

(** The left merge drops no play and attaches every name the box score of
    the game lists under the play's athlete identifier. *)
Lemma merge_names_keeps (names : list name_row) (r : Pbp.row) :
  merge_names names r <> [].
Proof.
  unfold merge_names.
  destruct (filter (fun n => key_eqb Z.eqb (Pbp.athlete_id_1 r) (fst n)) names);
    discriminate.
Qed.

Lemma merge_names_match (names : list name_row) (r : Pbp.row) (n : name_row) :
  In n names -> fst n = Pbp.athlete_id_1 r ->
  In (Shot.mk r (snd n)) (merge_names names r).
Proof.
  intros Hn Hk. unfold merge_names.
  assert (H : In n (filter (fun n => key_eqb Z.eqb (Pbp.athlete_id_1 r) (fst n))
                           names)).
  { apply filter_In. split; [assumption|].
    apply (key_eqb_spec Z.eqb Zeqb_spec). now symmetry. }
  destruct (filter (fun n => key_eqb Z.eqb (Pbp.athlete_id_1 r) (fst n)) names)
    as [|m ms]; [contradiction|].
  apply (in_map (fun n => Shot.mk r (snd n))). exact H.
Qed.

(** ** Percentages *)

Lemma percentage_of_spec (makes total : nat) :
  percentage_of makes total = Ok (pct_spec makes total).
Proof.
  unfold percentage_of, pct_spec, truediv.
  destruct total as [|n]; reflexivity.
Qed.

(** ** [get_players] *)

Lemma player_entry_spec (team_shots : list Shot.row) (ip : nat * string) :
  player_entry team_shots ip =
  Ok (PlayerJson.mk (fst ip) (snd ip)
        (List.length (shots_of (Some (snd ip)) team_shots))
        (List.length (scoring (shots_of (Some (snd ip)) team_shots)))
        (pct_spec (List.length (scoring (shots_of (Some (snd ip)) team_shots)))
                  (List.length (shots_of (Some (snd ip)) team_shots)))).
Proof.
  unfold player_entry. now rewrite percentage_of_spec.
Qed.

Lemma get_players_spec (pbp_df : list Pbp.row) (box_df : list Box.row)
    (game_id team_id : Z) :
  let team_shots := fst (get_player_shots pbp_df box_df game_id team_id) in
  let names :=
    roster_names (snd (get_player_shots pbp_df box_df game_id team_id)) in
  get_players pbp_df box_df game_id team_id =
  Ok (PlayerJson.mk 0 "Team View" (List.length team_shots)
        (List.length (scoring team_shots))
        (pct_spec (List.length (scoring team_shots)) (List.length team_shots))
      :: map (fun ip =>
                PlayerJson.mk (fst ip) (snd ip)
                  (List.length (shots_of (Some (snd ip)) team_shots))
                  (List.length (scoring (shots_of (Some (snd ip)) team_shots)))
                  (pct_spec
                     (List.length (scoring (shots_of (Some (snd ip)) team_shots)))
                     (List.length (shots_of (Some (snd ip)) team_shots))))
             (combine (seq 1 (List.length names)) names)).
Proof.
  intros team_shots names. unfold get_players.
  destruct (get_player_shots pbp_df box_df game_id team_id) as [ts tp] eqn:E.
  cbn [fst snd] in *. rewrite percentage_of_spec. cbn [bind].
  erewrite mapM_ok; [reflexivity|].
  intros ip _. apply player_entry_spec.
Qed.

(** Counting the shots name by name. *)

Lemma list_sum_step (x : nat) (l : list nat) :
  list_sum (x :: l) = (x + list_sum l)%nat.
Proof. reflexivity. Qed.

Lemma list_sum_map_add {A : Type} (f g : A -> nat) (l : list A) :
  list_sum (map (fun x => (f x + g x)%nat) l)
  = (list_sum (map f l) + list_sum (map g l))%nat.
Proof.
  induction l as [|x t IH]; simpl; [reflexivity|]. rewrite IH. lia.
Qed.

Lemma list_sum_map_zero {A : Type} (f : A -> nat) (l : list A) :
  (forall x, In x l -> f x = 0%nat) -> list_sum (map f l) = 0%nat.
Proof.
  induction l as [|x t IH]; intros H; simpl; [reflexivity|].
  rewrite (H x (or_introl eq_refl)), IH; [reflexivity|].
  intros y Hy. apply H. now right.
Qed.

Lemma hit_sum (s : Shot.row) (names : list string) :
  NoDup names ->
  list_sum (map (hit s) names) = if listed names s then 1%nat else 0%nat.
Proof.
  unfold listed, hit. induction names as [|n t IH]; intros Hnd; [reflexivity|].
  inversion Hnd as [|? ? Hnotin Hnd']; subst.
  cbn [map existsb]. rewrite list_sum_step.
  destruct (cell_eqb String.eqb (Shot.athlete_display_name s) (Some n)) eqn:E.
  - cbn [orb]. rewrite list_sum_map_zero; [reflexivity|].
    intros m Hm.
    destruct (cell_eqb String.eqb (Shot.athlete_display_name s) (Some m)) eqn:E';
      [|reflexivity].
    apply (cell_eqb_Some String.eqb String.eqb_eq) in E, E'.
    assert (n = m) by congruence. subst. contradiction.
  - cbn [orb]. now rewrite IH.
Qed.

Lemma shots_by_name (names : list string) (shots : list Shot.row) :
  NoDup names ->
  List.length shots
  = (list_sum (map (fun n => List.length (shots_of (Some n) shots)) names)
     + List.length (filter (fun s => negb (listed names s)) shots))%nat.
Proof.
  intros Hnd. induction shots as [|s t IH].
  - rewrite list_sum_map_zero; reflexivity.
  - assert (E : list_sum (map (fun n => List.length (shots_of (Some n) (s :: t)))
                              names)
                = (list_sum (map (hit s) names)
                   + list_sum (map (fun n => List.length (shots_of (Some n) t))
                                   names))%nat).
    { rewrite <- list_sum_map_add. f_equal. apply map_ext. intros n.
      unfold shots_of, hit. cbn [filter].
      destruct (cell_eqb String.eqb (Shot.athlete_display_name s) (Some n));
        reflexivity. }
    rewrite E, (hit_sum s Hnd). cbn [filter List.length].
    destruct (listed names s); cbn [negb List.length]; lia.
Qed.

Lemma scoring_shots_of (n : option string) (shots : list Shot.row) :
  scoring (shots_of n shots) = shots_of n (scoring shots).
Proof.
  unfold scoring, shots_of. induction shots as [|s t IH]; [reflexivity|].
  cbn [filter].
  destruct (cell_eqb String.eqb (Shot.athlete_display_name s) n) eqn:E1;
  destruct (Bool.eqb (Pbp.scoring_play (Shot.play s)) true) eqn:E2;
    cbn [filter]; rewrite ?E1, ?E2, IH; reflexivity.
Qed.

Lemma scoring_filter (p : Shot.row -> bool) (shots : list Shot.row) :
  scoring (filter p shots) = filter p (scoring shots).
Proof.
  unfold scoring. induction shots as [|s t IH]; [reflexivity|].
  cbn [filter].
  destruct (p s) eqn:E1;
  destruct (Bool.eqb (Pbp.scoring_play (Shot.play s)) true) eqn:E2;
    cbn [filter]; rewrite ?E1, ?E2, IH; reflexivity.
Qed.

Lemma roster_names_NoDup (team_players : list name_row) :
  NoDup (roster_names team_players).
Proof.
  unfold roster_names.
  eapply Permutation_NoDup; [symmetry; apply sort_by_perm|].
  apply (unique_by_NoDup String.eqb String.eqb_eq).
Qed.

Lemma map_combine_snd {A B C : Type} (f : B -> C) (l1 : list A) (l2 : list B) :
  List.length l1 = List.length l2 ->
  map (fun ip => f (snd ip)) (combine l1 l2) = map f l2.
Proof.
  revert l2. induction l1 as [|a t IH]; intros [|b u] H; simpl in *;
    try discriminate; [reflexivity|].
  f_equal. apply IH. lia.
Qed.

(** C3, as the code has it: the list of [get_players] opens with the Team
    View entry, followed by one entry per roster name; the shot count (make
    count) of Team View is the sum of the shot counts (make counts) of the
    player entries plus the number of team shots (makes) that carry no
    listed roster name. *)
Theorem get_players_team_view (pbp_df : list Pbp.row) (box_df : list Box.row)
    (game_id team_id : Z) :
  exists tv players,
    get_players pbp_df box_df game_id team_id = Ok (tv :: players)
    /\ PlayerJson.name tv = "Team View"
    /\ map PlayerJson.name players
       = roster_names (snd (get_player_shots pbp_df box_df game_id team_id))
    /\ PlayerJson.shots tv
       = (list_sum (map PlayerJson.shots players)
          + List.length (unlisted_shots pbp_df box_df game_id team_id))%nat
    /\ PlayerJson.makes tv
       = (list_sum (map PlayerJson.makes players)
          + List.length
              (scoring (unlisted_shots pbp_df box_df game_id team_id)))%nat.
Proof.
  eexists. eexists.
  split; [apply get_players_spec|].
  unfold unlisted_shots.
  destruct (get_player_shots pbp_df box_df game_id team_id) as [ts tp].
  cbn [fst snd PlayerJson.name PlayerJson.shots PlayerJson.makes].
  rewrite !map_map.
  cbn [PlayerJson.name PlayerJson.shots PlayerJson.makes].
  pose proof (roster_names_NoDup tp) as Hnd.
  assert (Hlen : List.length (seq 1 (List.length (roster_names tp)))
                 = List.length (roster_names tp)) by apply length_seq.
  split; [reflexivity|].
  split; [|split].
  - rewrite (map_combine_snd (fun n => n) _ _ Hlen). apply map_id.
  - rewrite (map_combine_snd
               (fun n => List.length (shots_of (Some n) ts)) _ _ Hlen).
    now apply shots_by_name.
  - rewrite (map_combine_snd
               (fun n => List.length (scoring (shots_of (Some n) ts))) _ _ Hlen).
    rewrite scoring_filter.
    erewrite map_ext; [apply (shots_by_name (scoring ts) Hnd)|].
    intros n. cbv beta. now rewrite scoring_shots_of.
Qed.

(** C3 counterexample: in game 1 team 8 has three field-goal attempts, one
    of them without an athlete, so Team View counts 3 shots while the two
    listed players count 1 each. *)
Lemma team_view_is_sum_fails :
  exists l, get_players pbp_sample box_sample 1 8 = Ok l
            /\ ~ team_view_is_sum l.
Proof.
  eexists. split; [vm_compute; reflexivity|].
  vm_compute. intros [H _]. discriminate H.
Qed.

(** ** The chart routes *)

Lemma get_shot_chart_stats (pbp_df : list Pbp.row) (box_df : list Box.row)
    (game_id team_id : Z) (player_name : string) (c : Chart.t) :
  get_shot_chart pbp_df box_df game_id team_id player_name = Ok (Json200 c) ->
  Stats.total (Chart.stats c) <> 0%nat
  /\ Stats.percentage (Chart.stats c)
     = pct_spec (Stats.makes (Chart.stats c)) (Stats.total (Chart.stats c)).
Proof.
  unfold get_shot_chart.
  destruct (get_player_shots pbp_df box_df game_id team_id) as [ts tp].
  destruct (iloc0 _) as [gi|e]; cbn [bind]; [|discriminate].
  match goal with
  | |- context [(List.length ?l =? 0)%nat] =>
      destruct (Nat.eqb_spec (List.length l) 0) as [E|E]
  end; [discriminate|].
  destruct (create_shot_chart _ _ _ _) as [title|e]; cbn [bind]; [|discriminate].
  rewrite percentage_of_spec. cbn [bind].
  intros H. inversion H; subst c. cbn. split; [exact E|reflexivity].
Qed.

Lemma get_shot_chart_no_zero_division (pbp_df : list Pbp.row)
    (box_df : list Box.row) (game_id team_id : Z) (player_name : string) :
  get_shot_chart pbp_df box_df game_id team_id player_name
  <> Raise ZeroDivisionError.
Proof.
  unfold get_shot_chart.
  destruct (get_player_shots pbp_df box_df game_id team_id) as [ts tp].
  destruct (iloc0 _) as [gi|e] eqn:Ei; cbn [bind].
  - match goal with
    | |- context [(List.length ?l =? 0)%nat] =>
        destruct (Nat.eqb_spec (List.length l) 0) as [E|E]
    end; [discriminate|].
    unfold create_shot_chart, result_line.
    destruct (notna _); cbn [bind].
    + destruct (py_int _) as [a|e] eqn:Ea; cbn [bind].
      * destruct (py_int (opp_score _)) as [b|e] eqn:Eb; cbn [bind].
        -- rewrite percentage_of_spec. discriminate.
        -- destruct (opp_score _); inversion Eb. discriminate.
      * destruct (team_score _); inversion Ea. discriminate.
    + rewrite percentage_of_spec. discriminate.
  - destruct (filter _ _); inversion Ei. discriminate.
Qed.

Lemma short_name_raises (x : option string) (e : exn) :
  short_name x = Raise e -> e = IndexError.
Proof.
  destruct x as [s|]; simpl; [|discriminate].
  destruct (iloc0 (split_on " " s)) as [first|e'] eqn:E; cbn [bind].
  - destruct first; [|discriminate]. congruence.
  - destruct (split_on " " s); inversion E. congruence.
Qed.

Lemma mapM_raises {A B : Type} (f : A -> result B) (l : list A) (e : exn) :
  mapM f l = Raise e -> exists x, In x l /\ f x = Raise e.
Proof.
  induction l as [|x t IH]; simpl; [discriminate|].
  destruct (f x) as [b|e'] eqn:Hx; cbn [bind].
  - destruct (mapM f t) as [bs|e'] eqn:Ht; cbn [bind]; [discriminate|].
    intros H. inversion H; subst.
    destruct (IH eq_refl) as [y [Hy Hf]]. exists y. auto.
  - intros H. inversion H; subst. exists x. auto.
Qed.

Lemma get_player_season_chart_stats (pbp_df : list Pbp.row)
    (box_df : list Box.row) (team_id : Z) (player_name : string) (c : Chart.t) :
  get_player_season_chart pbp_df box_df team_id player_name = Ok (Json200 c) ->
  Stats.total (Chart.stats c) <> 0%nat
  /\ Stats.percentage (Chart.stats c)
     = pct_spec (Stats.makes (Chart.stats c)) (Stats.total (Chart.stats c))
  /\ Stats.games (Chart.stats c)
     = Some (List.length (player_game_ids box_df (Some player_name) team_id))
  /\ Chart.title c
     = season_title player_name
         (List.length (player_game_ids box_df (Some player_name) team_id)).
Proof.
  unfold get_player_season_chart.
  match goal with
  | |- context [(List.length ?l =? 0)%nat] =>
      destruct (Nat.eqb_spec (List.length l) 0) as [E|E]; [discriminate|];
      remember l as all_shots eqn:Hall
  end.
  destruct (mapM short_name _) as [names|e]; cbn [bind]; [|discriminate].
  rewrite percentage_of_spec. cbn [bind].
  intros H. inversion H; subst c. cbn.
  repeat split; try reflexivity.
  intros Hz. apply length_zero_iff_nil in Hz.
  assert (Hne : forall ps, In ps all_shots -> ps <> []).
  { subst all_shots. intros ps Hps. apply in_flat_map in Hps.
    destruct Hps as [g [_ Hg]].
    destruct (Nat.ltb_spec 0
                (List.length (player_shots_in pbp_df box_df (Some player_name)
                                team_id g))) as [Hlt|Hlt]; [|contradiction].
    destruct Hg as [<-|[]]. intros Hnil. rewrite Hnil in Hlt. simpl in Hlt. lia. }
  destruct all_shots as [|ps rest]; [now apply E|].
  cbn [List.concat] in Hz. apply app_eq_nil in Hz. destruct Hz as [Hps _].
  now apply (Hne ps (or_introl eq_refl)).
Qed.

Lemma get_player_season_chart_no_zero_division (pbp_df : list Pbp.row)
    (box_df : list Box.row) (team_id : Z) (player_name : string) :
  get_player_season_chart pbp_df box_df team_id player_name
  <> Raise ZeroDivisionError.
Proof.
  unfold get_player_season_chart.
  match goal with
  | |- context [(List.length ?l =? 0)%nat] =>
      destruct (Nat.eqb_spec (List.length l) 0) as [E|E]; [discriminate|]
  end.
  destruct (mapM short_name _) as [names|e] eqn:Em; cbn [bind].
  - rewrite percentage_of_spec. discriminate.
  - apply mapM_raises in Em. destruct Em as [x [_ Hx]].
    apply short_name_raises in Hx. subst e. discriminate.
Qed.

(** C9: every aggregation that reports a shooting percentage reports
    exactly the integer 0 when its shot count is 0 and makes / total * 100
    (in binary64) otherwise, and none of them raises a division error: the
    guarded expression itself, every entry of [get_players] (Team View and
    players), the statistics of [get_shot_chart] and those of
    [get_player_season_chart]. *)
Theorem percentage_zero_safe (pbp_df : list Pbp.row) (box_df : list Box.row) :
  (forall makes, pct_spec makes 0 = PyInt 0)
  /\ (forall makes total,
        percentage_of makes total = Ok (pct_spec makes total))
  /\ (forall game_id team_id,
        exists l, get_players pbp_df box_df game_id team_id = Ok l
          /\ Forall (fun e => PlayerJson.percentage e
                              = pct_spec (PlayerJson.makes e)
                                         (PlayerJson.shots e)) l)
  /\ (forall game_id team_id player_name,
        get_shot_chart pbp_df box_df game_id team_id player_name
        <> Raise ZeroDivisionError
        /\ forall c,
             get_shot_chart pbp_df box_df game_id team_id player_name
             = Ok (Json200 c) ->
             Stats.percentage (Chart.stats c)
             = pct_spec (Stats.makes (Chart.stats c))
                        (Stats.total (Chart.stats c)))
  /\ (forall team_id player_name,
        get_player_season_chart pbp_df box_df team_id player_name
        <> Raise ZeroDivisionError
        /\ forall c,
             get_player_season_chart pbp_df box_df team_id player_name
             = Ok (Json200 c) ->
             Stats.percentage (Chart.stats c)
             = pct_spec (Stats.makes (Chart.stats c))
                        (Stats.total (Chart.stats c))).
Proof.
  split; [reflexivity|].
  split; [apply percentage_of_spec|].
  split; [|split].
  - intros g t. eexists. split; [apply get_players_spec|].
    constructor; [reflexivity|].
    apply Forall_forall. intros e He. apply in_map_iff in He.
    destruct He as [ip [<- _]]. reflexivity.
  - intros g t p. split; [apply get_shot_chart_no_zero_division|].
    intros c H. now apply (get_shot_chart_stats _ _ _ _ _ H).
  - intros t p. split; [apply get_player_season_chart_no_zero_division|].
    intros c H. now apply (get_player_season_chart_stats _ _ _ _ H).
Qed.

Lemma percentage_zero_safe_witness :
  Stats.percentage (Chart.stats chart_sample)
  = pct_spec (Stats.makes (Chart.stats chart_sample))
             (Stats.total (Chart.stats chart_sample)).
Proof.
  destruct (percentage_zero_safe pbp_sample box_sample)
    as [_ [_ [_ [Hchart _]]]].
  apply (proj2 (Hchart 1 8 "Team View")).
  vm_compute. reflexivity.
Defined.

(** ** The games of one player *)

Lemma cell_eqb_None {A : Type} (eqb : A -> A -> bool) (c : option A) :
  cell_eqb eqb c None = false.
Proof. destruct c; reflexivity. Qed.

Lemma player_rows_None (box_df : list Box.row) (team_id : Z) :
  player_rows box_df None team_id = [].
Proof.
  unfold player_rows. induction box_df as [|b t IH]; [reflexivity|].
  cbn [filter]. now rewrite cell_eqb_None.
Qed.

Lemma player_game_ids_NoDup (box_df : list Box.row) (name : option string)
    (team_id : Z) :
  NoDup (player_game_ids box_df name team_id).
Proof. apply (unique_by_NoDup Z.eqb Zeqb_spec). Qed.

Lemma player_game_ids_In (box_df : list Box.row) (name : string)
    (team_id g : Z) :
  In g (player_game_ids box_df (Some name) team_id) <->
  exists b, In b box_df
            /\ Box.athlete_display_name b = Some name
            /\ Box.team_id b = team_id
            /\ Box.game_id b = g.
Proof.
  unfold player_game_ids, player_rows.
  rewrite (unique_by_In Z.eqb Zeqb_spec), in_map_iff.
  split.
  - intros [b [Hg Hb]]. apply filter_In in Hb. destruct Hb as [Hb Hf].
    apply andb_true_iff in Hf. destruct Hf as [Hn Ht].
    apply (cell_eqb_Some String.eqb String.eqb_eq) in Hn.
    apply Z.eqb_eq in Ht. exists b. auto.
  - intros [b [Hb [Hn [Ht Hg]]]]. exists b. split; [assumption|].
    apply filter_In. split; [assumption|].
    apply andb_true_iff. split.
    + now apply (cell_eqb_Some String.eqb String.eqb_eq).
    + now apply Z.eqb_eq.
Qed.

(** The loop of [search_player] over the player's games. *)
Lemma tally_fold (pbp_df : list Pbp.row) (box_df : list Box.row)
    (name : option string) (team_id : Z) (ids : list Z) (acc : tally) :
  games_with_shots
    (fold_left (tally_game pbp_df box_df name team_id) ids acc)
  = (games_with_shots acc
     + List.length (filter (has_shots pbp_df box_df name team_id) ids))%nat.
Proof.
  revert acc. induction ids as [|g t IH]; intros acc; cbn [fold_left filter].
  - simpl. lia.
  - rewrite IH. unfold tally_game.
    change (has_shots pbp_df box_df name team_id g)
      with (0 <? List.length
                   (player_shots_in pbp_df box_df name team_id g))%nat.
    destruct (0 <? List.length (player_shots_in pbp_df box_df name team_id g))%nat;
      cbn [games_with_shots List.length]; lia.
Qed.

Lemma tally_player_games (pbp_df : list Pbp.row) (box_df : list Box.row)
    (name : option string) (team_id : Z) :
  games_with_shots (tally_player pbp_df box_df name team_id)
  = List.length (filter (has_shots pbp_df box_df name team_id)
                        (player_game_ids box_df name team_id)).
Proof. unfold tally_player. now rewrite tally_fold. Qed.

Lemma filter_length_lt {A : Type} (p : A -> bool) (l : list A) (x : A) :
  In x l -> p x = false -> (List.length (filter p l) < List.length l)%nat.
Proof.
  induction l as [|a t IH]; intros Hin Hp; [contradiction|].
  cbn [filter]. pose proof (filter_length_le p t) as Hle.
  destruct Hin as [->|Hin].
  - rewrite Hp. simpl. lia.
  - specialize (IH Hin Hp). destruct (p a); simpl; lia.
Qed.

(** What [search_player] returns: the entry of a matching candidate of the
    box-score table that has a game with shots. *)
Lemma search_player_In (pbp_df : list Pbp.row) (box_df : list Box.row)
    (q : string) (r : SearchJson.t) :
  In r (search_player pbp_df box_df q) ->
  exists b name,
    In b box_df
    /\ Box.athlete_display_name b = Some name
    /\ matches (split (lower q)) (candidate_columns b) = true
    /\ r = SearchJson.mk (Some name)
             (match Box.team_display_name b with
              | Some n => n | None => "Unknown" end)
             (Box.team_id b)
             (games_with_shots
                (tally_player pbp_df box_df (Some name) (Box.team_id b)))
             (total_shots
                (tally_player pbp_df box_df (Some name) (Box.team_id b)))
             (total_makes
                (tally_player pbp_df box_df (Some name) (Box.team_id b)))
    /\ (0 < games_with_shots
              (tally_player pbp_df box_df (Some name) (Box.team_id b)))%nat.
Proof.
  unfold search_player.
  destruct (List.length _ =? 0)%nat; [contradiction|].
  rewrite in_flat_map. intros [c [Hc Hr]].
  apply filter_In in Hc. destruct Hc as [Hc Hm].
  apply unique_by_In in Hc.
  2:{ intros [[a1 a2] a3] [[b1 b2] b3]. unfold candidate_eqb.
      cbn [cand_name cand_team_name cand_team_id fst snd].
      rewrite !andb_true_iff, !(key_eqb_spec String.eqb String.eqb_eq), Z.eqb_eq.
      split; [intros [[-> ->] ->]; reflexivity|].
      intros Heq. inversion Heq. auto. }
  apply in_map_iff in Hc. destruct Hc as [b [<- Hb]].
  unfold search_entry in Hr.
  cbn [candidate_columns cand_name cand_team_name cand_team_id fst snd] in Hr.
  destruct (Nat.ltb_spec 0
              (games_with_shots
                 (tally_player pbp_df box_df (Box.athlete_display_name b)
                    (Box.team_id b)))) as [Hlt|Hlt]; [|contradiction].
  destruct Hr as [<-|[]].
  destruct (Box.athlete_display_name b) as [name|] eqn:En.
  - exists b, name. repeat split; auto.
  - exfalso. rewrite tally_player_games in Hlt.
    unfold player_game_ids in Hlt. rewrite player_rows_None in Hlt.
    simpl in Hlt. lia.
Qed.

(** ** Tokens of [str.split()] *)

Lemma app_assoc_string (a b c : string) : (a ++ b) ++ c = a ++ b ++ c.
Proof. induction a as [|x a IH]; simpl; [reflexivity|]. now rewrite IH. Qed.

Lemma app_empty_r (a : string) : a ++ "" = a.
Proof. induction a as [|x a IH]; simpl; [reflexivity|]. now rewrite IH. Qed.

Lemma string_forall_app (p : ascii -> bool) (a b : string) :
  string_forall p (a ++ b) = string_forall p a && string_forall p b.
Proof.
  induction a as [|x a IH]; simpl; [reflexivity|].
  now rewrite IH, andb_assoc.
Qed.

Lemma string_forall_substring (p : ascii -> bool) (tok s : string) :
  is_substring tok s -> string_forall p s = true -> string_forall p tok = true.
Proof.
  intros [pre [post ->]]. rewrite !string_forall_app, !andb_true_iff. tauto.
Qed.

Lemma flush_In (cur tok : string) (k : list string) :
  In tok (flush cur k) -> (tok = cur /\ cur <> "") \/ In tok k.
Proof.
  destruct cur as [|c cur]; simpl; [auto|].
  intros [<-|H]; [left; split; [reflexivity|discriminate]|auto].
Qed.

Lemma split_from_tokens (cur s tok : string) :
  In tok (split_from cur s) ->
  tok <> ""
  /\ is_substring tok (cur ++ s)
  /\ (string_forall (fun c => negb (is_space c)) cur = true ->
      string_forall (fun c => negb (is_space c)) tok = true).
Proof.
  revert cur. induction s as [|c t IH]; intros cur; cbn [split_from].
  - intros H. apply flush_In in H. destruct H as [[-> Hne]|[]].
    split; [assumption|]. split; [|auto].
    exists "", "". reflexivity.
  - destruct (is_space c) eqn:Ec.
    + intros H. apply flush_In in H. destruct H as [[-> Hne]|H].
      * split; [assumption|]. split; [|auto].
        exists "", (String c t). reflexivity.
      * destruct (IH _ H) as [Hne [[pre [post Hsub]] Hsp]].
        split; [assumption|]. split; [|intros _; now apply Hsp].
        exists (cur ++ String c pre), post. simpl in Hsub.
        rewrite Hsub, app_assoc_string. reflexivity.
    + intros H. destruct (IH _ H) as [Hne [Hsub Hsp]].
      split; [assumption|]. split.
      * now rewrite app_assoc_string in Hsub.
      * intros Hcur. apply Hsp.
        rewrite string_forall_app, Hcur. simpl. now rewrite Ec.
Qed.

Lemma lower_ascii_not_upper (c : ascii) : is_upper (lower_ascii c) = false.
Proof.
  destruct c as [[] [] [] [] [] [] [] []]; vm_compute; reflexivity.
Qed.

Lemma lower_no_upper (s : string) :
  string_forall (fun c => negb (is_upper c)) (lower s) = true.
Proof.
  induction s as [|c s IH]; simpl; [reflexivity|].
  now rewrite lower_ascii_not_upper, IH.
Qed.

(** The search parts of a query are non-empty, free of whitespace, in
    lower case, and pieces of the lowered query. *)
Lemma search_parts_tokens (q tok : string) :
  In tok (split (lower q)) ->
  tok <> ""
  /\ is_substring tok (lower q)
  /\ string_forall (fun c => negb (is_space c)) tok = true
  /\ string_forall (fun c => negb (is_upper c)) tok = true.
Proof.
  intros H. destruct (split_from_tokens _ _ _ H) as [Hne [Hsub Hsp]].
  simpl in Hsub. repeat split; auto.
  eapply string_forall_substring; [exact Hsub|apply lower_no_upper].
Qed.

(** ** [search_player] *)

(** C7: [search_player] splits the lowered query on whitespace; every
    record it returns names a (player, team) pair of the box-score table
    such that every token is a substring of the lowered player name, and
    the player has a game with at least one shot, so [total_games] is
    positive.  On the sample roster the query "cameron boozer" returns
    Cameron Boozer and Cameron T. Boozer, not Cam Boozer. *)
Theorem search_player_sound :
  (forall (pbp_df : list Pbp.row) (box_df : list Box.row) (q : string)
          (r : SearchJson.t),
     In r (search_player pbp_df box_df q) ->
     exists name b,
       SearchJson.player_name r = Some name
       /\ In b box_df
       /\ Box.athlete_display_name b = Some name
       /\ Box.team_id b = SearchJson.team_id r
       /\ (forall tok, In tok (split (lower q)) ->
             is_substring tok (lower name)
             /\ tok <> ""
             /\ string_forall (fun c => negb (is_space c)) tok = true
             /\ string_forall (fun c => negb (is_upper c)) tok = true)
       /\ (exists g,
             In g (player_game_ids box_df (Some name) (SearchJson.team_id r))
             /\ player_shots_in pbp_df box_df (Some name)
                  (SearchJson.team_id r) g <> [])
       /\ (0 < SearchJson.total_games r)%nat)
  /\ split (lower "cameron boozer") = ["cameron"; "boozer"]
  /\ map SearchJson.player_name
         (search_player pbp_search box_search "cameron boozer")
     = [Some "Cameron Boozer"; Some "Cameron T. Boozer"].
Proof.
  split; [|split; vm_compute; reflexivity].
  intros pbp_df box_df q r Hr.
  destruct (search_player_In _ _ _ _ Hr) as [b [name [Hb [Hn [Hm [-> Hpos]]]]]].
  exists name, b.
  cbn [SearchJson.player_name SearchJson.team_id SearchJson.total_games].
  repeat split; auto.
  - unfold matches, candidate_columns in Hm. cbn [cand_name fst] in Hm.
    rewrite Hn in Hm. cbn [py_str] in Hm.
    rewrite forallb_forall in Hm. apply contains_spec. now apply Hm.
  - now apply (search_parts_tokens q).
  - now apply (search_parts_tokens q).
  - now apply (search_parts_tokens q).
  - rewrite tally_player_games in Hpos.
    destruct (filter (has_shots pbp_df box_df (Some name) (Box.team_id b))
                (player_game_ids box_df (Some name) (Box.team_id b)))
      as [|g rest] eqn:Ef; [simpl in Hpos; lia|].
    assert (Hg : In g (filter (has_shots pbp_df box_df (Some name)
                                 (Box.team_id b))
                         (player_game_ids box_df (Some name) (Box.team_id b))))
      by (rewrite Ef; now left).
    apply filter_In in Hg. destruct Hg as [Hg Hs].
    exists g. split; [assumption|].
    unfold has_shots in Hs. intros Hnil. rewrite Hnil in Hs. discriminate.
Qed.

Lemma search_player_sound_witness :
  exists name b,
    SearchJson.player_name search_sample = Some name
    /\ In b box_sample
    /\ Box.athlete_display_name b = Some name
    /\ Box.team_id b = SearchJson.team_id search_sample
    /\ (forall tok, In tok (split (lower "boozer cam")) ->
          is_substring tok (lower name)
          /\ tok <> ""
          /\ string_forall (fun c => negb (is_space c)) tok = true
          /\ string_forall (fun c => negb (is_upper c)) tok = true)
    /\ (exists g,
          In g (player_game_ids box_sample (Some name)
                  (SearchJson.team_id search_sample))
          /\ player_shots_in pbp_sample box_sample (Some name)
               (SearchJson.team_id search_sample) g <> [])
    /\ (0 < SearchJson.total_games search_sample)%nat.
Proof.
  apply (proj1 search_player_sound pbp_sample box_sample "boozer cam").
  vm_compute. left. reflexivity.
Defined.

(** ** Season chart against search: the two game counts *)

(** C10: for one player (name and team), the game count of the season
    chart, in the title and in the statistics, is the number of distinct
    games of the player's box-score rows, shotless games included, while
    [total_games] of [search_player] counts only the games with a shot of
    the player; with a shotless box-score game the two counts differ. *)
Theorem season_games_vs_search_games (pbp_df : list Pbp.row)
    (box_df : list Box.row) (team_id : Z) (player_name q : string)
    (c : Chart.t) (r : SearchJson.t) :
  get_player_season_chart pbp_df box_df team_id player_name = Ok (Json200 c) ->
  In r (search_player pbp_df box_df q) ->
  SearchJson.player_name r = Some player_name ->
  SearchJson.team_id r = team_id ->
  let ids := player_game_ids box_df (Some player_name) team_id in
  NoDup ids
  /\ (forall g, In g ids <->
        exists b, In b box_df
                  /\ Box.athlete_display_name b = Some player_name
                  /\ Box.team_id b = team_id
                  /\ Box.game_id b = g)
  /\ Stats.games (Chart.stats c) = Some (List.length ids)
  /\ Chart.title c = season_title player_name (List.length ids)
  /\ SearchJson.total_games r
     = List.length
         (filter (has_shots pbp_df box_df (Some player_name) team_id) ids)
  /\ ((exists g, In g ids
                 /\ player_shots_in pbp_df box_df (Some player_name) team_id g
                    = []) ->
      (SearchJson.total_games r < List.length ids)%nat
      /\ Stats.games (Chart.stats c) <> Some (SearchJson.total_games r)).
Proof.
  intros Hc Hr Hname Hteam ids.
  destruct (get_player_season_chart_stats _ _ _ _ Hc) as [_ [_ [Hg Ht]]].
  destruct (search_player_In _ _ _ _ Hr) as [b [name [_ [_ [_ [Er _]]]]]].
  assert (Etot : SearchJson.total_games r
                 = List.length
                     (filter (has_shots pbp_df box_df (Some player_name) team_id)
                             ids)).
  { rewrite Er in Hname, Hteam |- *.
    cbn [SearchJson.player_name SearchJson.team_id SearchJson.total_games] in *.
    inversion Hname; subst name. rewrite Hteam.
    apply tally_player_games. }
  split; [apply player_game_ids_NoDup|].
  split; [intros g; apply player_game_ids_In|].
  split; [exact Hg|]. split; [exact Ht|]. split; [exact Etot|].
  intros [g [Hin Hnil]].
  assert (Hlt : (SearchJson.total_games r < List.length ids)%nat).
  { rewrite Etot. apply (filter_length_lt _ _ g Hin).
    unfold has_shots. now rewrite Hnil. }
  split; [exact Hlt|].
  rewrite Hg. intros E. inversion E. fold ids in H0. lia.
Qed.

Lemma season_games_vs_search_games_witness :
  let ids := player_game_ids box_sample (Some "Cameron Boozer") 8 in
  NoDup ids
  /\ (forall g, In g ids <->
        exists b, In b box_sample
                  /\ Box.athlete_display_name b = Some "Cameron Boozer"
                  /\ Box.team_id b = 8
                  /\ Box.game_id b = g)
  /\ Stats.games (Chart.stats season_sample) = Some (List.length ids)
  /\ Chart.title season_sample
     = season_title "Cameron Boozer" (List.length ids)
  /\ SearchJson.total_games search_sample
     = List.length
         (filter (has_shots pbp_sample box_sample (Some "Cameron Boozer") 8)
                 ids)
  /\ ((exists g, In g ids
                 /\ player_shots_in pbp_sample box_sample
                      (Some "Cameron Boozer") 8 g = []) ->
      (SearchJson.total_games search_sample < List.length ids)%nat
      /\ Stats.games (Chart.stats season_sample)
         <> Some (SearchJson.total_games search_sample)).
Proof.
  apply (@season_games_vs_search_games pbp_sample box_sample 8
           "Cameron Boozer" "boozer" season_sample search_sample).
  - vm_compute. reflexivity.
  - vm_compute. left. reflexivity.
  - reflexivity.
  - reflexivity.
Defined.

(** In the sample, game 3 is a shotless box-score game of athlete 100: the
    season chart says 3 games, the search says 2. *)
Example season_sample_counts_differ :
  (exists g, In g (player_game_ids box_sample (Some "Cameron Boozer") 8)
             /\ player_shots_in pbp_sample box_sample
                  (Some "Cameron Boozer") 8 g = [])
  /\ Stats.games (Chart.stats season_sample) = Some 3%nat
  /\ SearchJson.total_games search_sample = 2%nat.
Proof.
  split; [exists 3; split; [vm_compute; auto|vm_compute; reflexivity]|].
  split; reflexivity.
Qed.

(** ** Identifiers that the base tables do not hold *)

Lemma filter_nil {A : Type} (p : A -> bool) (l : list A) :
  (forall x, In x l -> p x = false) -> filter p l = [].
Proof.
  induction l as [|x t IH]; intros H; [reflexivity|].
  cbn [filter]. rewrite (H x (or_introl eq_refl)).
  apply IH. intros y Hy. apply H. now right.
Qed.

Lemma agg_last_id (k : Z) (grp : list Pbp.row) (g : Game.row) :
  In g (agg_last k grp) -> Game.game_id g = k.
Proof.
  unfold agg_last. destruct (last_valid _); [|contradiction].
  intros [<-|[]]. reflexivity.
Qed.

Lemma get_team_games_row_known (pbp_df : list Pbp.row) (T : Z) (g : Game.row) :
  In g (get_team_games pbp_df T) ->
  exists r, In r pbp_df /\ Pbp.game_id r = Game.game_id g
            /\ plays_in T r = true.
Proof.
  intros H. apply get_team_games_In in H. destruct H as [k [Hk Hg]].
  apply agg_last_id in Hg. apply group_keys_In in Hk.
  destruct Hk as [r [Hr Hid]]. apply filter_In in Hr.
  exists r. rewrite Hg. tauto.
Qed.

(** X16. The game listing of a team without play-by-play rows is empty,
    in [get_team_games] and in [get_games]. *)
Lemma get_team_games_unknown (pbp_df : list Pbp.row) (T : Z) :
  (forall r, In r pbp_df -> plays_in T r = false) ->
  get_team_games pbp_df T = [] /\ get_games pbp_df T = Ok [].
Proof.
  intros H. unfold get_games, get_team_games.
  rewrite (filter_nil _ _ H). split; reflexivity.
Qed.

(** X17. The shot extraction for a game that neither table holds is empty:
    no shots and no roster. *)
Lemma get_player_shots_unknown_game (pbp_df : list Pbp.row)
    (box_df : list Box.row) (game_id team_id : Z) :
  (forall r, In r pbp_df -> Pbp.game_id r <> game_id) ->
  (forall b, In b box_df -> Box.game_id b <> game_id) ->
  get_player_shots pbp_df box_df game_id team_id = ([], []).
Proof.
  intros Hp Hb. unfold get_player_shots.
  rewrite (filter_nil (fun r => Pbp.game_id r =? game_id) pbp_df).
  - rewrite (filter_nil (fun b => Box.game_id b =? game_id) box_df).
    + reflexivity.
    + intros b Hin. apply Z.eqb_neq. now apply Hb.
  - intros r Hin. apply Z.eqb_neq. now apply Hp.
Qed.

(** X18. So is the shot extraction for a team that neither table holds. *)
Lemma get_player_shots_unknown_team (pbp_df : list Pbp.row)
    (box_df : list Box.row) (game_id team_id : Z) :
  (forall r, In r pbp_df -> Pbp.team_id r <> Some team_id) ->
  (forall b, In b box_df -> Box.team_id b <> team_id) ->
  get_player_shots pbp_df box_df game_id team_id = ([], []).
Proof.
  intros Hp Hb. unfold get_player_shots. f_equal.
  - apply filter_nil. intros s Hs. apply in_flat_map in Hs.
    destruct Hs as [r [Hr Hs]]. apply merge_names_play in Hs.
    apply filter_In in Hr. destruct Hr as [Hr _].
    destruct (is_team_shot team_id s) eqn:E; [|reflexivity].
    apply is_team_shot_spec in E. destruct E as [E _].
    rewrite Hs in E. now apply Hp in Hr.
  - rewrite (filter_nil (fun b => Box.team_id b =? team_id)); [reflexivity|].
    intros b Hin. apply filter_In in Hin. destruct Hin as [Hin _].
    apply Z.eqb_neq. now apply Hb.
Qed.

(** C1, where the code departs from it: when the play-by-play table has
    no row of the game with the team as home or away side - an unknown
    game, an unknown team - [get_shot_chart] raises [IndexError] at
    [iloc[0]], before it reaches its own no-shots-found answer. *)
Theorem get_shot_chart_unknown_raises (pbp_df : list Pbp.row)
    (box_df : list Box.row) (game_id team_id : Z) (player_name : string) :
  (forall r, In r pbp_df -> Pbp.game_id r = game_id ->
             plays_in team_id r = false) ->
  get_shot_chart pbp_df box_df game_id team_id player_name = Raise IndexError.
Proof.
  intros H. unfold get_shot_chart.
  destruct (get_player_shots pbp_df box_df game_id team_id) as [ts tp].
  rewrite filter_nil; [reflexivity|].
  intros g Hg. apply Z.eqb_neq. intros E.
  destruct (get_team_games_row_known _ _ _ Hg) as [r [Hr [Hid Hp]]].
  rewrite (H r Hr) in Hp; [discriminate|congruence].
Qed.

Lemma get_shot_chart_unknown_raises_witness :
  get_shot_chart pbp_sample box_sample 999 8 "Team View" = Raise IndexError.
Proof.
  apply (@get_shot_chart_unknown_raises pbp_sample box_sample 999 8
           "Team View").
  intros r Hr Hid. simpl in Hr.
  repeat (destruct Hr as [<-|Hr]; [discriminate Hid|]). contradiction.
Defined.

(** The same for a team that is in no table. *)
Example get_shot_chart_unknown_team :
  get_shot_chart pbp_sample box_sample 1 77 "Team View" = Raise IndexError
  /\ get_team_games pbp_sample 77 = []
  /\ get_player_shots pbp_sample box_sample 1 77 = ([], [])
  /\ get_player_season_chart pbp_sample box_sample 77 "Cameron Boozer"
     = Ok (Json404 "No shots found").
Proof. repeat split; vm_compute; reflexivity. Qed.

(** ** [get_player_games] *)

Lemma mapM_total {A B : Type} (f : A -> result B) (R : A -> B -> Prop)
    (l : list A) :
  (forall x, In x l -> exists y, f x = Ok y /\ R x y) ->
  exists ys, mapM f l = Ok ys /\ Forall2 R l ys.
Proof.
  induction l as [|x t IH]; intros H.
  - exists []. split; [reflexivity|constructor].
  - destruct (H x (or_introl eq_refl)) as [y [Hy HR]].
    destruct IH as [ys [Hys HF]]; [intros z Hz; apply H; now right|].
    exists (y :: ys). simpl. rewrite Hy, Hys. split; [reflexivity|].
    now constructor.
Qed.

Lemma team_shots_play (pbp_df : list Pbp.row) (box_df : list Box.row)
    (game_id team_id : Z) (s : Shot.row) :
  In s (fst (get_player_shots pbp_df box_df game_id team_id)) ->
  In (Shot.play s) (filter (fun r => Pbp.game_id r =? game_id) pbp_df).
Proof.
  unfold get_player_shots. cbn [fst]. rewrite filter_In, in_flat_map.
  intros [[r [Hr Hs]] _]. apply merge_names_play in Hs. now rewrite Hs.
Qed.

Lemma player_shots_in_play (pbp_df : list Pbp.row) (box_df : list Box.row)
    (name : option string) (team_id game_id : Z) (s : Shot.row) :
  In s (player_shots_in pbp_df box_df name team_id game_id) ->
  In (Shot.play s) (filter (fun r => Pbp.game_id r =? game_id) pbp_df).
Proof.
  unfold player_shots_in.
  pose proof (team_shots_play pbp_df box_df game_id team_id s) as H.
  destruct (get_player_shots pbp_df box_df game_id team_id) as [ts tp].
  cbn [fst] in H. unfold shots_of. rewrite filter_In. intros [Hs _]. auto.
Qed.

Lemma player_score_spec (p : perspective) :
  (if notna (team_score p) then result_line p else Ok "TBD") = player_score p.
Proof.
  unfold player_score, result_line, win_loss.
  destruct (team_score p) as [a|], (opp_score p) as [b|]; reflexivity.
Qed.

(** One turn of the loop of [get_player_games]. *)
Lemma player_game_entry_spec (pbp_df : list Pbp.row) (box_df : list Box.row)
    (team_id : Z) (name : string) (g : Z) :
  if has_shots pbp_df box_df (Some name) team_id g
  then exists r,
      iloc_last (filter (fun r => Pbp.game_id r =? g) pbp_df) = Ok r
      /\ player_game_entry pbp_df box_df team_id name g
         = (score_str <- player_score (play_perspective team_id r) ;;
            Ok [ PlayerGameJson.mk g (strftime (Pbp.game_date r))
                   (opponent (play_perspective team_id r))
                   (location (play_perspective team_id r)) score_str
                   (List.length
                      (player_shots_in pbp_df box_df (Some name) team_id g))
                   (List.length
                      (scoring
                         (player_shots_in pbp_df box_df (Some name)
                            team_id g))) ])
  else player_game_entry pbp_df box_df team_id name g = Ok [].
Proof.
  unfold has_shots, player_game_entry.
  pose proof (player_shots_in_play pbp_df box_df (Some name) team_id g) as Hin.
  destruct (player_shots_in pbp_df box_df (Some name) team_id g) as [|s ss];
    [reflexivity|].
  cbn [List.length Nat.ltb Nat.leb Nat.eqb].
  specialize (Hin s (or_introl eq_refl)).
  destruct (filter (fun r => Pbp.game_id r =? g) pbp_df) as [|r0 rs] eqn:Ed;
    [contradiction|].
  cbn [List.length Nat.eqb].
  destruct (iloc_last_nonempty (l := r0 :: rs)) as [r Hr]; [discriminate|].
  exists r. split; [exact Hr|]. rewrite Hr. cbn [bind].
  now rewrite player_score_spec.
Qed.

Lemma player_game_entry_raises (pbp_df : list Pbp.row) (box_df : list Box.row)
    (team_id : Z) (name : string) (g : Z) (e : exn) :
  player_game_entry pbp_df box_df team_id name g = Raise e ->
  e = ValueError
  /\ has_shots pbp_df box_df (Some name) team_id g = true
  /\ exists r,
       iloc_last (filter (fun r => Pbp.game_id r =? g) pbp_df) = Ok r
       /\ team_score (play_perspective team_id r) <> None
       /\ opp_score (play_perspective team_id r) = None.
Proof.
  pose proof (player_game_entry_spec pbp_df box_df team_id name g) as H.
  destruct (has_shots pbp_df box_df (Some name) team_id g); [|congruence].
  destruct H as [r [Hr ->]]. unfold player_score.
  destruct (team_score (play_perspective team_id r)) as [a|] eqn:Ea;
    [|discriminate].
  destruct (opp_score (play_perspective team_id r)) as [b|] eqn:Eb;
    [discriminate|].
  cbn [bind]. intros H. inversion H.
  split; [reflexivity|]. split; [reflexivity|].
  exists r. split; [exact Hr|]. rewrite Ea, Eb.
  split; [discriminate|reflexivity].
Qed.

(** C2, where the code departs from it: in [get_player_games] a game of
    the player whose closing row has the team's score but not the
    opponent's does not get the score string TBD; [int(opp_score)] raises
    [ValueError] and no listing is returned. *)
Theorem get_player_games_half_score_raises (pbp_df : list Pbp.row)
    (box_df : list Box.row) (team_id : Z) (player_name : string)
    (g : Z) (r : Pbp.row) :
  In g (player_game_ids box_df (Some player_name) team_id) ->
  player_shots_in pbp_df box_df (Some player_name) team_id g <> [] ->
  iloc_last (filter (fun r => Pbp.game_id r =? g) pbp_df) = Ok r ->
  team_score (play_perspective team_id r) <> None ->
  opp_score (play_perspective team_id r) = None ->
  get_player_games pbp_df box_df team_id player_name = Raise ValueError.
Proof.
  intros Hg Hs Hr Ht Ho. unfold get_player_games.
  rewrite (@mapM_raise _ _ _ ValueError); [reflexivity| |].
  - intros x e _ Hx. now apply player_game_entry_raises in Hx.
  - exists g. split; [assumption|].
    pose proof (player_game_entry_spec pbp_df box_df team_id player_name g) as H.
    unfold has_shots in H.
    destruct (player_shots_in pbp_df box_df (Some player_name) team_id g)
      as [|s ss] eqn:Es; [congruence|].
    cbn [List.length Nat.ltb Nat.leb] in H.
    destruct H as [r' [Hr' ->]].
    assert (r' = r) by congruence. subst r'.
    unfold player_score. rewrite Ho.
    destruct (team_score (play_perspective team_id r)); [reflexivity|congruence].
Qed.

Lemma get_player_games_half_score_raises_witness :
  get_player_games pbp_half_score box_half_score 8 "Cameron Boozer"
  = Raise ValueError.
Proof.
  apply (@get_player_games_half_score_raises pbp_half_score box_half_score 8
           "Cameron Boozer" 4
           (play 4 (d 2025 12 9) 8 9 (Some 70) None
                 (Some 100) (Some 8) (Some "JumpShot") true true)).
  - vm_compute. left. reflexivity.
  - vm_compute. discriminate.
  - vm_compute. reflexivity.
  - vm_compute. discriminate.
  - vm_compute. reflexivity.
Defined.

(** ** [get_games] *)

Lemma result_line_ok (p : perspective) (a b : Z) :
  team_score p = Some a -> opp_score p = Some b ->
  result_line p
  = Ok ((if b <? a then "W" else "L") ++ " " ++ str_of_int a ++ "-"
                                      ++ str_of_int b).
Proof.
  intros Ha Hb. unfold result_line, win_loss. rewrite Ha, Hb. reflexivity.
Qed.

(** X15. The per-team listing does what C2 asks: it never raises, the score is
    TBD exactly when one of the two final scores is missing, and otherwise
    it opens with W when the team's score is strictly the greater and with
    L when it is not, ties included. *)
Lemma get_games_scores (pbp_df : list Pbp.row) (T : Z) :
  exists l,
    get_games pbp_df T = Ok l
    /\ Forall2
         (fun row e =>
            GameJson.game_id e = Game.game_id row
            /\ (GameJson.score e = "TBD" <->
                team_score (game_perspective T row) = None
                \/ opp_score (game_perspective T row) = None)
            /\ (forall a b,
                  team_score (game_perspective T row) = Some a ->
                  opp_score (game_perspective T row) = Some b ->
                  GameJson.score e
                  = (if b <? a then "W" else "L")
                      ++ " " ++ str_of_int a ++ "-" ++ str_of_int b))
         (get_team_games pbp_df T) l.
Proof.
  unfold get_games. apply mapM_total. intros row _. unfold game_entry.
  destruct (team_score (game_perspective T row)) as [a|] eqn:Ea;
  destruct (opp_score (game_perspective T row)) as [b|] eqn:Eb; cbn [notna andb].
  - rewrite (result_line_ok _ Ea Eb). cbn [bind]. eexists. split; [reflexivity|].
    cbn [GameJson.game_id GameJson.score].
    split; [reflexivity|]. split.
    + split; [|intros [H|H]; discriminate].
      destruct (b <? a); discriminate.
    + intros a' b' Ha' Hb'. inversion Ha'; inversion Hb'; subst. reflexivity.
  - cbn [bind]. eexists. split; [reflexivity|].
    cbn [GameJson.game_id GameJson.score].
    split; [reflexivity|]. split; [tauto|]. discriminate.
  - cbn [bind]. eexists. split; [reflexivity|].
    cbn [GameJson.game_id GameJson.score].
    split; [reflexivity|]. split; [tauto|]. discriminate.
  - cbn [bind]. eexists. split; [reflexivity|].
    cbn [GameJson.game_id GameJson.score].
    split; [reflexivity|]. split; [tauto|]. discriminate.
Qed.

(** On the same table the per-team listing says TBD. *)
Example get_games_half_score :
  get_games pbp_half_score 8
  = Ok [ GameJson.mk 4 "12/09/2025" "Away" "vs" "TBD" ].
Proof. vm_compute. reflexivity. Qed.

(** ** [get_player_games]: the listing *)

Lemma Forall2_concat_In {A B : Type} (R : A -> list B -> Prop)
    (xs : list A) (yss : list (list B)) (e : B) :
  Forall2 R xs yss -> In e (List.concat yss) ->
  exists x ys, In x xs /\ R x ys /\ In e ys.
Proof.
  induction 1 as [|x ys xs' yss' HR HF IH]; cbn [List.concat]; [contradiction|].
  rewrite in_app_iff. intros [He|He].
  - exists x, ys. split; [now left|auto].
  - destruct (IH He) as [x' [ys' [Hx [HR' He']]]].
    exists x', ys'. split; [now right|auto].
Qed.

Lemma player_entries_ids (pbp_df : list Pbp.row) (box_df : list Box.row)
    (team_id : Z) (name : string) (ids : list Z)
    (results : list (list PlayerGameJson.t)) :
  Forall2 (fun g es => player_game_entry pbp_df box_df team_id name g = Ok es)
          ids results ->
  map PlayerGameJson.game_id (List.concat results)
  = filter (has_shots pbp_df box_df (Some name) team_id) ids.
Proof.
  induction 1 as [|g es ids' results' Hg HF IH]; [reflexivity|].
  cbn [List.concat filter]. rewrite map_app, IH.
  pose proof (player_game_entry_spec pbp_df box_df team_id name g) as Hs.
  destruct (has_shots pbp_df box_df (Some name) team_id g).
  - destruct Hs as [r [_ E]]. rewrite E in Hg.
    destruct (player_score (play_perspective team_id r)); cbn [bind] in Hg;
      [|discriminate].
    inversion Hg. reflexivity.
  - rewrite Hs in Hg. inversion Hg. reflexivity.
Qed.

(** C8, on every input: when [get_player_games] returns, its records are
    sorted ascending by the formatted date string in the order of strings,
    their games are exactly the distinct games of the player's box-score
    rows that hold a shot of the player, each once, and each record is made
    from the last play-by-play row of its game; when it does not return,
    it raised [ValueError] on such a game whose last row has the team's
    score without the opponent's. *)
Theorem get_player_games_spec (pbp_df : list Pbp.row) (box_df : list Box.row)
    (team_id : Z) (player_name : string) :
  let ids := player_game_ids box_df (Some player_name) team_id in
  let with_shots :=
    filter (has_shots pbp_df box_df (Some player_name) team_id) ids in
  match get_player_games pbp_df box_df team_id player_name with
  | Ok l =>
      Sorted (ordered date_str_leb) l
      /\ Permutation (map PlayerGameJson.game_id l) with_shots
      /\ NoDup (map PlayerGameJson.game_id l)
      /\ (forall g, In g (map PlayerGameJson.game_id l) <->
            In g ids
            /\ player_shots_in pbp_df box_df (Some player_name) team_id g
               <> [])
      /\ (forall e, In e l ->
            exists r,
              iloc_last (filter (fun r => Pbp.game_id r =? PlayerGameJson.game_id e)
                                pbp_df) = Ok r
              /\ PlayerGameJson.date e = strftime (Pbp.game_date r)
              /\ player_score (play_perspective team_id r)
                 = Ok (PlayerGameJson.score e)
              /\ PlayerGameJson.shots e
                 = List.length
                     (player_shots_in pbp_df box_df (Some player_name) team_id
                        (PlayerGameJson.game_id e)))
  | Raise e =>
      e = ValueError
      /\ exists g r,
           In g with_shots
           /\ iloc_last (filter (fun r => Pbp.game_id r =? g) pbp_df) = Ok r
           /\ team_score (play_perspective team_id r) <> None
           /\ opp_score (play_perspective team_id r) = None
  end.
Proof.
  intros ids with_shots. unfold get_player_games. fold ids.
  destruct (mapM (player_game_entry pbp_df box_df team_id player_name) ids)
    as [results|e] eqn:Em; cbn [bind].
  - apply mapM_inv in Em.
    pose proof (@player_entries_ids _ _ _ _ _ _ Em) as Hids.
    fold with_shots in Hids.
    assert (Hperm : Permutation
                      (map PlayerGameJson.game_id
                           (sort_by date_str_leb (List.concat results)))
                      with_shots).
    { rewrite <- Hids. apply Permutation_map, sort_by_perm. }
    assert (Hnd : NoDup with_shots).
    { apply NoDup_filter, player_game_ids_NoDup. }
    split; [apply sort_by_sorted; intros x y; apply String.leb_total|].
    split; [exact Hperm|].
    split; [eapply Permutation_NoDup; [symmetry; exact Hperm|exact Hnd]|].
    split.
    + intros g. split.
      * intros Hg. apply (Permutation_in _ Hperm) in Hg.
        apply filter_In in Hg. destruct Hg as [Hg Hs]. split; [exact Hg|].
        unfold has_shots in Hs. intros E. rewrite E in Hs. discriminate.
      * intros [Hg Hs]. apply (Permutation_in _ (Permutation_sym Hperm)).
        apply filter_In. split; [exact Hg|]. unfold has_shots.
        destruct (player_shots_in pbp_df box_df (Some player_name) team_id g);
          [congruence|reflexivity].
    + intros e He. apply sort_by_In in He.
      destruct (@Forall2_concat_In _ _ _ _ _ _ Em He) as [g [es [_ [Hg Hin]]]].
      pose proof (player_game_entry_spec pbp_df box_df team_id player_name g)
        as Hs.
      destruct (has_shots pbp_df box_df (Some player_name) team_id g).
      * destruct Hs as [r [Hr E]]. rewrite E in Hg.
        destruct (player_score (play_perspective team_id r)) as [sc|] eqn:Esc;
          cbn [bind] in Hg; [|discriminate].
        inversion Hg; subst es. destruct Hin as [<-|[]].
        cbn [PlayerGameJson.game_id PlayerGameJson.date PlayerGameJson.score
             PlayerGameJson.shots].
        exists r. auto.
      * rewrite Hs in Hg. inversion Hg; subst es. contradiction.
  - apply mapM_raises in Em. destruct Em as [g [Hg He]].
    apply player_game_entry_raises in He.
    destruct He as [-> [Hs [r [Hr [Ht Ho]]]]].
    split; [reflexivity|]. exists g, r.
    split; [apply filter_In; auto|auto].
Qed.

(** The order is that of the strings: the game of January 2026 precedes
    the game of November 2025. *)
Example get_player_games_lexicographic :
  exists l,
    get_player_games pbp_two_years box_two_years 8 "Cameron Boozer" = Ok l
    /\ map PlayerGameJson.date l = ["01/05/2026"; "11/27/2025"]
    /\ map PlayerGameJson.game_id l = [11; 10].
Proof. eexists. split; [vm_compute; reflexivity|]. split; reflexivity. Qed.

(** On the table of game 4 the listing is not returned. *)
Example get_player_games_not_returned :
  get_player_games pbp_half_score box_half_score 8 "Cameron Boozer"
  = Raise ValueError
  /\ In 4 (player_game_ids box_half_score (Some "Cameron Boozer") 8)
  /\ player_shots_in pbp_half_score box_half_score
       (Some "Cameron Boozer") 8 4 <> [].
Proof.
  split; [vm_compute; reflexivity|].
  split; [vm_compute; auto|vm_compute; discriminate].
Qed.

(* ================================================================== *)
(** * Further properties of the queries *)

(** ** The team directory *)

Lemma team_pair_eqb_spec (a b : team_pair) : team_pair_eqb a b = true <-> a = b.
Proof.
  destruct a as [i n], b as [j m]. unfold team_pair_eqb. cbn [fst snd].
  rewrite andb_true_iff, Z.eqb_eq, String.eqb_eq.
  split; [intros [-> ->]; reflexivity|]. intros H. inversion H. auto.
Qed.

Lemma dict_get_In (k v : string) (items : list (string * string)) :
  dict_get k items = Some v -> In (k, v) items.
Proof.
  induction items as [|[k' v'] t IH]; simpl; [discriminate|].
  destruct (String.eqb_spec k k') as [->|Hne].
  - intros H. inversion H. now left.
  - intros H. right. now apply IH.
Qed.

Lemma conference_of_label (team_name : string) :
  In (conference_of team_name) conference_labels.
Proof.
  unfold conference_of.
  destruct (dict_get team_name CONFERENCE_MAP) as [c|] eqn:E.
  - apply dict_get_In in E.
    assert (H : forallb (fun kv => existsb (String.eqb (snd kv)) conference_labels)
                        CONFERENCE_MAP = true) by (vm_compute; reflexivity).
    rewrite forallb_forall in H. specialize (H _ E). cbn [snd] in H.
    apply existsb_exists in H. destruct H as [l [Hl He]].
    apply String.eqb_eq in He. now subst.
  - vm_compute. tauto.
Qed.

(** X1. [load_data] lists exactly the (identifier, name) pairs seen as
    home or as away side of some play-by-play row, each pair once - two
    spellings of one identifier give two entries -, every entry with the
    conference of the mapping for its name or Other, sorted by name. *)
Theorem load_data_teams (pbp_df : list Pbp.row) :
  let all_teams := load_data pbp_df in
  (forall t, In t all_teams <->
     Team.conference t = conference_of (Team.team_name t)
     /\ exists r, In r pbp_df
          /\ ((Team.team_id t = Pbp.home_team_id r
               /\ Team.team_name t = Pbp.home_team_name r)
              \/ (Team.team_id t = Pbp.away_team_id r
                  /\ Team.team_name t = Pbp.away_team_name r)))
  /\ NoDup (map (fun t => (Team.team_id t, Team.team_name t)) all_teams)
  /\ Sorted (ordered team_name_leb) all_teams
  /\ (forall t, In t all_teams -> In (Team.conference t) conference_labels).
Proof.
  intros all_teams.
  assert (Hin : forall t, In t all_teams <->
     Team.conference t = conference_of (Team.team_name t)
     /\ exists r, In r pbp_df
          /\ ((Team.team_id t = Pbp.home_team_id r
               /\ Team.team_name t = Pbp.home_team_name r)
              \/ (Team.team_id t = Pbp.away_team_id r
                  /\ Team.team_name t = Pbp.away_team_name r))).
  { intros t. unfold all_teams, load_data.
    rewrite sort_by_In, in_map_iff. split.
    - intros [p [<- Hp]]. cbn [Team.conference Team.team_name Team.team_id].
      split; [reflexivity|].
      apply -> (unique_by_In team_pair_eqb team_pair_eqb_spec) in Hp.
      apply in_app_iff in Hp.
      destruct Hp as [Hp|Hp]; apply in_map_iff in Hp;
        destruct Hp as [r [<- Hr]]; exists r; cbn [fst snd]; auto.
    - intros [Hc [r [Hr Hside]]].
      exists (Team.team_id t, Team.team_name t). cbn [fst snd]. split.
      + destruct t as [i n c]. cbn in *. now rewrite Hc.
      + apply <- (unique_by_In team_pair_eqb team_pair_eqb_spec).
        apply in_app_iff.
        destruct Hside as [[-> ->]|[-> ->]]; [left|right];
          apply in_map_iff; exists r; auto. }
  split; [exact Hin|]. split; [|split].
  - unfold all_teams, load_data.
    eapply Permutation_NoDup.
    + apply Permutation_map. symmetry. apply sort_by_perm.
    + rewrite map_map. cbn [Team.team_id Team.team_name].
      erewrite map_ext; [rewrite map_id|intros [i n]; reflexivity].
      apply (unique_by_NoDup team_pair_eqb team_pair_eqb_spec).
  - apply sort_by_sorted. intros x y. apply String.leb_total.
  - intros t Ht. apply Hin in Ht. destruct Ht as [-> _].
    apply conference_of_label.
Qed.

(** X2. [get_conferences] returns the conference labels of the directory
    in ascending order, each once, and nothing else. *)
Theorem get_conferences_spec (all_teams : list Team.t) :
  let cs := get_conferences all_teams in
  Sorted (ordered String.leb) cs
  /\ NoDup cs
  /\ (forall c, In c cs <->
        exists t, In t (get_teams all_teams) /\ Team.conference t = c).
Proof.
  intros cs. unfold cs, get_conferences, get_teams. split; [|split].
  - apply sort_by_sorted. intros x y. apply String.leb_total.
  - eapply Permutation_NoDup; [symmetry; apply sort_by_perm|].
    apply (unique_by_NoDup String.eqb String.eqb_eq).
  - intros c.
    rewrite sort_by_In, (unique_by_In String.eqb String.eqb_eq), in_map_iff.
    split; intros [t [H1 H2]]; exists t; auto.
Qed.

(** One identifier under two names: both entries are in the directory,
    and a name outside the mapping falls to Other. *)
Example load_data_two_spellings :
  load_data pbp_teams
  = [ Team.mk 8 "Arkansas" "SEC"; Team.mk 150 "Duke" "ACC";
      Team.mk 150 "Duke Blue Devils" "Other";
      Team.mk 2000 "Zeta State" "Other" ]
  /\ get_conferences (load_data pbp_teams) = ["ACC"; "Other"; "SEC"].
Proof. split; vm_compute; reflexivity. Qed.

(** ** The per-team listing *)

Lemma get_team_games_side (pbp_df : list Pbp.row) (T : Z) (g : Game.row) :
  In g (get_team_games pbp_df T) ->
  Game.home_team_id g = T \/ Game.away_team_id g = T.
Proof.
  intros H. apply get_team_games_In in H. destruct H as [k [Hk Hg]].
  destruct (iloc_last_nonempty (group_of_nonempty _ _ Hk)) as [r Hr].
  rewrite (agg_last_row k _ Hr) in Hg. destruct Hg as [<-|[]].
  cbn [Game.home_team_id Game.away_team_id].
  apply iloc_last_In in Hr. unfold group_of in Hr.
  apply filter_In in Hr. destruct Hr as [Hr _].
  apply filter_In in Hr. destruct Hr as [_ Hp]. now apply plays_in_spec.
Qed.

(** X3. [get_games] answers with one record per row of [get_team_games],
    in the same order: the game identifier, the date as MM/DD/YYYY, and the
    perspective of the queried team - "vs" and the away name when the team
    is the home side, "@" and the home name when it is the away side. *)
Theorem get_games_entries (pbp_df : list Pbp.row) (T : Z) :
  exists l,
    get_games pbp_df T = Ok l
    /\ Forall2
         (fun row e =>
            GameJson.game_id e = Game.game_id row
            /\ GameJson.date e = strftime (Game.game_date row)
            /\ ((Game.home_team_id row = T
                 /\ GameJson.location e = "vs"
                 /\ GameJson.opponent e = Game.away_team_name row)
                \/ (Game.home_team_id row <> T
                    /\ Game.away_team_id row = T
                    /\ GameJson.location e = "@"
                    /\ GameJson.opponent e = Game.home_team_name row)))
         (get_team_games pbp_df T) l.
Proof.
  unfold get_games. apply mapM_total. intros row Hrow.
  apply get_team_games_side in Hrow.
  unfold game_entry.
  assert (Hok : exists s,
             (if notna (team_score (game_perspective T row))
                 && notna (opp_score (game_perspective T row))
              then result_line (game_perspective T row) else Ok "TBD") = Ok s).
  { destruct (team_score (game_perspective T row)) as [a|] eqn:Ea;
    destruct (opp_score (game_perspective T row)) as [b|] eqn:Eb;
      cbn [notna andb]; try (now eexists).
    rewrite (result_line_ok _ Ea Eb). now eexists. }
  destruct Hok as [s ->]. cbn [bind]. eexists. split; [reflexivity|].
  cbn [GameJson.game_id GameJson.date GameJson.location GameJson.opponent].
  split; [reflexivity|]. split; [reflexivity|].
  unfold game_perspective, perspective_of.
  destruct (Z.eqb_spec (Game.home_team_id row) T) as [E|E]; cbn [location opponent].
  - left. auto.
  - right. destruct Hrow as [H|H]; [contradiction|auto].
Qed.

(** ** Shot extraction *)

(** X4. [get_player_shots] loses no field-goal attempt: every play of the
    game by the team with the shooting flag set and no FreeThrow in its
    label is in the shot set, and with every display name the game's box
    score lists under the play's athlete identifier. *)
Theorem get_player_shots_complete (pbp_df : list Pbp.row)
    (box_df : list Box.row) (game_id team_id : Z) (r : Pbp.row) :
  In r pbp_df ->
  Pbp.game_id r = game_id ->
  Pbp.team_id r = Some team_id ->
  Pbp.shooting_play r = true ->
  (forall label, Pbp.type_text r = Some label -> ~ mentions "FreeThrow" label) ->
  (exists s, In s (fst (get_player_shots pbp_df box_df game_id team_id))
             /\ Shot.play s = r)
  /\ (forall b, In b box_df -> Box.game_id b = game_id ->
        Box.athlete_id b = Pbp.athlete_id_1 r ->
        In (Shot.mk r (Box.athlete_display_name b))
           (fst (get_player_shots pbp_df box_df game_id team_id))).
Proof.
  intros Hr Hg Ht Hs Hft.
  assert (Hkeep : forall s, Shot.play s = r -> is_team_shot team_id s = true).
  { intros s Hp. apply is_team_shot_spec. rewrite Hp.
    split; [exact Ht|]. split; [exact Hs|].
    destruct (Pbp.type_text r) as [label|] eqn:El; [|reflexivity].
    unfold is_free_throw.
    destruct (contains (lower "FreeThrow") (lower label)) eqn:Ec; [|reflexivity].
    apply contains_lower_spec in Ec. now apply Hft in Ec. }
  assert (Hrow : In r (filter (fun r => Pbp.game_id r =? game_id) pbp_df)).
  { apply filter_In. split; [exact Hr|]. now apply Z.eqb_eq. }
  unfold get_player_shots. cbn [fst]. split.
  - pose proof (merge_names_keeps
                  (unique_by name_row_eqb
                     (map roster_columns
                          (filter (fun b => Box.game_id b =? game_id) box_df)))
                  r) as Hne.
    destruct (merge_names _ r) as [|s ss] eqn:Em; [congruence|].
    exists s.
    assert (Hin : In s (merge_names
                (unique_by name_row_eqb
                   (map roster_columns
                        (filter (fun b => Box.game_id b =? game_id) box_df)))
                r)) by (rewrite Em; now left).
    pose proof (merge_names_play _ _ _ Hin) as Hp.
    split; [|exact Hp].
    apply filter_In. split; [|now apply Hkeep].
    apply in_flat_map. exists r. auto.
  - intros b Hb Hbg Hid.
    apply filter_In. split; [|now apply Hkeep].
    apply in_flat_map. exists r. split; [exact Hrow|].
    apply (merge_names_match _ r (roster_columns b)); [|exact Hid].
    apply unique_by_In.
    + intros [i n] [j m]. unfold name_row_eqb. cbn [fst snd].
      rewrite andb_true_iff, (key_eqb_spec Z.eqb Zeqb_spec),
        (key_eqb_spec String.eqb String.eqb_eq).
      split; [intros [-> ->]; reflexivity|]. intros H. inversion H. auto.
    + apply in_map. apply filter_In. split; [exact Hb|]. now apply Z.eqb_eq.
Qed.

Lemma get_player_shots_complete_witness :
  (exists s, In s (fst (get_player_shots pbp_sample box_sample 1 8))
             /\ Shot.play s = Shot.play shot_sample)
  /\ (forall b, In b box_sample -> Box.game_id b = 1 ->
        Box.athlete_id b = Pbp.athlete_id_1 (Shot.play shot_sample) ->
        In (Shot.mk (Shot.play shot_sample) (Box.athlete_display_name b))
           (fst (get_player_shots pbp_sample box_sample 1 8))).
Proof.
  apply (@get_player_shots_complete pbp_sample box_sample 1 8
           (Shot.play shot_sample)).
  - vm_compute. left. reflexivity.
  - reflexivity.
  - reflexivity.
  - reflexivity.
  - intros label Hl Hm. cbn in Hl. inversion Hl; subst label.
    apply contains_lower_spec in Hm. vm_compute in Hm. discriminate.
Defined.

Lemma name_row_eqb_spec (a b : name_row) : name_row_eqb a b = true <-> a = b.
Proof.
  destruct a as [i n], b as [j m]. unfold name_row_eqb. cbn [fst snd].
  rewrite andb_true_iff, (key_eqb_spec Z.eqb Zeqb_spec),
    (key_eqb_spec String.eqb String.eqb_eq).
  split; [intros [-> ->]; reflexivity|]. intros H. inversion H. auto.
Qed.

(** X5. The roster that [get_player_shots] returns beside the shots holds
    exactly the (athlete identifier, display name) pairs of the box-score
    rows of that game and team, each pair once, whether the athlete took a
    shot or not. *)
Theorem get_player_shots_roster (pbp_df : list Pbp.row) (box_df : list Box.row)
    (game_id team_id : Z) :
  let team_players := snd (get_player_shots pbp_df box_df game_id team_id) in
  NoDup team_players
  /\ forall p, In p team_players <->
       exists b, In b box_df
                 /\ Box.game_id b = game_id
                 /\ Box.team_id b = team_id
                 /\ p = (Box.athlete_id b, Box.athlete_display_name b).
Proof.
  unfold get_player_shots. cbn [snd]. split.
  - apply (unique_by_NoDup name_row_eqb name_row_eqb_spec).
  - intros p.
    rewrite (unique_by_In name_row_eqb name_row_eqb_spec), in_map_iff.
    split.
    + intros [b [<- Hb]]. apply filter_In in Hb. destruct Hb as [Hb Ht].
      apply filter_In in Hb. destruct Hb as [Hb Hg].
      exists b. rewrite Z.eqb_eq in Ht, Hg. auto.
    + intros [b [Hb [Hg [Ht ->]]]]. exists b. split; [reflexivity|].
      apply filter_In. split; [|now apply Z.eqb_eq].
      apply filter_In. split; [exact Hb|now apply Z.eqb_eq].
Qed.

(** ** Unknown identifiers: witnesses *)

Lemma get_team_games_unknown_witness :
  get_team_games pbp_sample 77 = [] /\ get_games pbp_sample 77 = Ok [].
Proof.
  apply (@get_team_games_unknown pbp_sample 77).
  intros r Hr. simpl in Hr.
  repeat (destruct Hr as [<-|Hr]; [reflexivity|]). contradiction.
Defined.

Lemma get_player_shots_unknown_game_witness :
  get_player_shots pbp_sample box_sample 999 8 = ([], []).
Proof.
  apply (@get_player_shots_unknown_game pbp_sample box_sample 999 8).
  - intros r Hr. simpl in Hr.
    repeat (destruct Hr as [<-|Hr]; [discriminate|]). contradiction.
  - intros b Hb. simpl in Hb.
    repeat (destruct Hb as [<-|Hb]; [discriminate|]). contradiction.
Defined.

Lemma get_player_shots_unknown_team_witness :
  get_player_shots pbp_sample box_sample 1 77 = ([], []).
Proof.
  apply (@get_player_shots_unknown_team pbp_sample box_sample 1 77).
  - intros r Hr. simpl in Hr.
    repeat (destruct Hr as [<-|Hr]; [discriminate|]). contradiction.
  - intros b Hb. simpl in Hb.
    repeat (destruct Hb as [<-|Hb]; [discriminate|]). contradiction.
Defined.

(** ** The player list *)

Lemma map_combine_fst {A B : Type} (l1 : list A) (l2 : list B) :
  List.length l1 = List.length l2 -> map fst (combine l1 l2) = l1.
Proof.
  revert l2. induction l1 as [|a t IH]; intros [|b u] H; simpl in *;
    try discriminate; [reflexivity|].
  f_equal. apply IH. lia.
Qed.

Lemma roster_names_In (team_players : list name_row) (n : string) :
  In n (roster_names team_players) <-> exists i, In (i, Some n) team_players.
Proof.
  unfold roster_names, dropna.
  rewrite sort_by_In, (unique_by_In String.eqb String.eqb_eq), in_flat_map.
  split.
  - intros [c [Hc Hn]]. apply in_map_iff in Hc. destruct Hc as [[i m] [<- Hp]].
    cbn [snd] in Hn. destruct m as [m|]; [|contradiction].
    destruct Hn as [->|[]]. now exists i.
  - intros [i Hp]. exists (Some n). split; [|now left].
    apply in_map_iff. now exists (i, Some n).
Qed.

(** X6. [get_players] never raises.  Its list opens with Team View under
    identifier 0; the players follow under the identifiers 1, 2, ... in
    ascending order of their names, one entry per distinct display name of
    the team's box-score rows of the game, shotless players included; no
    entry has more makes than shots, nor more shots than Team View. *)
Theorem get_players_entries (pbp_df : list Pbp.row) (box_df : list Box.row)
    (game_id team_id : Z) :
  exists tv players,
    get_players pbp_df box_df game_id team_id = Ok (tv :: players)
    /\ PlayerJson.player_id tv = 0%nat
    /\ PlayerJson.name tv = "Team View"
    /\ map PlayerJson.player_id players = seq 1 (List.length players)
    /\ Sorted (ordered String.leb) (map PlayerJson.name players)
    /\ NoDup (map PlayerJson.name players)
    /\ (forall n, In n (map PlayerJson.name players) <->
          exists b, In b box_df
                    /\ Box.game_id b = game_id
                    /\ Box.team_id b = team_id
                    /\ Box.athlete_display_name b = Some n)
    /\ Forall (fun e => (PlayerJson.makes e <= PlayerJson.shots e)%nat
                        /\ (PlayerJson.shots e <= PlayerJson.shots tv)%nat)
              (tv :: players).
Proof.
  eexists. eexists. split; [apply get_players_spec|].
  assert (Hroster : forall p,
            In p (snd (get_player_shots pbp_df box_df game_id team_id)) <->
            exists b, In b box_df /\ Box.game_id b = game_id
                      /\ Box.team_id b = team_id
                      /\ p = (Box.athlete_id b, Box.athlete_display_name b)).
  { intros p. unfold get_player_shots. cbn [snd].
    rewrite (unique_by_In name_row_eqb name_row_eqb_spec), in_map_iff.
    split.
    - intros [b [<- Hb]]. apply filter_In in Hb. destruct Hb as [Hb Ht].
      apply filter_In in Hb. destruct Hb as [Hb Hg].
      exists b. rewrite Z.eqb_eq in Ht, Hg. auto.
    - intros [b [Hb [Hg [Ht ->]]]]. exists b. split; [reflexivity|].
      apply filter_In. split; [|now apply Z.eqb_eq].
      apply filter_In. split; [exact Hb|now apply Z.eqb_eq]. }
  destruct (get_player_shots pbp_df box_df game_id team_id) as [ts tp].
  cbn [fst snd] in *.
  set (names := roster_names tp).
  assert (Hlen : List.length (seq 1 (List.length names)) = List.length names)
    by apply length_seq.
  assert (Hnames : map PlayerJson.name
                     (map (fun ip : nat * string =>
                             PlayerJson.mk (fst ip) (snd ip)
                               (List.length (shots_of (Some (snd ip)) ts))
                               (List.length (scoring (shots_of (Some (snd ip)) ts)))
                               (pct_spec
                                  (List.length (scoring (shots_of (Some (snd ip)) ts)))
                                  (List.length (shots_of (Some (snd ip)) ts))))
                          (combine (seq 1 (List.length names)) names))
                   = names).
  { rewrite map_map. cbn [PlayerJson.name].
    rewrite (map_combine_snd (fun n => n) _ _ Hlen). apply map_id. }
  split; [reflexivity|]. split; [reflexivity|].
  split.
  { rewrite map_map. cbn [PlayerJson.player_id].
    rewrite length_map, length_combine, Hlen, Nat.min_id.
    now apply map_combine_fst. }
  rewrite Hnames.
  split; [apply sort_by_sorted; intros x y; apply String.leb_total|].
  split; [apply roster_names_NoDup|].
  split.
  { intros n. unfold names. rewrite roster_names_In. split.
    - intros [i Hp]. apply Hroster in Hp. destruct Hp as [b [Hb [Hg [Ht E]]]].
      inversion E. exists b. auto.
    - intros [b [Hb [Hg [Ht En]]]]. exists (Box.athlete_id b).
      apply Hroster. exists b. rewrite En. auto. }
  constructor.
  - cbn [PlayerJson.makes PlayerJson.shots]. split; [apply filter_length_le|lia].
  - apply Forall_forall. intros e He. apply in_map_iff in He.
    destruct He as [ip [<- _]]. cbn [PlayerJson.makes PlayerJson.shots].
    split; apply filter_length_le.
Qed.

(** ** Search: completeness and totals *)

Lemma candidate_eqb_spec (a b : candidate) : candidate_eqb a b = true <-> a = b.
Proof.
  destruct a as [[a1 a2] a3], b as [[b1 b2] b3]. unfold candidate_eqb.
  cbn [cand_name cand_team_name cand_team_id fst snd].
  rewrite !andb_true_iff, !(key_eqb_spec String.eqb String.eqb_eq), Z.eqb_eq.
  split; [intros [[-> ->] ->]; reflexivity|].
  intros Heq. inversion Heq. auto.
Qed.

Lemma tally_fold_totals (pbp_df : list Pbp.row) (box_df : list Box.row)
    (name : option string) (team_id : Z) (ids : list Z) (acc : tally) :
  total_shots (fold_left (tally_game pbp_df box_df name team_id) ids acc)
  = (total_shots acc + shots_over pbp_df box_df name team_id ids)%nat
  /\ total_makes (fold_left (tally_game pbp_df box_df name team_id) ids acc)
     = (total_makes acc + makes_over pbp_df box_df name team_id ids)%nat.
Proof.
  unfold shots_over, makes_over.
  revert acc. induction ids as [|g t IH]; intros acc; cbn [fold_left map].
  - simpl. lia.
  - destruct (IH (tally_game pbp_df box_df name team_id acc g)) as [-> ->].
    rewrite !list_sum_step. unfold tally_game.
    destruct (player_shots_in pbp_df box_df name team_id g) as [|s ss];
      cbn [List.length Nat.ltb Nat.leb total_shots total_makes scoring filter];
      lia.
Qed.

(** X7. [search_player] misses no player: a (name, team) pair of the
    box-score table whose lowered name contains every token of the query
    and that has a game with a shot of the player is in the answer. *)
Theorem search_player_complete (pbp_df : list Pbp.row) (box_df : list Box.row)
    (q : string) (b : Box.row) (name : string) :
  In b box_df ->
  Box.athlete_display_name b = Some name ->
  (forall tok, In tok (split (lower q)) -> is_substring tok (lower name)) ->
  (exists g, In g (player_game_ids box_df (Some name) (Box.team_id b))
             /\ player_shots_in pbp_df box_df (Some name) (Box.team_id b) g
                <> []) ->
  exists r,
    In r (search_player pbp_df box_df q)
    /\ SearchJson.player_name r = Some name
    /\ SearchJson.team_id r = Box.team_id b
    /\ SearchJson.team_name r
       = match Box.team_display_name b with Some n => n | None => "Unknown" end.
Proof.
  intros Hb Hn Htok [g [Hg Hs]].
  assert (Hc : In (candidate_columns b)
                  (filter (matches (split (lower q)))
                          (unique_by candidate_eqb
                                     (map candidate_columns box_df)))).
  { apply filter_In. split.
    - apply <- (unique_by_In candidate_eqb candidate_eqb_spec).
      now apply in_map.
    - unfold matches, candidate_columns. cbn [cand_name fst].
      rewrite Hn. cbn [py_str]. apply forallb_forall. intros tok Ht.
      apply contains_spec. now apply Htok. }
  assert (Hpos : (0 < games_with_shots
                        (tally_player pbp_df box_df (Some name) (Box.team_id b)))%nat).
  { rewrite tally_player_games.
    assert (Hin : In g (filter (has_shots pbp_df box_df (Some name) (Box.team_id b))
                          (player_game_ids box_df (Some name) (Box.team_id b)))).
    { apply filter_In. split; [exact Hg|]. unfold has_shots.
      destruct (player_shots_in pbp_df box_df (Some name) (Box.team_id b) g);
        [congruence|reflexivity]. }
    destruct (filter (has_shots pbp_df box_df (Some name) (Box.team_id b))
                (player_game_ids box_df (Some name) (Box.team_id b)));
      [contradiction|simpl; lia]. }
  eexists. split.
  - unfold search_player.
    destruct (filter (matches (split (lower q)))
                (unique_by candidate_eqb (map candidate_columns box_df)))
      as [|c0 cs] eqn:Ef; [contradiction|].
    cbn [List.length Nat.eqb]. apply in_flat_map.
    exists (candidate_columns b). split; [exact Hc|].
    unfold search_entry, candidate_columns.
    cbn [cand_name cand_team_name cand_team_id fst snd]. rewrite Hn.
    apply Nat.ltb_lt in Hpos. rewrite Hpos. left. reflexivity.
  - cbn [SearchJson.player_name SearchJson.team_id SearchJson.team_name]. auto.
Qed.

Lemma search_player_complete_witness :
  exists r,
    In r (search_player pbp_sample box_sample "boozer")
    /\ SearchJson.player_name r = Some "Cameron Boozer"
    /\ SearchJson.team_id r = 8
    /\ SearchJson.team_name r = "Duke".
Proof.
  apply (@search_player_complete pbp_sample box_sample "boozer"
           (Box.mk 1 (Some 100) (Some "Cameron Boozer") 8 (Some "Duke"))
           "Cameron Boozer").
  - left. reflexivity.
  - reflexivity.
  - intros tok Ht. apply contains_spec. vm_compute in Ht.
    destruct Ht as [<-|[]]. vm_compute. reflexivity.
  - exists 1. split; [vm_compute; auto|vm_compute; discriminate].
Defined.

(** X8. The totals of a record of [search_player] are those of the
    player's box-score games: [total_shots] and [total_makes] are the
    player's shots and makes summed over these games, [total_games] counts
    the games with a shot; so makes never exceed shots and games with shots
    never exceed shots. *)
Theorem search_player_totals (pbp_df : list Pbp.row) (box_df : list Box.row)
    (q : string) (r : SearchJson.t) :
  In r (search_player pbp_df box_df q) ->
  let ids := player_game_ids box_df (SearchJson.player_name r)
               (SearchJson.team_id r) in
  SearchJson.total_shots r
  = shots_over pbp_df box_df (SearchJson.player_name r) (SearchJson.team_id r) ids
  /\ SearchJson.total_makes r
     = makes_over pbp_df box_df (SearchJson.player_name r)
         (SearchJson.team_id r) ids
  /\ SearchJson.total_games r
     = List.length
         (filter (has_shots pbp_df box_df (SearchJson.player_name r)
                    (SearchJson.team_id r)) ids)
  /\ (SearchJson.total_makes r <= SearchJson.total_shots r)%nat
  /\ (SearchJson.total_games r <= SearchJson.total_shots r)%nat
  /\ (SearchJson.total_games r <= List.length ids)%nat.
Proof.
  intros Hr. destruct (search_player_In _ _ _ _ Hr) as [b [name [_ [_ [_ [-> _]]]]]].
  cbn [SearchJson.player_name SearchJson.team_id SearchJson.total_shots
       SearchJson.total_makes SearchJson.total_games].
  cbv zeta. unfold tally_player.
  set (ids := player_game_ids box_df (Some name) (Box.team_id b)).
  destruct (tally_fold_totals pbp_df box_df (Some name) (Box.team_id b) ids
              (mkTally 0 0 0)) as [-> ->].
  rewrite tally_fold. cbn [total_shots total_makes games_with_shots Nat.add].
  split; [reflexivity|]. split; [reflexivity|]. split; [reflexivity|].
  split; [|split].
  - unfold shots_over, makes_over. induction ids as [|g t IH]; [simpl; lia|].
    cbn [map]. rewrite !list_sum_step.
    pose proof (filter_length_le
                  (fun s => Bool.eqb (Pbp.scoring_play (Shot.play s)) true)
                  (player_shots_in pbp_df box_df (Some name) (Box.team_id b) g)).
    unfold scoring at 1. lia.
  - unfold shots_over. induction ids as [|g t IH]; [simpl; lia|].
    cbn [map filter]. rewrite list_sum_step. unfold has_shots at 1.
    destruct (player_shots_in pbp_df box_df (Some name) (Box.team_id b) g);
      cbn [List.length Nat.ltb Nat.leb]; lia.
  - apply filter_length_le.
Qed.

Lemma search_player_totals_witness :
  let ids := player_game_ids box_sample (SearchJson.player_name search_sample)
               (SearchJson.team_id search_sample) in
  SearchJson.total_shots search_sample
  = shots_over pbp_sample box_sample (SearchJson.player_name search_sample)
      (SearchJson.team_id search_sample) ids
  /\ SearchJson.total_makes search_sample
     = makes_over pbp_sample box_sample (SearchJson.player_name search_sample)
         (SearchJson.team_id search_sample) ids
  /\ SearchJson.total_games search_sample
     = List.length
         (filter (has_shots pbp_sample box_sample
                    (SearchJson.player_name search_sample)
                    (SearchJson.team_id search_sample)) ids)
  /\ (SearchJson.total_makes search_sample
      <= SearchJson.total_shots search_sample)%nat
  /\ (SearchJson.total_games search_sample
      <= SearchJson.total_shots search_sample)%nat
  /\ (SearchJson.total_games search_sample <= List.length ids)%nat.
Proof.
  apply (@search_player_totals pbp_sample box_sample "boozer" search_sample).
  vm_compute. left. reflexivity.
Defined.

(** ** The season chart *)

Lemma split_on_from_head (sep : ascii) (cur s : string) :
  exists first rest,
    split_on_from sep cur s = first :: rest
    /\ (first = "" <->
        cur = "" /\ (s = "" \/ exists t, s = String sep t)).
Proof.
  revert cur. induction s as [|c t IH]; intros cur; cbn [split_on_from].
  - exists cur, []. split; [reflexivity|]. split; [auto|tauto].
  - destruct (Ascii.eqb_spec c sep) as [->|Hne].
    + eexists. eexists. split; [reflexivity|].
      split; [intros ->; split; [reflexivity|right; eauto]|tauto].
    + destruct (IH (cur ++ String c "")) as [first [rest [E Hiff]]].
      exists first, rest. split; [exact E|]. rewrite Hiff. split.
      * intros [Hc _]. destruct cur; discriminate Hc.
      * intros [_ [H|[t' H]]]; [discriminate|]. inversion H. congruence.
Qed.

Lemma no_initialb_spec (name : string) :
  no_initialb name = true <-> no_initial name.
Proof.
  unfold no_initial. destruct name as [|c t]; cbn [no_initialb].
  - split; auto.
  - rewrite Ascii.eqb_eq. split.
    + intros ->. right. eauto.
    + intros [H|[rest H]]; [discriminate|]. now inversion H.
Qed.

(** The [short_name] lambda fails exactly on the names without initial. *)
Lemma short_name_outcome (name : string) :
  if no_initialb name then short_name (Some name) = Raise IndexError
  else exists sn, short_name (Some name) = Ok sn.
Proof.
  unfold short_name, split_on.
  destruct (split_on_from_head " "%char "" name) as [first [rest [E Hiff]]].
  rewrite E. cbn [iloc0 bind].
  destruct (no_initialb name) eqn:En.
  - apply no_initialb_spec in En.
    assert (Hf : first = "") by (apply Hiff; split; [reflexivity|exact En]).
    now rewrite Hf.
  - destruct first as [|c f]; [|now eexists].
    assert (Hn : no_initial name) by now apply Hiff.
    apply no_initialb_spec in Hn. congruence.
Qed.

Lemma shots_of_name (name : option string) (shots : list Shot.row)
    (s : Shot.row) :
  In s (shots_of name shots) -> Shot.athlete_display_name s = name.
Proof.
  unfold shots_of. rewrite filter_In. intros [_ H].
  destruct (Shot.athlete_display_name s) as [a|], name as [b|];
    try discriminate. apply String.eqb_eq in H. now subst.
Qed.

Lemma season_shots_name (pbp_df : list Pbp.row) (box_df : list Box.row)
    (name : string) (team_id : Z) (s : Shot.row) :
  In s (season_shots pbp_df box_df name team_id) ->
  Shot.athlete_display_name s = Some name.
Proof.
  unfold season_shots. rewrite in_concat. intros [ps [Hps Hs]].
  apply in_flat_map in Hps. destruct Hps as [g [_ Hg]].
  destruct (0 <? _)%nat; [|contradiction]. destruct Hg as [<-|[]].
  unfold player_shots_in in Hs.
  destruct (get_player_shots pbp_df box_df g team_id) as [ts tp].
  now apply shots_of_name in Hs.
Qed.

Lemma season_shots_totals (pbp_df : list Pbp.row) (box_df : list Box.row)
    (name : string) (team_id : Z) :
  List.length (season_shots pbp_df box_df name team_id)
  = shots_over pbp_df box_df (Some name) team_id
      (player_game_ids box_df (Some name) team_id)
  /\ List.length (scoring (season_shots pbp_df box_df name team_id))
     = makes_over pbp_df box_df (Some name) team_id
         (player_game_ids box_df (Some name) team_id).
Proof.
  unfold season_shots, shots_over, makes_over, scoring.
  induction (player_game_ids box_df (Some name) team_id) as [|g t [IH1 IH2]];
    [split; reflexivity|].
  cbn [flat_map map]. rewrite !list_sum_step, <- IH1, <- IH2.
  rewrite concat_app, filter_app, !length_app.
  destruct (player_shots_in pbp_df box_df (Some name) team_id g) as [|s ss].
  - split; reflexivity.
  - cbn [List.length Nat.ltb Nat.leb List.concat]. rewrite app_nil_r.
    split; reflexivity.
Qed.

Lemma season_shots_nil (pbp_df : list Pbp.row) (box_df : list Box.row)
    (name : string) (team_id : Z) :
  let all_shots :=
    flat_map (fun game_id =>
                let player_shots :=
                  player_shots_in pbp_df box_df (Some name) team_id game_id in
                if (0 <? List.length player_shots)%nat
                then [player_shots] else [])
             (player_game_ids box_df (Some name) team_id) in
  List.length all_shots
  = List.length (filter (has_shots pbp_df box_df (Some name) team_id)
                        (player_game_ids box_df (Some name) team_id)).
Proof.
  cbv zeta.
  induction (player_game_ids box_df (Some name) team_id) as [|g t IH];
    [reflexivity|].
  cbn [flat_map filter]. rewrite length_app, IH. unfold has_shots at 2.
  destruct (0 <? _)%nat; reflexivity.
Qed.

Lemma mapM_const {A B : Type} (f : A -> result B) (l : list A) (v : result B) :
  (forall x, In x l -> f x = v) ->
  mapM f l = match l, v with
             | [], _ => Ok []
             | _ :: _, Raise e => Raise e
             | _ :: _, Ok y => Ok (map (fun _ => y) l)
             end.
Proof.
  intros H. destruct v as [y|e].
  - rewrite (mapM_ok f (fun _ => y)); [destruct l; reflexivity|exact H].
  - destruct l as [|x t]; [reflexivity|].
    simpl. now rewrite (H x (or_introl eq_refl)).
Qed.

(** X9. What [get_player_season_chart] answers, on every input: the 404
    body when no box-score game of the player holds a shot of the player;
    otherwise [IndexError] when the player's name is empty or opens with a
    space; otherwise the chart whose title and [games] count all distinct
    box-score games and whose makes, misses and total are the player's sums
    over these games. *)
Theorem get_player_season_chart_outcome (pbp_df : list Pbp.row)
    (box_df : list Box.row) (team_id : Z) (player_name : string) :
  let ids := player_game_ids box_df (Some player_name) team_id in
  let total := shots_over pbp_df box_df (Some player_name) team_id ids in
  let makes := makes_over pbp_df box_df (Some player_name) team_id ids in
  get_player_season_chart pbp_df box_df team_id player_name
  = match filter (has_shots pbp_df box_df (Some player_name) team_id) ids with
    | [] => Ok (Json404 "No shots found")
    | _ :: _ =>
        if no_initialb player_name then Raise IndexError
        else Ok (Json200
                   (Chart.mk (season_title player_name (List.length ids))
                      (Stats.mk makes (Z.of_nat total - Z.of_nat makes) total
                         (pct_spec makes total) (Some (List.length ids)))))
    end.
Proof.
  intros ids total makes. unfold get_player_season_chart. fold ids.
  pose proof (season_shots_nil pbp_df box_df player_name team_id) as Hlen.
  cbv zeta in Hlen. fold ids in Hlen. rewrite Hlen.
  destruct (filter (has_shots pbp_df box_df (Some player_name) team_id) ids)
    as [|g0 gs] eqn:Ef; [reflexivity|].
  cbn [List.length Nat.eqb].
  destruct (season_shots_totals pbp_df box_df player_name team_id) as [Ht Hm].
  unfold season_shots in Ht, Hm. fold ids in Ht, Hm. fold total in Ht.
  fold makes in Hm.
  pose proof (season_shots_name pbp_df box_df player_name team_id) as Hname.
  unfold season_shots in Hname. fold ids in Hname.
  set (combined := List.concat _) in *.
  assert (Hpos : combined <> []).
  { intros E. rewrite E in Ht. cbn in Ht.
    assert (Hin : In g0 (filter (has_shots pbp_df box_df (Some player_name)
                                   team_id) ids)) by (rewrite Ef; now left).
    apply filter_In in Hin. destruct Hin as [Hin Hs].
    unfold has_shots in Hs. apply Nat.ltb_lt in Hs.
    unfold total, shots_over in Ht.
    assert (Hle : forall l : list Z, In g0 l ->
              (List.length (player_shots_in pbp_df box_df (Some player_name)
                              team_id g0)
               <= list_sum
                    (map (fun g => List.length
                            (player_shots_in pbp_df box_df (Some player_name)
                               team_id g)) l))%nat).
    { induction l as [|x t IH]; [contradiction|].
      cbn [map]. rewrite list_sum_step. intros [->|Hx]; [lia|].
      specialize (IH Hx). lia. }
    specialize (Hle ids Hin). lia. }
  rewrite (@mapM_const _ _ short_name
             (map Shot.athlete_display_name combined)
             (short_name (Some player_name))).
  2:{ intros x Hx. apply in_map_iff in Hx. destruct Hx as [s [<- Hs]].
      now rewrite (Hname s Hs). }
  pose proof (short_name_outcome player_name) as Hsn.
  destruct combined as [|s0 ss]; [congruence|]. cbn [map].
  destruct (no_initialb player_name).
  - rewrite Hsn. reflexivity.
  - destruct Hsn as [sn ->]. cbn [bind].
    rewrite percentage_of_spec. cbn [bind].
    fold (scoring (s0 :: ss)). rewrite Hm, Ht. reflexivity.
Qed.

Example get_player_season_chart_leading_space :
  get_player_season_chart
    [ play 1 (d 2025 11 27) 8 9 (Some 2) (Some 0)
           (Some 7) (Some 8) (Some "JumpShot") true true ]
    [ Box.mk 1 (Some 7) (Some " Al Bo") 8 (Some "Duke") ] 8 " Al Bo"
  = Raise IndexError.
Proof. vm_compute. reflexivity. Qed.

Lemma season_chart_totals (pbp_df : list Pbp.row) (box_df : list Box.row)
    (team_id : Z) (player_name : string) (c : Chart.t) :
  get_player_season_chart pbp_df box_df team_id player_name = Ok (Json200 c) ->
  Stats.total (Chart.stats c)
  = shots_over pbp_df box_df (Some player_name) team_id
      (player_game_ids box_df (Some player_name) team_id)
  /\ Stats.makes (Chart.stats c)
     = makes_over pbp_df box_df (Some player_name) team_id
         (player_game_ids box_df (Some player_name) team_id)
  /\ Stats.misses (Chart.stats c)
     = Z.of_nat (Stats.total (Chart.stats c))
       - Z.of_nat (Stats.makes (Chart.stats c)).
Proof.
  destruct (season_shots_totals pbp_df box_df player_name team_id) as [Ht Hm].
  unfold season_shots in Ht, Hm. unfold get_player_season_chart.
  destruct (List.length _ =? 0)%nat; [discriminate|].
  destruct (mapM short_name _) as [names|e]; cbn [bind]; [|discriminate].
  rewrite percentage_of_spec. cbn [bind].
  intros H. inversion H; subst c.
  cbn [Chart.stats Stats.total Stats.makes Stats.misses].
  fold (scoring
          (List.concat
             (flat_map
                (fun game_id =>
                   if (0 <? List.length
                              (player_shots_in pbp_df box_df (Some player_name)
                                 team_id game_id))%nat
                   then [player_shots_in pbp_df box_df (Some player_name)
                           team_id game_id]
                   else [])
                (player_game_ids box_df (Some player_name) team_id)))).
  rewrite Ht, Hm. auto.
Qed.

Lemma makes_over_le (pbp_df : list Pbp.row) (box_df : list Box.row)
    (name : option string) (team_id : Z) (ids : list Z) :
  (makes_over pbp_df box_df name team_id ids
   <= shots_over pbp_df box_df name team_id ids)%nat.
Proof.
  unfold makes_over, shots_over.
  induction ids as [|g t IH]; [simpl; lia|].
  cbn [map]. rewrite !list_sum_step.
  pose proof (filter_length_le
                (fun s => Bool.eqb (Pbp.scoring_play (Shot.play s)) true)
                (player_shots_in pbp_df box_df name team_id g)) as Hle.
  unfold scoring at 1. lia.
Qed.

(** X10. The season chart and the search agree on one player: the total
    and the makes of the chart's statistics are [total_shots] and
    [total_makes] of the player's search record, and the misses are their
    difference, which is not negative. *)
Theorem season_chart_matches_search (pbp_df : list Pbp.row)
    (box_df : list Box.row) (team_id : Z) (player_name q : string)
    (c : Chart.t) (r : SearchJson.t) :
  get_player_season_chart pbp_df box_df team_id player_name = Ok (Json200 c) ->
  In r (search_player pbp_df box_df q) ->
  SearchJson.player_name r = Some player_name ->
  SearchJson.team_id r = team_id ->
  Stats.total (Chart.stats c) = SearchJson.total_shots r
  /\ Stats.makes (Chart.stats c) = SearchJson.total_makes r
  /\ Stats.misses (Chart.stats c)
     = Z.of_nat (SearchJson.total_shots r)
       - Z.of_nat (SearchJson.total_makes r)
  /\ 0 <= Stats.misses (Chart.stats c).
Proof.
  intros Hc Hr Hname Hteam.
  destruct (season_chart_totals _ _ _ _ Hc) as [Ht [Hm Hmiss]].
  destruct (search_player_In _ _ _ _ Hr) as [b [name [_ [_ [_ [Er _]]]]]].
  rewrite Er in Hname, Hteam |- *.
  cbn [SearchJson.player_name SearchJson.team_id SearchJson.total_shots
       SearchJson.total_makes] in *.
  inversion Hname; subst name. rewrite Hteam. unfold tally_player.
  destruct (tally_fold_totals pbp_df box_df (Some player_name) team_id
              (player_game_ids box_df (Some player_name) team_id)
              (mkTally 0 0 0)) as [-> ->].
  cbn [total_shots total_makes Nat.add].
  rewrite Hmiss, Ht, Hm. repeat split; try reflexivity.
  pose proof (makes_over_le pbp_df box_df (Some player_name) team_id
                (player_game_ids box_df (Some player_name) team_id)) as Hle.
  lia.
Qed.

Lemma season_chart_matches_search_witness :
  Stats.total (Chart.stats season_sample) = SearchJson.total_shots search_sample
  /\ Stats.makes (Chart.stats season_sample)
     = SearchJson.total_makes search_sample
  /\ Stats.misses (Chart.stats season_sample)
     = Z.of_nat (SearchJson.total_shots search_sample)
       - Z.of_nat (SearchJson.total_makes search_sample)
  /\ 0 <= Stats.misses (Chart.stats season_sample).
Proof.
  apply (@season_chart_matches_search pbp_sample box_sample 8
           "Cameron Boozer" "boozer" season_sample search_sample).
  - vm_compute. reflexivity.
  - vm_compute. left. reflexivity.
  - reflexivity.
  - reflexivity.
Defined.

(** ** The player's game listing: totals *)

Lemma list_sum_perm (l l' : list nat) :
  Permutation l l' -> list_sum l = list_sum l'.
Proof.
  induction 1; rewrite ?list_sum_step in *; simpl; try lia.
Qed.

(** X11. When [get_player_games] returns, it has one record per game with
    a shot of the player, every record has at least one shot and no more
    makes than shots, and the shots and makes of the records add up to the
    player's shots and makes over all box-score games - the totals that
    the search and the season chart report. *)
Theorem get_player_games_totals (pbp_df : list Pbp.row) (box_df : list Box.row)
    (team_id : Z) (player_name : string) (l : list PlayerGameJson.t) :
  get_player_games pbp_df box_df team_id player_name = Ok l ->
  let ids := player_game_ids box_df (Some player_name) team_id in
  List.length l
  = List.length (filter (has_shots pbp_df box_df (Some player_name) team_id) ids)
  /\ list_sum (map PlayerGameJson.shots l)
     = shots_over pbp_df box_df (Some player_name) team_id ids
  /\ list_sum (map PlayerGameJson.makes l)
     = makes_over pbp_df box_df (Some player_name) team_id ids
  /\ Forall (fun e => (1 <= PlayerGameJson.shots e)%nat
                      /\ (PlayerGameJson.makes e <= PlayerGameJson.shots e)%nat)
            l.
Proof.
  intros H. cbv zeta. unfold get_player_games in H.
  set (ids := player_game_ids box_df (Some player_name) team_id) in *.
  destruct (mapM (player_game_entry pbp_df box_df team_id player_name) ids)
    as [results|e] eqn:Em; cbn [bind] in H; [|discriminate].
  inversion H; subst l. clear H. apply mapM_inv in Em.
  pose proof (sort_by_perm date_str_leb (List.concat results)) as Hperm.
  rewrite (Permutation_length Hperm).
  rewrite (list_sum_perm (Permutation_map PlayerGameJson.shots Hperm)).
  rewrite (list_sum_perm (Permutation_map PlayerGameJson.makes Hperm)).
  assert (Hall : List.length (List.concat results)
     = List.length (filter (has_shots pbp_df box_df (Some player_name) team_id) ids)
     /\ list_sum (map PlayerGameJson.shots (List.concat results))
        = shots_over pbp_df box_df (Some player_name) team_id ids
     /\ list_sum (map PlayerGameJson.makes (List.concat results))
        = makes_over pbp_df box_df (Some player_name) team_id ids
     /\ Forall (fun e => (1 <= PlayerGameJson.shots e)%nat
                         /\ (PlayerGameJson.makes e <= PlayerGameJson.shots e)%nat)
               (List.concat results)).
  { unfold shots_over, makes_over. clear Hperm.
    induction Em as [|g es ids' results' Hg HF IH].
    - repeat split; try reflexivity. constructor.
    - destruct IH as [IH1 [IH2 [IH3 IH4]]].
      cbn [List.concat filter map].
      rewrite length_app, !map_app, !list_sum_app, !list_sum_step, IH1, IH2, IH3.
      pose proof (player_game_entry_spec pbp_df box_df team_id player_name g) as Hs.
      pose proof (filter_length_le
                    (fun s => Bool.eqb (Pbp.scoring_play (Shot.play s)) true)
                    (player_shots_in pbp_df box_df (Some player_name) team_id g))
        as Hle.
      fold (scoring (player_shots_in pbp_df box_df (Some player_name) team_id g))
        in Hle.
      destruct (has_shots pbp_df box_df (Some player_name) team_id g) eqn:Eh;
        unfold has_shots in Eh.
      + apply Nat.ltb_lt in Eh. destruct Hs as [r [_ E]]. rewrite E in Hg.
        destruct (player_score (play_perspective team_id r)); cbn [bind] in Hg;
          [|discriminate].
        inversion Hg; subst es.
        cbn [List.length map PlayerGameJson.shots PlayerGameJson.makes].
        rewrite !list_sum_step. cbn [list_sum fold_right].
        repeat split; try lia.
        constructor; [|exact IH4].
        cbn [PlayerGameJson.shots PlayerGameJson.makes]. split; lia.
      + apply Nat.ltb_ge in Eh. rewrite Hs in Hg. inversion Hg; subst es.
        cbn [List.length map list_sum fold_right].
        repeat split; try lia. exact IH4. }
  destruct Hall as [H1 [H2 [H3 H4]]].
  split; [exact H1|]. split; [exact H2|]. split; [exact H3|].
  apply Forall_forall. intros e He. rewrite Forall_forall in H4.
  apply H4. now apply sort_by_In in He.
Qed.

Lemma get_player_games_totals_witness :
  exists l,
    get_player_games pbp_sample box_sample 8 "Cameron Boozer" = Ok l
    /\ List.length l = 2%nat
    /\ list_sum (map PlayerGameJson.shots l)
       = shots_over pbp_sample box_sample (Some "Cameron Boozer") 8
           (player_game_ids box_sample (Some "Cameron Boozer") 8).
Proof.
  eexists. split; [vm_compute; reflexivity|].
  split; [reflexivity|].
  eapply (@get_player_games_totals pbp_sample box_sample 8 "Cameron Boozer").
  vm_compute. reflexivity.
Defined.

(** ** The single-game chart *)

Lemma create_shot_chart_outcome (player_shots : list Shot.row)
    (player_name : string) (game_info : Game.row) (team_id : Z) :
  create_shot_chart player_shots player_name game_info team_id
  = match team_score (game_perspective team_id game_info),
          opp_score (game_perspective team_id game_info) with
    | Some _, None => Raise ValueError
    | _, _ => Ok (chart_title player_name game_info team_id)
    end.
Proof.
  unfold create_shot_chart, chart_title, title_suffix, result_line, win_loss.
  destruct (team_score (game_perspective team_id game_info)) as [a|];
  destruct (opp_score (game_perspective team_id game_info)) as [b|];
    reflexivity.
Qed.

(** X12. What [get_shot_chart] answers, on every input: [IndexError] when
    [get_team_games] has no record of the game for the team; otherwise the
    404 body when the selected shot set is empty (all team shots for Team
    View, the shots under that display name otherwise); otherwise
    [ValueError] when the game record has the team's score without the
    opponent's; otherwise the chart, titled with the perspective of the
    team, with makes, misses = total - makes, total and the percentage of the
    selected shots. *)
Theorem get_shot_chart_outcome (pbp_df : list Pbp.row) (box_df : list Box.row)
    (game_id team_id : Z) (player_name : string) :
  let player_shots := chart_shots pbp_df box_df game_id team_id player_name in
  let makes := List.length (scoring player_shots) in
  let total := List.length player_shots in
  get_shot_chart pbp_df box_df game_id team_id player_name
  = match filter (fun g => Game.game_id g =? game_id)
                 (get_team_games pbp_df team_id) with
    | [] => Raise IndexError
    | game_info :: _ =>
        match player_shots with
        | [] => Ok (Json404 "No shots found")
        | _ :: _ =>
            match team_score (game_perspective team_id game_info),
                  opp_score (game_perspective team_id game_info) with
            | Some _, None => Raise ValueError
            | _, _ =>
                Ok (Json200
                      (Chart.mk (chart_title player_name game_info team_id)
                         (Stats.mk makes (Z.of_nat total - Z.of_nat makes)
                            total (pct_spec makes total) None)))
            end
        end
    end.
Proof.
  cbv zeta. unfold get_shot_chart, chart_shots.
  destruct (get_player_shots pbp_df box_df game_id team_id) as [ts tp].
  cbn [fst].
  destruct (filter (fun g => Game.game_id g =? game_id)
                   (get_team_games pbp_df team_id)) as [|gi rest];
    [reflexivity|].
  cbn [iloc0 bind].
  destruct (if (player_name =? "Team View")%string then ts
            else shots_of (Some player_name) ts) as [|s ss] eqn:Eps;
    [reflexivity|].
  cbn [List.length Nat.eqb].
  rewrite create_shot_chart_outcome.
  destruct (team_score (game_perspective team_id gi)) as [a|];
  destruct (opp_score (game_perspective team_id gi)) as [b|];
    cbn [bind]; rewrite ?percentage_of_spec; reflexivity.
Qed.

(** X13. A chart agrees with the player list of the same game and team:
    for Team View its total, makes and percentage are those of the Team
    View entry of [get_players], and for any other name they are those of
    every player entry under that name. *)
Theorem get_shot_chart_agrees_with_players (pbp_df : list Pbp.row)
    (box_df : list Box.row) (game_id team_id : Z) (player_name : string)
    (c : Chart.t) :
  get_shot_chart pbp_df box_df game_id team_id player_name = Ok (Json200 c) ->
  exists tv players,
    get_players pbp_df box_df game_id team_id = Ok (tv :: players)
    /\ forall e,
         (player_name = "Team View" /\ e = tv)
         \/ (player_name <> "Team View" /\ In e players
             /\ PlayerJson.name e = player_name) ->
         Stats.total (Chart.stats c) = PlayerJson.shots e
         /\ Stats.makes (Chart.stats c) = PlayerJson.makes e
         /\ Stats.percentage (Chart.stats c) = PlayerJson.percentage e.
Proof.
  intros Hc. eexists. eexists. split; [apply get_players_spec|].
  unfold get_shot_chart in Hc.
  destruct (get_player_shots pbp_df box_df game_id team_id) as [ts tp].
  cbn [fst snd].
  destruct (iloc0 _) as [gi|err]; cbn [bind] in Hc; [|discriminate].
  destruct (List.length _ =? 0)%nat; [discriminate|].
  destruct (create_shot_chart _ _ _ _) as [title|err]; cbn [bind] in Hc;
    [|discriminate].
  rewrite percentage_of_spec in Hc. cbn [bind] in Hc.
  inversion Hc; subst c. clear Hc.
  cbn [Chart.stats Stats.total Stats.makes Stats.percentage].
  intros e [[Hn ->]|[Hn [He Hname]]].
  - subst player_name. cbn [String.eqb Ascii.eqb Bool.eqb].
    cbn [PlayerJson.shots PlayerJson.makes PlayerJson.percentage]. auto.
  - apply String.eqb_neq in Hn. rewrite Hn.
    apply in_map_iff in He. destruct He as [ip [<- _]].
    cbn [PlayerJson.name PlayerJson.shots PlayerJson.makes
         PlayerJson.percentage] in *.
    rewrite Hname. auto.
Qed.

Lemma get_shot_chart_agrees_with_players_witness :
  exists tv players,
    get_players pbp_sample box_sample 1 8 = Ok (tv :: players)
    /\ forall e,
         ("Team View" = "Team View" /\ e = tv)
         \/ ("Team View" <> "Team View" /\ In e players
             /\ PlayerJson.name e = "Team View") ->
         Stats.total (Chart.stats chart_sample) = PlayerJson.shots e
         /\ Stats.makes (Chart.stats chart_sample) = PlayerJson.makes e
         /\ Stats.percentage (Chart.stats chart_sample)
            = PlayerJson.percentage e.
Proof.
  apply (@get_shot_chart_agrees_with_players pbp_sample box_sample 1 8
           "Team View" chart_sample).
  vm_compute. reflexivity.
Defined.

(** ** The order of the formatted dates *)

Lemma string_compare_refl (s : string) : String.compare s s = Eq.
Proof.
  induction s as [|c s IH]; [reflexivity|].
  cbn [String.compare]. unfold Ascii.compare. now rewrite N.compare_refl.
Qed.

Lemma string_compare_app (a b s : string) :
  String.length a = String.length b ->
  String.compare (a ++ s) (b ++ s) = String.compare a b.
Proof.
  revert b. induction a as [|x a IH]; intros [|y b] H; simpl in H;
    try discriminate.
  - apply string_compare_refl.
  - cbn [append String.compare].
    destruct (Ascii.compare x y); [|reflexivity|reflexivity].
    apply IH. now inversion H.
Qed.

Lemma strftime_month_day (dt : date) :
  strftime dt = month_day (month dt) (day dt) ++ str_of_nat (year dt).
Proof.
  unfold strftime, month_day. now rewrite !app_assoc_string.
Qed.

Lemma month_day_table_ok : month_day_table = true.
Proof. vm_compute. reflexivity. Qed.

Lemma month_day_order (m1 d1 m2 d2 : nat) :
  (1 <= m1 <= 12)%nat -> (1 <= d1 <= 31)%nat ->
  (1 <= m2 <= 12)%nat -> (1 <= d2 <= 31)%nat ->
  String.leb (month_day m1 d1) (month_day m2 d2)
  = ((m1 <? m2)%nat || ((m1 =? m2)%nat && (d1 <=? d2)%nat))
  /\ String.length (month_day m1 d1) = 6%nat.
Proof.
  intros Hm1 Hd1 Hm2 Hd2.
  pose proof month_day_table_ok as T. unfold month_day_table in T.
  rewrite forallb_forall in T.
  specialize (T m1 ltac:(apply in_seq; lia)). rewrite forallb_forall in T.
  specialize (T d1 ltac:(apply in_seq; lia)). rewrite forallb_forall in T.
  specialize (T m2 ltac:(apply in_seq; lia)). rewrite forallb_forall in T.
  specialize (T d2 ltac:(apply in_seq; lia)).
  apply andb_true_iff in T. destruct T as [T1 T2].
  apply eqb_prop in T1. apply Nat.eqb_eq in T2. auto.
Qed.

(** Within one calendar year the order of the MM/DD/YYYY strings is the
    order of the dates. *)
Lemma strftime_order_in_year (y : nat) (a b : date) :
  in_year y a -> in_year y b ->
  String.leb (strftime a) (strftime b) = date_leb a b.
Proof.
  intros [Ya [Ma Da]] [Yb [Mb Db]].
  destruct (month_day_order Ma Da Mb Db) as [Hab La].
  destruct (month_day_order Mb Db Ma Da) as [_ Lb].
  rewrite !strftime_month_day, Ya, Yb.
  unfold String.leb. rewrite string_compare_app by congruence.
  fold (String.leb (month_day (month a) (day a)) (month_day (month b) (day b))).
  rewrite Hab. unfold date_leb. rewrite Ya, Yb, Nat.ltb_irrefl, Nat.eqb_refl.
  reflexivity.
Qed.

Lemma sorted_by_strings (y : nat) (dates : list date) :
  Forall (in_year y) dates ->
  Sorted (ordered String.leb) (map strftime dates) ->
  Sorted (ordered date_leb) dates.
Proof.
  induction dates as [|a t IH]; intros Hy Hs; [constructor|].
  inversion Hy as [|? ? Ha Ht]; subst.
  cbn [map] in Hs. inversion Hs as [|? ? Hs' Hhd]; subst.
  constructor; [now apply IH|].
  destruct t as [|b t']; [constructor|].
  inversion Ht as [|? ? Hb _]; subst.
  cbn [map] in Hhd. inversion Hhd as [|? ? Hab]; subst.
  constructor. unfold ordered in *.
  now rewrite <- (strftime_order_in_year Ha Hb).
Qed.

Lemma sorted_map {A B : Type} (f : A -> B) (leb : B -> B -> bool)
    (l : list A) :
  Sorted (ordered (fun a b => leb (f a) (f b))) l ->
  Sorted (ordered leb) (map f l).
Proof.
  induction 1 as [|a t Hs IH Hhd]; cbn [map]; constructor; [exact IH|].
  destruct Hhd; cbn [map]; constructor; assumption.
Qed.

Lemma exists_list {A B : Type} (R : A -> B -> Prop) (l : list A) :
  (forall x, In x l -> exists y, R x y) ->
  exists ys, Forall2 R l ys.
Proof.
  induction l as [|x t IH]; intros H.
  - exists []. constructor.
  - destruct (H x (or_introl eq_refl)) as [y Hy].
    destruct IH as [ys Hys]; [intros z Hz; apply H; now right|].
    exists (y :: ys). now constructor.
Qed.

(** X14. When every play-by-play row is dated in one calendar year, the
    listing of [get_player_games] is in chronological order: its date
    strings are those of dates that never decrease.  (Across the turn of a
    year the string order puts January before November.) *)
Theorem get_player_games_chronological_in_year (pbp_df : list Pbp.row)
    (box_df : list Box.row) (team_id : Z) (player_name : string) (y : nat)
    (l : list PlayerGameJson.t) :
  (forall r, In r pbp_df -> in_year y (Pbp.game_date r)) ->
  get_player_games pbp_df box_df team_id player_name = Ok l ->
  exists dates,
    map PlayerGameJson.date l = map strftime dates
    /\ Forall (in_year y) dates
    /\ Sorted (ordered date_leb) dates.
Proof.
  intros Hy H. unfold get_player_games in H.
  destruct (mapM (player_game_entry pbp_df box_df team_id player_name) _)
    as [results|e] eqn:Em; cbn [bind] in H; [|discriminate].
  inversion H; subst l. clear H. apply mapM_inv in Em.
  set (l := sort_by date_str_leb (List.concat results)).
  assert (Hdates : forall e, In e l ->
            exists dt, PlayerGameJson.date e = strftime dt /\ in_year y dt).
  { intros e He. apply sort_by_In in He.
    destruct (@Forall2_concat_In _ _ _ _ _ _ Em He) as [g [es [_ [Hg Hin]]]].
    pose proof (player_game_entry_spec pbp_df box_df team_id player_name g)
      as Hs.
    destruct (has_shots pbp_df box_df (Some player_name) team_id g).
    - destruct Hs as [r [Hr E]]. rewrite E in Hg.
      destruct (player_score (play_perspective team_id r)); cbn [bind] in Hg;
        [|discriminate].
      inversion Hg; subst es. destruct Hin as [<-|[]].
      exists (Pbp.game_date r). split; [reflexivity|].
      apply Hy. apply iloc_last_In in Hr. apply filter_In in Hr. tauto.
    - rewrite Hs in Hg. inversion Hg; subst es. contradiction. }
  destruct (exists_list
              (fun e dt => PlayerGameJson.date e = strftime dt /\ in_year y dt)
              l Hdates) as [dates HF].
  assert (Hmap : map PlayerGameJson.date l = map strftime dates
                 /\ Forall (in_year y) dates).
  { clear Hdates. induction HF as [|e dt l' ds [Hd Hin] _ [IH1 IH2]].
    - split; [reflexivity|constructor].
    - cbn [map]. rewrite Hd, IH1. split; [reflexivity|now constructor]. }
  destruct Hmap as [Hmap Hall].
  exists dates. split; [exact Hmap|]. split; [exact Hall|].
  apply (sorted_by_strings Hall). rewrite <- Hmap.
  apply sorted_map. unfold l.
  apply (sort_by_sorted date_str_leb).
  intros a b. apply String.leb_total.
Qed.

Lemma get_player_games_chronological_in_year_witness :
  exists dates,
    map PlayerGameJson.date
        [ PlayerGameJson.mk 2 "11/04/2025" "Home" "@" "L 65-70" 1 1;
          PlayerGameJson.mk 1 "11/27/2025" "Away" "vs" "W 80-71" 1 1 ]
    = map strftime dates
    /\ Forall (in_year 2025) dates
    /\ Sorted (ordered date_leb) dates.
Proof.
  apply (@get_player_games_chronological_in_year pbp_sample box_sample 8
           "Cameron Boozer" 2025).
  - intros r Hr. simpl in Hr.
    repeat (destruct Hr as [<-|Hr]; [vm_compute; repeat split; lia|]).
    contradiction.
  - vm_compute. reflexivity.
Defined.

(* ================================================================== *)
(** * The join key in its stored form *)

Ltac no_key_match :=
  split;
  [ intros H; discriminate H
  | intros [H|[s' [t' [H1 H2]]]];
    [ discriminate H | first [discriminate H1 | discriminate H2] ] ].

(** Two binary64 keys match when they are the same value: the same float,
    or two zeros. *)
Lemma float_key_eqb_true (a b : spec_float) :
  IdRepr.float_key_eqb a b = true <->
  a = b \/ (exists s t, a = S754_zero s /\ b = S754_zero t).
Proof.
  unfold IdRepr.float_key_eqb, SFeqb.
  destruct a as [s|s| |s m e], b as [t|t| |t n f];
    cbn [IdRepr.isnan andb orb SFcompare].
  all: try destruct s; try destruct t.
  all: try solve [no_key_match].
  all: try solve [split; [intros _; left; reflexivity | intros _; reflexivity]].
  all: try solve [split; [intros _; right; eexists; eexists; split; reflexivity
                         | intros _; reflexivity]].
  all: change (Pos.compare_cont Eq m n) with (Pos.compare m n);
       destruct (Z.compare_spec e f) as [E|E|E];
       destruct (Pos.compare_spec m n) as [F|F|F]; cbn [CompOpp];
       split; intros H; try discriminate H; subst;
       try (left; reflexivity); try reflexivity;
       destruct H as [H|[s' [t' [H1 H2]]]]; try discriminate H1;
       inversion H; lia.
Qed.

Lemma float_key_eqb_refl (a : spec_float) : IdRepr.float_key_eqb a a = true.
Proof. apply float_key_eqb_true. now left. Qed.

Lemma float_key_eqb_sym (a b : spec_float) :
  IdRepr.float_key_eqb a b = true -> IdRepr.float_key_eqb b a = true.
Proof.
  rewrite !float_key_eqb_true. intros [->|[s [t [-> ->]]]]; [now left|].
  right. eauto.
Qed.

Lemma float_key_eqb_trans (a b c : spec_float) :
  IdRepr.float_key_eqb a b = true -> IdRepr.float_key_eqb b c = true ->
  IdRepr.float_key_eqb a c = true.
Proof.
  rewrite !float_key_eqb_true.
  intros [->|[s [t [-> ->]]]] H; [exact H|].
  destruct H as [<-|[s' [t' [_ ->]]]]; right; eauto.
Qed.

Lemma stored_eqb_refl (a : option IdRepr.id_cell) : IdRepr.stored_eqb a a = true.
Proof.
  destruct a as [[z|f]|]; cbn; [apply Z.eqb_refl|apply float_key_eqb_refl|reflexivity].
Qed.

Lemma stored_eqb_trans (a b c : option IdRepr.id_cell) :
  IdRepr.stored_eqb a b = true -> IdRepr.stored_eqb b c = true ->
  IdRepr.stored_eqb a c = true.
Proof.
  destruct a as [[x|f]|], b as [[y|g]|], c as [[z|h]|]; cbn;
    try discriminate; auto.
  - rewrite !Z.eqb_eq. congruence.
  - apply float_key_eqb_trans.
Qed.

Lemma stored_name_row_eqb_refl (a : IdRepr.name_row) :
  IdRepr.name_row_eqb a a = true.
Proof.
  unfold IdRepr.name_row_eqb. rewrite stored_eqb_refl.
  destruct (snd a); cbn; [apply String.eqb_refl|reflexivity].
Qed.

Lemma stored_name_row_eqb_trans (a b c : IdRepr.name_row) :
  IdRepr.name_row_eqb a b = true -> IdRepr.name_row_eqb b c = true ->
  IdRepr.name_row_eqb a c = true.
Proof.
  unfold IdRepr.name_row_eqb. rewrite !andb_true_iff.
  intros [H1 H1'] [H2 H2']. split; [exact (stored_eqb_trans _ _ _ H1 H2)|].
  apply (key_eqb_spec String.eqb String.eqb_eq) in H1', H2'.
  apply (key_eqb_spec String.eqb String.eqb_eq). congruence.
Qed.

(** Cells that [drop_duplicates] takes for equal are equal join keys once
    converted. *)
Lemma stored_eqb_key (a b : option IdRepr.id_cell) :
  IdRepr.stored_eqb a b = true ->
  IdRepr.float_key_eqb (IdRepr.as_float64 (IdRepr.astype_float a))
                       (IdRepr.as_float64 (IdRepr.astype_float b)) = true.
Proof.
  destruct a as [[x|f]|], b as [[y|g]|]; cbn; try discriminate; auto.
  rewrite Z.eqb_eq. intros ->. apply float_key_eqb_refl.
Qed.

(** With an equivalence for equality, [drop_duplicates] keeps a
    representative of every row. *)
Lemma unique_by_keeps {A : Type} (eqb : A -> A -> bool) (l : list A) (x : A) :
  (forall a, eqb a a = true) ->
  (forall a b c, eqb a b = true -> eqb b c = true -> eqb a c = true) ->
  In x l -> exists y, In y (unique_by eqb l) /\ eqb y x = true.
Proof.
  intros Hrefl Htrans. induction l as [|a t IH]; [contradiction|].
  intros [->|Hx].
  - exists x. split; [now left|apply Hrefl].
  - destruct (IH Hx) as [y [Hy Hyx]]. cbn [unique_by].
    destruct (eqb a y) eqn:E.
    + exists a. split; [now left|]. now apply (Htrans a y x).
    + exists y. split; [|exact Hyx]. right. apply filter_In.
      split; [exact Hy|]. now rewrite E.
Qed.

Lemma stores_as_float64 (c : option IdRepr.id_cell) (z : Z) :
  IdRepr.stores c z ->
  IdRepr.as_float64 c = float_of_Z z
  /\ IdRepr.as_float64 (IdRepr.astype_float c) = float_of_Z z.
Proof. intros [->| ->]; split; reflexivity. Qed.

Lemma astype_float_floating (c : option IdRepr.id_cell) :
  IdRepr.floating (IdRepr.astype_float c).
Proof. destruct c as [[z|f]|]; exact I. Qed.

(** C6, as the code has it: only the box-score side of the join key is
    converted, to a binary64, before the join; the play-event side reaches
    the join in the form in which it is stored.  The join compares the keys
    as binary64 values, so a box-score row and a play event of the game that
    store the same identifier match whichever of them stores it as an
    integer and whichever as a floating value, the play gets the player's
    name, and the join drops no play. *)
Theorem join_key_one_sided (pbp_df : list IdRepr.play)
    (box_df : list IdRepr.box) (game : Z) :
  Forall IdRepr.floating (IdRepr.right_keys box_df game)
  /\ (forall c, In c (IdRepr.left_keys pbp_df game) <->
        exists r, In r pbp_df /\ IdRepr.game_id r = game
                  /\ IdRepr.athlete_id_1 r = c)
  /\ (forall r b z,
        In r pbp_df -> IdRepr.game_id r = game ->
        In b box_df -> IdRepr.box_game_id b = game ->
        IdRepr.stores (IdRepr.athlete_id_1 r) z ->
        IdRepr.stores (IdRepr.athlete_id b) z ->
        In (IdRepr.mkShot r (IdRepr.athlete_display_name b))
           (IdRepr.joined pbp_df box_df game))
  /\ (forall r, In r pbp_df -> IdRepr.game_id r = game ->
        exists s, In s (IdRepr.joined pbp_df box_df game)
                  /\ IdRepr.shot_play s = r).
Proof.
  split; [|split; [|split]].
  - unfold IdRepr.right_keys, IdRepr.names. rewrite map_map. cbn [fst].
    apply Forall_forall. intros c Hc. apply in_map_iff in Hc.
    destruct Hc as [n [<- _]]. apply astype_float_floating.
  - intros c. unfold IdRepr.left_keys, IdRepr.game_plays.
    rewrite in_map_iff. split.
    + intros [r [<- Hr]]. apply filter_In in Hr. destruct Hr as [Hr Hg].
      exists r. rewrite Z.eqb_eq in Hg. auto.
    + intros [r [Hr [Hg <-]]]. exists r. split; [reflexivity|].
      apply filter_In. split; [exact Hr|now apply Z.eqb_eq].
  - intros r b z Hr Hg Hb Hbg Hsr Hsb.
    unfold IdRepr.joined. apply in_flat_map. exists r. split.
    { apply filter_In. split; [exact Hr|now apply Z.eqb_eq]. }
    assert (Hraw : In (IdRepr.athlete_id b, IdRepr.athlete_display_name b)
                      (map (fun b => (IdRepr.athlete_id b,
                                      IdRepr.athlete_display_name b))
                           (filter (fun b => IdRepr.box_game_id b =? game)
                                   box_df))).
    { apply in_map_iff. exists b. split; [reflexivity|].
      apply filter_In. split; [exact Hb|now apply Z.eqb_eq]. }
    destruct (unique_by_keeps IdRepr.name_row_eqb _ _
                stored_name_row_eqb_refl stored_name_row_eqb_trans Hraw)
      as [[cy ny] [Hy Heq]].
    unfold IdRepr.name_row_eqb in Heq. cbn [fst snd] in Heq.
    apply andb_true_iff in Heq. destruct Heq as [Hcell Hname].
    apply (key_eqb_spec String.eqb String.eqb_eq) in Hname. subst ny.
    assert (Hin : In (IdRepr.astype_float cy, IdRepr.athlete_display_name b)
                     (IdRepr.names box_df game)).
    { unfold IdRepr.names. apply in_map_iff.
      exists (cy, IdRepr.athlete_display_name b). split; [reflexivity|exact Hy]. }
    assert (Hkey : IdRepr.merge_key_eqb (IdRepr.athlete_id_1 r)
                     (IdRepr.astype_float cy) = true).
    { unfold IdRepr.merge_key_eqb.
      destruct (stores_as_float64 Hsr) as [-> _].
      destruct (stores_as_float64 Hsb) as [_ Eb].
      apply float_key_eqb_sym. pose proof (stored_eqb_key _ _ Hcell) as Hk.
      now rewrite Eb in Hk. }
    unfold IdRepr.merge_names.
    assert (Hf : In (IdRepr.astype_float cy, IdRepr.athlete_display_name b)
                    (filter (fun n => IdRepr.merge_key_eqb
                                        (IdRepr.athlete_id_1 r) (fst n))
                            (IdRepr.names box_df game))).
    { apply filter_In. split; [exact Hin|exact Hkey]. }
    destruct (filter (fun n => IdRepr.merge_key_eqb (IdRepr.athlete_id_1 r) (fst n))
                     (IdRepr.names box_df game)) as [|m ms];
      [contradiction|].
    apply (in_map (fun n => IdRepr.mkShot r (snd n))) in Hf. exact Hf.
  - intros r Hr Hg.
    assert (Hne : exists s, In s (IdRepr.merge_names (IdRepr.names box_df game) r)
                            /\ IdRepr.shot_play s = r).
    { unfold IdRepr.merge_names.
      destruct (filter (fun n => IdRepr.merge_key_eqb (IdRepr.athlete_id_1 r) (fst n))
                       (IdRepr.names box_df game)) as [|m ms].
      - eexists. split; [now left|reflexivity].
      - eexists. split; [cbn [map]; now left|reflexivity]. }
    destruct Hne as [s [Hs Hp]]. exists s. split; [|exact Hp].
    unfold IdRepr.joined. apply in_flat_map. exists r. split; [|exact Hs].
    apply filter_In. split; [exact Hr|now apply Z.eqb_eq].
Qed.

(** C6 counterexample: the first play of [pbp_mixed] stores its athlete as
    the integer 100; the code converts the box-score column alone, so this
    key reaches the join as an integer against binary64 keys. *)
Lemma normalized_on_both_sides_fails :
  ~ IdRepr.normalized_on_both_sides IdRepr.pbp_mixed IdRepr.box_mixed 1.
Proof.
  intros H.
  apply (H (Some (IdRepr.IntId 100))
           (Some (IdRepr.FloatId (float_of_Z 100)))).
  - cbn. left. reflexivity.
  - cbn. left. reflexivity.
Qed.

Lemma join_key_one_sided_witness :
  In (IdRepr.mkShot
        (IdRepr.mkPlay 1 (Some (IdRepr.IntId 100)) (Some 8) (Some "JumpShot")
                       true true)
        (Some "Cameron Boozer"))
     (IdRepr.joined IdRepr.pbp_mixed IdRepr.box_mixed 1)
  /\ In (IdRepr.mkShot
           (IdRepr.mkPlay 1 (Some (IdRepr.FloatId (float_of_Z 101))) (Some 8)
                          (Some "LayUpShot") true false)
           (Some "Al Bo"))
        (IdRepr.joined IdRepr.pbp_mixed IdRepr.box_mixed 1).
Proof.
  destruct (join_key_one_sided IdRepr.pbp_mixed IdRepr.box_mixed 1)
    as [_ [_ [Hmatch _]]].
  split.
  - apply (Hmatch _ (IdRepr.mkBox 1 (Some (IdRepr.FloatId (float_of_Z 100)))
                                  (Some "Cameron Boozer") 8) 100).
    + left. reflexivity.
    + reflexivity.
    + left. reflexivity.
    + reflexivity.
    + left. reflexivity.
    + right. reflexivity.
  - apply (Hmatch _ (IdRepr.mkBox 1 (Some (IdRepr.IntId 101))
                                  (Some "Al Bo") 8) 101).
    + right. left. reflexivity.
    + reflexivity.
    + right. left. reflexivity.
    + reflexivity.
    + right. reflexivity.
    + left. reflexivity.
Defined.

(** The whole function on the mixed tables: both shots carry their names. *)
Example get_player_shots_mixed :
  map IdRepr.shot_name
      (fst (IdRepr.get_player_shots IdRepr.pbp_mixed IdRepr.box_mixed 1 8))
  = [Some "Cameron Boozer"; Some "Al Bo"].
Proof. vm_compute. reflexivity. Qed.
